(** * Pokémon Finder: a shallow embedding of [script.js]

  The script looks a creature up by name or identifier at the PokéAPI and
  renders the record into the page.  This development models

  - the string and number built-ins the script calls ([JsString],
    [JsNumber]): strings are byte strings whose case mapping and white
    space cover the ASCII range; numbers are IEEE-754 binary64 values, as
    specified by the standard library's [SpecFloat];
  - the elements of the page the script reads and writes ([Dom]), with the
    small state-and-exception monad the handlers run in;
  - the functions of the script, under their own names, first on bodies
    that are full records ([Script]), then on bodies that lack some of the
    fields ([Sparse]).

  The theorems at the end settle the claims of the specification. *)

From Stdlib Require Import ZArith String Ascii List Bool Lia.
From Stdlib Require Import Floats.SpecFloat.
Import ListNotations.

Open Scope string_scope.
Open Scope Z_scope.

(** ** Strings *)

Module JsString.

Definition is_lower (c : ascii) : bool :=
  let n := nat_of_ascii c in ((97 <=? n) && (n <=? 122))%nat.

Definition is_upper (c : ascii) : bool :=
  let n := nat_of_ascii c in ((65 <=? n) && (n <=? 90))%nat.

Definition upper_char (c : ascii) : ascii :=
  if is_lower c then ascii_of_nat (nat_of_ascii c - 32) else c.

Definition lower_char (c : ascii) : ascii :=
  if is_upper c then ascii_of_nat (nat_of_ascii c + 32) else c.

(** [String.prototype.toUpperCase] and [toLowerCase] on text of the ASCII
    range, where they exchange the letters a-z and A-Z and keep every
    other character.  A byte of a character outside that range is kept as
    it is, whereas the built-ins map such letters as well (and may change
    the length of the text): what depends on the case of text is stated
    for text of the ASCII range only. *)
Fixpoint toUpperCase (s : string) : string :=
  match s with
  | EmptyString => EmptyString
  | String c r => String (upper_char c) (toUpperCase r)
  end.

Fixpoint toLowerCase (s : string) : string :=
  match s with
  | EmptyString => EmptyString
  | String c r => String (lower_char c) (toLowerCase r)
  end.

(** [str.charAt(0)]: the first character as a string, or the empty string
    when there is none. *)
Definition charAt0 (s : string) : string :=
  match s with
  | EmptyString => EmptyString
  | String c _ => String c EmptyString
  end.

(** [str.slice(1)]: everything after the first character. *)
Definition slice1 (s : string) : string :=
  match s with
  | EmptyString => EmptyString
  | String _ r => r
  end.

(** White space and line terminators of the ASCII range: TAB, LF, VT, FF,
    CR and SPACE.  The built-in [trim] removes the white space outside
    that range too (U+00A0, U+FEFF, U+2028, U+2029 and the space
    separators), which [trim] below keeps: what depends on trimming is
    stated for text of the ASCII range only. *)
Definition isWhiteSpace (c : ascii) : bool :=
  let n := nat_of_ascii c in ((n =? 32) || ((9 <=? n) && (n <=? 13)))%nat.

Definition isEmpty (s : string) : bool :=
  match s with EmptyString => true | _ => false end.

Fixpoint trimStart (s : string) : string :=
  match s with
  | EmptyString => EmptyString
  | String c r => if isWhiteSpace c then trimStart r else s
  end.

Fixpoint trimEnd (s : string) : string :=
  match s with
  | EmptyString => EmptyString
  | String c r =>
      let r' := trimEnd r in
      if isWhiteSpace c && isEmpty r' then EmptyString else String c r'
  end.

(** [String.prototype.trim]. *)
Definition trim (s : string) : string := trimEnd (trimStart s).

(** [s.includes(p)]: [p] occurs in [s] as a substring. *)
Fixpoint includes (s p : string) : bool :=
  prefix p s ||
  match s with
  | EmptyString => false
  | String _ r => includes r p
  end.

(** The first [n] characters of the endless repetition of [filler]
    ([cur] is what is left of the current copy). *)
Fixpoint fill (n : nat) (cur filler : string) : string :=
  match n with
  | O => EmptyString
  | S n' =>
      match cur with
      | String c r => String c (fill n' r filler)
      | EmptyString =>
          match filler with
          | String c r => String c (fill n' r filler)
          | EmptyString => EmptyString
          end
      end
  end.

(** [s.padStart(maxLength, fillString)]. *)
Definition padStart (maxLength : nat) (fillString s : string) : string :=
  if (maxLength <=? String.length s)%nat then s
  else if isEmpty fillString then s
  else fill (maxLength - String.length s) fillString fillString ++ s.

Fixpoint zeros (n : nat) : string :=
  match n with
  | O => EmptyString
  | S n' => String "0" (zeros n')
  end.

(** The first [n] characters, and what follows them. *)
Fixpoint take (n : nat) (s : string) : string :=
  match n, s with
  | S n', String c r => String c (take n' r)
  | _, _ => EmptyString
  end.

Fixpoint drop (n : nat) (s : string) : string :=
  match n, s with
  | S n', String _ r => drop n' r
  | _, _ => s
  end.

End JsString.

(** ** Numbers *)

Module JsNumber.
Import JsString.

(** A Number is a binary64 floating-point value: [spec_float] with 53
    digits of mantissa and infinities at exponent 1024.  The arithmetic is
    the standard library's specification of IEEE 754; the two conversions
    to strings follow ECMA-262, Number::toString and
    Number.prototype.toFixed. *)
Definition prec : Z := 53.
Definition emax : Z := 1024.
Definition number : Type := spec_float.

(** The Number an integer literal denotes: the integer rounded to the
    nearest binary64 value (ties to even), as [JSON.parse] and the
    script's own literals produce it. *)
Definition Num (z : Z) : number := binary_normalize prec emax z 0 false.

(** The [/] operator. *)
Definition div (x y : number) : number := SFdiv prec emax x y.

(** The Number nearest to the quotient [a / b] of two positive integers. *)
Definition round_ratio (a b : Z) : number :=
  let '(q, e, l) := SFdiv_core_binary prec emax a 0 b 0 in
  binary_round_aux prec emax false q e l.

(** The value of a positive finite Number [m * 2^e] as a fraction. *)
Definition numerator (m : positive) (e : Z) : Z :=
  if 0 <=? e then Zpos m * 2 ^ e else Zpos m.
Definition denominator (e : Z) : Z :=
  if 0 <=? e then 1 else 2 ^ (- e).

(** *** Decimal digits of a natural number *)

Definition digit (d : Z) : string :=
  String (ascii_of_nat (48 + Z.to_nat d)) EmptyString.

Fixpoint digits_fuel (fuel : nat) (n : Z) : string :=
  match fuel with
  | O => EmptyString
  | S f =>
      if n <? 10 then digit n
      else digits_fuel f (n / 10) ++ digit (n mod 10)
  end.

Definition decimal (n : Z) : string :=
  digits_fuel (S (Z.to_nat (Z.log2 n))) n.

(** The number of decimal digits of [n >= 1]. *)
Definition ndigits (n : Z) : Z := Z.of_nat (String.length (decimal n)).

(** *** [Number::toString], radix 10

    For a positive finite [x = a / b] the conversion looks for integers
    [n], [k] and [s] with [10^(k-1) <= s < 10^k], such that
    [s * 10^(n-k)] rounds to [x] and [k] is as small as possible; when
    several [s] do, it takes the one closest to [x].  The digits of [s] are
    then laid out by the size of [n]: an integer with trailing zeros, a
    decimal point inside or in front of the digits, or exponent notation. *)

(** The integer [n0] with [10^(n0-1) <= a/b < 10^n0]. *)
Fixpoint frac_exponent (fuel : nat) (a b : Z) (t : Z) : Z :=
  match fuel with
  | O => t
  | S f => if b <=? a * 10 then t else frac_exponent f (a * 10) b (t - 1)
  end.

Definition decimal_exponent (a b : Z) : Z :=
  if b <=? a then ndigits (a / b) else frac_exponent 400 a b 0.

(** The Number that [s * 10^j] rounds to. *)
Definition of_scaled (s j : Z) : number :=
  if 0 <=? j then Num (s * 10 ^ j) else round_ratio s (10 ^ (- j)).

(** With unit [10^j], the candidates are the two multiples of the unit
    around [a/b]; the result is the one that rounds to [x], the closer one
    when both do, the even one on a tie. *)
Definition candidate (x : number) (a b j : Z) : option Z :=
  let lo := if 0 <=? j then a / (b * 10 ^ j) else (a * 10 ^ (- j)) / b in
  let hi := lo + 1 in
  let ok_lo := (0 <? lo) && SFeqb (of_scaled lo j) x in
  let ok_hi := SFeqb (of_scaled hi j) x in
  (* compare 2 * (a/b) with (lo + hi) * 10^j *)
  let c := if 0 <=? j then Z.compare (2 * a) ((lo + hi) * 10 ^ j * b)
           else Z.compare (2 * a * 10 ^ (- j)) ((lo + hi) * b) in
  match ok_lo, ok_hi with
  | true, true =>
      match c with
      | Lt => Some lo
      | Gt => Some hi
      | Eq => Some (if Z.even lo then lo else hi)
      end
  | true, false => Some lo
  | false, true => Some hi
  | false, false => None
  end.

(** The search for the smallest [k], from [k] upwards; seventeen digits
    always suffice for a binary64 value.  The result is [(s, k, n)]; a
    candidate that reaches [10^k] is the single digit 1 one place higher. *)
Fixpoint shortest (fuel : nat) (x : number) (a b n0 k : Z) : Z * Z * Z :=
  match fuel with
  | O => (0, k, n0)
  | S f =>
      match candidate x a b (n0 - k) with
      | Some s => if s =? 10 ^ k then (1, 1, n0 + 1) else (s, k, n0)
      | None => shortest f x a b n0 (k + 1)
      end
  end.

Definition exponent_part (n : Z) : string :=
  "e" ++ (if 0 <=? n - 1 then "+" else "-") ++ decimal (Z.abs (n - 1)).

Definition positive_to_string (m : positive) (e : Z) : string :=
  let a := numerator m e in
  let b := denominator e in
  let '(s, k, n) :=
    shortest 17 (S754_finite false m e) a b (decimal_exponent a b) 1 in
  let ds := decimal s in
  if (k <=? n) && (n <=? 21) then ds ++ zeros (Z.to_nat (n - k))
  else if (0 <? n) && (n <=? 21) then
    take (Z.to_nat n) ds ++ "." ++ drop (Z.to_nat n) ds
  else if (-6 <? n) && (n <=? 0) then "0." ++ zeros (Z.to_nat (- n)) ++ ds
  else if k =? 1 then ds ++ exponent_part n
  else take 1 ds ++ "." ++ drop 1 ds ++ exponent_part n.

Definition NumberToString (x : number) : string :=
  match x with
  | S754_nan => "NaN"
  | S754_zero _ => "0"
  | S754_infinity false => "Infinity"
  | S754_infinity true => "-Infinity"
  | S754_finite false m e => positive_to_string m e
  | S754_finite true m e => "-" ++ positive_to_string m e
  end.

(** *** [Number.prototype.toFixed]

    A value that is not finite is converted as by [Number::toString]; so
    is one of size [10^21] or more, after its sign.  Otherwise the digits
    are those of the integer [n] with [n / 10^f] closest to the value. *)

(** The integer [n] for which [n / 10^f] is closest to [m * 2^e]; of two
    such integers, the larger. *)
Definition nearest_scaled (m : positive) (e : Z) (f : nat) : Z :=
  let a := numerator m e * 10 ^ Z.of_nat f in
  let b := denominator e in
  (2 * a + b) / (2 * b).

(** The digits of [n] with a point before the last [f], after padding
    with zeros to [f + 1] digits. *)
Definition fixed_digits (n : Z) (f : nat) : string :=
  let m := decimal n in
  match f with
  | O => m
  | _ =>
      let m := if (String.length m <=? f)%nat then zeros (S f - String.length m) ++ m else m in
      let k := String.length m in
      take (k - f) m ++ "." ++ drop (k - f) m
  end.

Definition toFixed (x : number) (fractionDigits : nat) : string :=
  match x with
  | S754_finite s m e =>
      (if s then "-" else "") ++
      (if 10 ^ 21 * denominator e <=? numerator m e
       then positive_to_string m e
       else fixed_digits (nearest_scaled m e fractionDigits) fractionDigits)
  | S754_zero _ => fixed_digits 0 fractionDigits
  | _ => NumberToString x
  end.

End JsNumber.

(** ** The page *)

Module Dom.

(** A thrown value: an [Error] object, with its [name] and [message]. *)
Record exn : Type := mkExn { exn_name : string; exn_message : string }.

Definition Error (message : string) : exn := mkExn "Error" message.

(** One sprite as [displayPokemon] builds it: a [div] holding an [img] and
    a [p] with the label. *)
Record ImgContainer : Type := mkImg {
  container_classes : list string;
  img_src : string;
  img_alt : string;
  img_classes : list string;
  label_text : string;
  label_classes : list string
}.

(** One type badge: a [span]. *)
Record Badge : Type := mkBadge {
  badge_text : string;
  badge_classes : list string
}.

(** The details view: the text of the card's fields and the children of
    its two containers. *)
Record Card : Type := mkCard {
  pokemonName : string;
  pokemonId : string;
  pokemonImages : list ImgContainer;
  pokemonHeight : string;
  pokemonWeight : string;
  pokemonExperience : string;
  pokemonTypes : list Badge
}.

(** The search button, the loading indicator, the error box and the
    card's visibility ([_hidden] is the presence of the class [hidden]). *)
Record Controls : Type := mkControls {
  searchBtn_disabled : bool;
  searchBtn_textContent : string;
  loadingIndicator_hidden : bool;
  errorMessage_hidden : bool;
  errorText : string;
  pokemonCard_hidden : bool
}.

Record Page : Type := mkPage {
  controls : Controls;
  card : Card;
  pokemonInput_value : string;
  (** what [console.error] has logged *)
  console : list exn;
  (** the URLs handed to [fetch], oldest first *)
  requests : list string
}.

Definition with_controls (f : Controls -> Controls) (p : Page) : Page :=
  mkPage (f (controls p)) (card p) (pokemonInput_value p) (console p) (requests p).

Definition with_card (f : Card -> Card) (p : Page) : Page :=
  mkPage (controls p) (f (card p)) (pokemonInput_value p) (console p) (requests p).

Definition set_input (v : string) (p : Page) : Page :=
  mkPage (controls p) (card p) v (console p) (requests p).

Definition log_error (e : exn) (p : Page) : Page :=
  mkPage (controls p) (card p) (pokemonInput_value p) (console p ++ [e]) (requests p).

Definition add_request (url : string) (p : Page) : Page :=
  mkPage (controls p) (card p) (pokemonInput_value p) (console p) (requests p ++ [url]).

Definition set_disabled (b : bool) (c : Controls) : Controls :=
  mkControls b (searchBtn_textContent c) (loadingIndicator_hidden c)
    (errorMessage_hidden c) (errorText c) (pokemonCard_hidden c).

Definition set_btn_text (t : string) (c : Controls) : Controls :=
  mkControls (searchBtn_disabled c) t (loadingIndicator_hidden c)
    (errorMessage_hidden c) (errorText c) (pokemonCard_hidden c).

Definition set_loading_hidden (b : bool) (c : Controls) : Controls :=
  mkControls (searchBtn_disabled c) (searchBtn_textContent c) b
    (errorMessage_hidden c) (errorText c) (pokemonCard_hidden c).

Definition set_error_hidden (b : bool) (c : Controls) : Controls :=
  mkControls (searchBtn_disabled c) (searchBtn_textContent c)
    (loadingIndicator_hidden c) b (errorText c) (pokemonCard_hidden c).

Definition set_errorText (t : string) (c : Controls) : Controls :=
  mkControls (searchBtn_disabled c) (searchBtn_textContent c)
    (loadingIndicator_hidden c) (errorMessage_hidden c) t (pokemonCard_hidden c).

Definition set_card_hidden (b : bool) (c : Controls) : Controls :=
  mkControls (searchBtn_disabled c) (searchBtn_textContent c)
    (loadingIndicator_hidden c) (errorMessage_hidden c) (errorText c) b.

Definition set_name (t : string) (c : Card) : Card :=
  mkCard t (pokemonId c) (pokemonImages c) (pokemonHeight c) (pokemonWeight c)
    (pokemonExperience c) (pokemonTypes c).

Definition set_id (t : string) (c : Card) : Card :=
  mkCard (pokemonName c) t (pokemonImages c) (pokemonHeight c) (pokemonWeight c)
    (pokemonExperience c) (pokemonTypes c).

Definition set_images (l : list ImgContainer) (c : Card) : Card :=
  mkCard (pokemonName c) (pokemonId c) l (pokemonHeight c) (pokemonWeight c)
    (pokemonExperience c) (pokemonTypes c).

Definition set_height (t : string) (c : Card) : Card :=
  mkCard (pokemonName c) (pokemonId c) (pokemonImages c) t (pokemonWeight c)
    (pokemonExperience c) (pokemonTypes c).

Definition set_weight (t : string) (c : Card) : Card :=
  mkCard (pokemonName c) (pokemonId c) (pokemonImages c) (pokemonHeight c) t
    (pokemonExperience c) (pokemonTypes c).

Definition set_experience (t : string) (c : Card) : Card :=
  mkCard (pokemonName c) (pokemonId c) (pokemonImages c) (pokemonHeight c)
    (pokemonWeight c) t (pokemonTypes c).

Definition set_types (l : list Badge) (c : Card) : Card :=
  mkCard (pokemonName c) (pokemonId c) (pokemonImages c) (pokemonHeight c)
    (pokemonWeight c) (pokemonExperience c) l.

(** *** Computations on the page *)

(** How a statement completes: normally with a value, or by throwing. *)
Inductive completion (A : Type) : Type :=
| Normal (a : A)
| Throw (e : exn).
Arguments Normal {A} a.
Arguments Throw {A} e.

Definition M (A : Type) : Type := Page -> completion A * Page.

Definition ret {A} (a : A) : M A := fun p => (Normal a, p).

Definition bind {A B} (m : M A) (k : A -> M B) : M B :=
  fun p =>
    match m p with
    | (Normal a, p') => k a p'
    | (Throw e, p') => (Throw e, p')
    end.

Definition throw {A} (e : exn) : M A := fun p => (Throw e, p).

(** [try { body } catch (error) { handler }] *)
Definition try_catch {A} (body : M A) (handler : exn -> M A) : M A :=
  fun p =>
    match body p with
    | (Throw e, p') => handler e p'
    | r => r
    end.

Definition modify (f : Page -> Page) : M unit := fun p => (Normal tt, f p).

Definition read {A} (f : Page -> A) : M A := fun p => (Normal (f p), p).

(** [array.forEach(callback)], and [array.map(callback)] with its result
    dropped. *)
Fixpoint forEach {A} (f : A -> M unit) (l : list A) : M unit :=
  match l with
  | [] => ret tt
  | x :: r => bind (f x) (fun _ => forEach f r)
  end.

(** *** [DOMTokenList.add] *)

(** ASCII white space: TAB, LF, FF, CR and SPACE. *)
Definition is_ascii_whitespace (c : ascii) : bool :=
  let n := nat_of_ascii c in
  ((n =? 9) || (n =? 10) || (n =? 12) || (n =? 13) || (n =? 32))%nat.

Fixpoint has_whitespace (s : string) : bool :=
  match s with
  | EmptyString => false
  | String c r => is_ascii_whitespace c || has_whitespace r
  end.

(** The first token that is not valid, if any, with the exception it
    raises (the message texts are Chromium's). *)
Fixpoint invalid_token (tokens : list string) : option exn :=
  match tokens with
  | [] => None
  | t :: r =>
      if JsString.isEmpty t
      then Some (mkExn "SyntaxError" "The token provided must not be empty.")
      else if has_whitespace t
      then Some (mkExn "InvalidCharacterError"
                   ("The token provided ('" ++ t ++ "') contains HTML space characters, which are not valid in tokens."))
      else invalid_token r
  end.

Fixpoint append_tokens (set tokens : list string) : list string :=
  match tokens with
  | [] => set
  | t :: r =>
      append_tokens (if existsb (String.eqb t) set then set else set ++ [t]) r
  end.

(** [element.classList.add(...tokens)] on an element whose class list is
    [set]: every token is checked before any is added. *)
Definition classList_add (set tokens : list string) : M (list string) :=
  match invalid_token tokens with
  | Some e => throw e
  | None => ret (append_tokens set tokens)
  end.

End Dom.

Declare Scope js_scope.
Delimit Scope js_scope with js.
Notation "x <- m ;; k" := (Dom.bind m (fun x => k))
(at level 100, m at next level, right associativity) : js_scope.
Notation "m ;; k" := (Dom.bind m (fun _ => k))
(at level 100, right associativity) : js_scope.

(** ** The script *)

Module Script.
Import JsString JsNumber Dom.
Local Open Scope js_scope.

(** *** The payload of the service *)

(** [data.sprites]: each slot holds a URL or [null]. *)
Record Sprites : Type := mkSprites {
  front_default : option string;
  back_default : option string;
  front_shiny : option string;
  back_shiny : option string
}.

(** The fields of the response body the script reads.  The integer fields
    hold the integer written in the body; the script sees them as the
    Numbers [Num id], [Num height], ...  [types] lists the [type.name] of
    each entry, in order.  Bodies that lack some of these fields are the
    matter of [Sparse]. *)
Record RawRecord : Type := mkRecord {
  id : Z;
  name : string;
  height : Z;
  weight : Z;
  base_experience : Z;
  sprites : Sprites;
  types : list string
}.

(** *** Utility functions *)

(** The first character is the first byte: for a name that starts with a
    letter outside the ASCII range the script gives that letter's capital,
    and this function the name unchanged (see [toUpperCase]). *)
Definition capitalize (str : string) : string :=
  toUpperCase (charAt0 str) ++ slice1 str.

Definition convertHeight (decimeters : number) : string :=
  let meters := toFixed (div decimeters (Num 10)) 2 in
  meters ++ " m".

Definition convertWeight (hectograms : number) : string :=
  let kilograms := toFixed (div hectograms (Num 10)) 2 in
  kilograms ++ " kg".

(** What a property read on the [typeColors] object can give: one of its
    strings, a member inherited from [Object.prototype], or [undefined]. *)
Inductive value : Type :=
| VString (s : string)
| VFunction (fname : string)
| VObject
| VUndefined.

Definition typeColors : list (string * string) :=
  [ ("normal", "bg-gray-400");
    ("fire", "bg-red-500");
    ("water", "bg-blue-500");
    ("electric", "bg-yellow-400");
    ("grass", "bg-green-500");
    ("ice", "bg-blue-200");
    ("fighting", "bg-red-700");
    ("poison", "bg-purple-500");
    ("ground", "bg-yellow-600");
    ("flying", "bg-indigo-400");
    ("psychic", "bg-pink-500");
    ("bug", "bg-green-400");
    ("rock", "bg-yellow-700");
    ("ghost", "bg-purple-700");
    ("dragon", "bg-indigo-700");
    ("dark", "bg-gray-800");
    ("steel", "bg-gray-500");
    ("fairy", "bg-pink-300") ].

(** The properties of [Object.prototype], which an object literal
    inherits; [__proto__] is an accessor that gives the prototype. *)
Definition Object_prototype : list (string * value) :=
  [ ("constructor", VFunction "Object");
    ("__defineGetter__", VFunction "__defineGetter__");
    ("__defineSetter__", VFunction "__defineSetter__");
    ("hasOwnProperty", VFunction "hasOwnProperty");
    ("__lookupGetter__", VFunction "__lookupGetter__");
    ("__lookupSetter__", VFunction "__lookupSetter__");
    ("isPrototypeOf", VFunction "isPrototypeOf");
    ("propertyIsEnumerable", VFunction "propertyIsEnumerable");
    ("toString", VFunction "toString");
    ("valueOf", VFunction "valueOf");
    ("__proto__", VObject);
    ("toLocaleString", VFunction "toLocaleString") ].

Fixpoint assoc {A} (key : string) (l : list (string * A)) : option A :=
  match l with
  | [] => None
  | (k, v) :: r => if String.eqb key k then Some v else assoc key r
  end.

(** [typeColors[key]]: an own property first, then the prototype. *)
Definition Get (key : string) : value :=
  match assoc key typeColors with
  | Some c => VString c
  | None =>
      match assoc key Object_prototype with
      | Some v => v
      | None => VUndefined
      end
  end.

Definition ToBoolean (v : value) : bool :=
  match v with
  | VString s => negb (isEmpty s)
  | VFunction _ => true
  | VObject => true
  | VUndefined => false
  end.

Definition ToString (v : value) : string :=
  match v with
  | VString s => s
  | VFunction f => "function " ++ f ++ "() { [native code] }"
  | VObject => "[object Object]"
  | VUndefined => "undefined"
  end.

Definition getTypeColor (type : string) : value :=
  let v := Get type in
  if ToBoolean v then v else VString "bg-gray-400".

(** *** Showing and hiding *)

Definition showLoading : M unit :=
  modify (with_controls (set_card_hidden true)) ;;
  modify (with_controls (set_error_hidden true)) ;;
  modify (with_controls (set_loading_hidden false)) ;;
  modify (with_controls (set_disabled true)) ;;
  modify (with_controls (set_btn_text "Searching...")).

Definition hideLoading : M unit :=
  modify (with_controls (set_loading_hidden true)) ;;
  modify (with_controls (set_disabled false)) ;;
  modify (with_controls (set_btn_text "Search")).

Definition showError (message : string) : M unit :=
  hideLoading ;;
  modify (with_controls (set_card_hidden true)) ;;
  modify (with_controls (set_errorText message)) ;;
  modify (with_controls (set_error_hidden false)).

(** *** [displayPokemon] *)

Definition imageUrls (data : RawRecord) : list (option string * string) :=
  [ (front_default (sprites data), "Front");
    (back_default (sprites data), "Back");
    (front_shiny (sprites data), "Shiny Front");
    (back_shiny (sprites data), "Shiny Back") ].

(** [if (url)]: neither [null] nor the empty string. *)
Definition present (url : option string) : bool :=
  match url with
  | Some u => negb (isEmpty u)
  | None => false
  end.

Definition appendImage (c : ImgContainer) : M unit :=
  modify (with_card (fun k => set_images (pokemonImages k ++ [c]) k)).

Definition appendType (b : Badge) : M unit :=
  modify (with_card (fun k => set_types (pokemonTypes k ++ [b]) k)).

Definition renderImage (data : RawRecord) (slot : option string * string) : M unit :=
  let '(url, label) := slot in
  if present url then
    box <- classList_add [] ["text-center"] ;;
    cls <- classList_add []
             ["w-32"; "h-32"; "mx-auto"; "hover:scale-110";
              "transition-transform"; "duration-200"] ;;
    lbl <- classList_add [] ["text-sm"; "text-gray-600"; "mt-1"] ;;
    appendImage
      (mkImg box (match url with Some u => u | None => "" end)
         (name data ++ " " ++ label) cls label lbl)
  else ret tt.

Definition renderType (typeName : string) : M unit :=
  let textContent := capitalize typeName in
  let colorClass := getTypeColor typeName in
  cls <- classList_add []
           ["px-4"; "py-2"; "rounded-full"; "text-white"; "font-semibold";
            "text-sm"; ToString colorClass] ;;
  appendType (mkBadge textContent cls).

Definition displayPokemon (data : RawRecord) : M unit :=
  hideLoading ;;
  modify (with_controls (set_error_hidden true)) ;;
  modify (with_card (set_name (capitalize (name data)))) ;;
  modify (with_card
            (set_id ("#" ++ padStart 3 "0" (NumberToString (Num (id data)))))) ;;
  modify (with_card (set_images [])) ;;
  forEach (renderImage data) (imageUrls data) ;;
  modify (with_card (set_height (convertHeight (Num (height data))))) ;;
  modify (with_card (set_weight (convertWeight (Num (weight data))))) ;;
  modify (with_card
            (set_experience (NumberToString (Num (base_experience data))))) ;;
  modify (with_card (set_types [])) ;;
  forEach renderType (types data) ;;
  modify (with_controls (set_card_hidden false)).

(** *** The network *)

(** What [response.json()] settles to: the parsed record, or the
    exception of the parser.  A body that parses to a value without the
    fields of [RawRecord] (an empty object, a list of resources) has no
    case here, and what is stated with this type is stated for these two
    cases; [Sparse.Body] has the bodies with missing fields, and
    [Sparse.fetchPokemon] agrees with [fetchPokemon] on full records. *)
Inductive Body : Type :=
| JsonBody (data : RawRecord)
| BadBody (e : exn).

Record Response : Type := mkResponse {
  status : Z;
  body : Body
}.

(** [response.ok]: the status is in the range 200-299. *)
Definition ok (r : Response) : bool :=
  (200 <=? status r) && (status r <=? 299).

(** What the promise of [fetch] settles to: a response, whatever its
    status, or the exception of the transport. *)
Inductive FetchResult : Type :=
| Rejected (e : exn)
| Resolved (r : Response).

(** *** Names in scope *)

(** The bindings the script declares at its top level. *)
Definition script_bindings : list string :=
  [ "pokemonInput"; "searchBtn"; "loadingIndicator"; "errorMessage";
    "errorText"; "pokemonCard"; "darkModeToggle"; "pokemonName";
    "pokemonId"; "pokemonImages"; "pokemonHeight"; "pokemonWeight";
    "pokemonExperience"; "pokemonTypes"; "isDarkMode"; "capitalize";
    "convertHeight"; "convertWeight"; "getTypeColor"; "showElement";
    "hideElement"; "showLoading"; "hideLoading"; "showError";
    "displayPokemon"; "fetchPokemon" ].

(** The globals of the host the script names.  The elements of the page
    are reachable by their ids as well; the ids the script queries are the
    names of its own constants above. *)
Definition host_globals : list string :=
  [ "document"; "window"; "console"; "fetch"; "String"; "Error" ].

(** Reading an identifier in a scope: a name that is not bound there
    throws a [ReferenceError]. *)
Definition ResolveBinding (scope : list string) (x : string) : M unit :=
  if existsb (String.eqb x) scope then ret tt
  else throw (mkExn "ReferenceError" (x ++ " is not defined")).

Section Lookup.

(** The service, as the answer to each URL. *)
Variable net : string -> FetchResult.

Definition endpoint : string := "https://pokeapi.co/api/v2/pokemon/".

(** [fetch(url)] sends the request when it is called; awaiting its
    promise gives the response or throws. *)
Definition send (url : string) : M unit := modify (add_request url).

Definition receive (url : string) : M Response :=
  match net url with
  | Rejected e => throw e
  | Resolved r => ret r
  end.

Definition fetch (url : string) : M Response := send url ;; receive url.

Definition json (response : Response) : M RawRecord :=
  match body response with
  | JsonBody data => ret data
  | BadBody e => throw e
  end.

Definition console_error (e : exn) : M unit := modify (log_error e).

(** The body of the [try]. *)
Definition try_block (nameOrId : string) : M unit :=
  response <- fetch (endpoint ++ toLowerCase nameOrId) ;;
  (if negb (ok response) then
     if status response =? 404 then
       throw (Error "Pokémon not found! Please check the name or ID and try again.")
     else
       throw (Error ("HTTP Error: " ++ NumberToString (Num (status response))))
   else ret tt) ;;
  data <- json response ;;
  displayPokemon data.

(** The [if] chain of the handler, which picks the message to show. *)
Definition catch_dispatch (error : exn) : M unit :=
  if includes (exn_message error) "Pokémon not found" then
    showError (exn_message error)
  else if includes (exn_message error) "Failed to fetch" then
    showError "Network error! Please check your internet connection."
  else
    showError "Something went wrong! Please try again.".

(** The handler.  Its first statement, on a line of its own, is the
    expression [s]: a read of an identifier that neither the handler, nor
    the function, nor the script, nor the host binds.  The logging and the
    choice of message come after it. *)
Definition catch_block (nameOrId : string) (error : exn) : M unit :=
  ResolveBinding ("error" :: "nameOrId" :: script_bindings ++ host_globals) "s" ;;
  console_error error ;;
  catch_dispatch error.

(** The completion is how the promise of the [async] function settles:
    [Normal] when it is fulfilled, [Throw] when it is rejected. *)
Definition fetchPokemon (nameOrId : string) : M unit :=
  showLoading ;;
  try_catch (try_block nameOrId) (catch_block nameOrId).

(** The part of [fetchPokemon] that runs before it first suspends: the
    page as the caller sees it while the request is outstanding. *)
Definition initiated (nameOrId : string) : M unit :=
  showLoading ;;
  send (endpoint ++ toLowerCase nameOrId).

(** *** Event handlers *)

Definition onSearchClick : M unit :=
  input <- read (fun p => trim (pokemonInput_value p)) ;;
  if isEmpty input then
    showError "Please enter a Pokémon name or ID!"
  else
    fetchPokemon input.

Definition onKeypress (key : string) : M unit :=
  if String.eqb key "Enter" then
    input <- read (fun p => trim (pokemonInput_value p)) ;;
    if isEmpty input then
      showError "Please enter a Pokémon name or ID!"
    else
      fetchPokemon input
  else ret tt.


(** A lookup: the user types [query] and activates the search button. *)
Definition lookup (query : string) : M unit :=
  modify (set_input query) ;;
  onSearchClick.

End Lookup.

End Script.

(** ** What [displayPokemon] renders, as functions of the record *)

Module Render.
Import JsString JsNumber Dom Script.

(** The container built for a slot, if its URL is present. *)
Definition image_of (data : RawRecord) (slot : option string * string)
  : list ImgContainer :=
  match fst slot with
  | Some u =>
      if isEmpty u then []
      else [ mkImg ["text-center"] u (name data ++ " " ++ snd slot)
               ["w-32"; "h-32"; "mx-auto"; "hover:scale-110";
                "transition-transform"; "duration-200"]
               (snd slot)
               ["text-sm"; "text-gray-600"; "mt-1"] ]
  | None => []
  end.

Definition images_of (data : RawRecord) : list ImgContainer :=
  flat_map (image_of data) (imageUrls data).

Definition badge_tokens (typeName : string) : list string :=
  ["px-4"; "py-2"; "rounded-full"; "text-white"; "font-semibold";
   "text-sm"; ToString (getTypeColor typeName)].

Definition badge_of (typeName : string) : Badge :=
  mkBadge (capitalize typeName) (append_tokens [] (badge_tokens typeName)).

(** The badges appended before the loop over the types ends, and the
    exception that ends it early, if any. *)
Fixpoint rendered (ts : list string) : list Badge * option exn :=
  match ts with
  | [] => ([], None)
  | t :: r =>
      match invalid_token (badge_tokens t) with
      | Some e => ([], Some e)
      | None => (badge_of t :: fst (rendered r), snd (rendered r))
      end
  end.

Definition outcome (oe : option exn) : completion unit :=
  match oe with
  | None => Normal tt
  | Some e => Throw e
  end.

(** The card [displayPokemon] leaves. *)
Definition card_of (data : RawRecord) : Card :=
  mkCard (capitalize (name data))
    ("#" ++ padStart 3 "0" (NumberToString (Num (id data))))
    (images_of data)
    (convertHeight (Num (height data)))
    (convertWeight (Num (weight data)))
    (NumberToString (Num (base_experience data)))
    (fst (rendered (types data))).

(** The controls [displayPokemon] leaves: the card is revealed only when
    the function runs to its end. *)
Definition controls_after (oe : option exn) (c : Controls) : Controls :=
  mkControls false "Search" true true (errorText c)
    (match oe with None => false | Some _ => pokemonCard_hidden c end).

(** The labelled URLs of the specification: the four slots in their
    order, each kept when its URL is neither [null] nor empty. *)
Definition slot_entries (sp : Sprites) : list (string * string) :=
  let keep (label : string) (url : option string) :=
    match url with
    | Some u => if isEmpty u then [] else [(label, u)]
    | None => []
    end in
  keep "Front" (front_default sp) ++ keep "Back" (back_default sp) ++
  keep "Shiny Front" (front_shiny sp) ++ keep "Shiny Back" (back_shiny sp).

(** The page after [showLoading]. *)
Definition searching (p : Page) : Page :=
  mkPage (mkControls true "Searching..." false true (errorText (controls p)) true)
    (card p) (pokemonInput_value p) (console p) (requests p).

(** The page while the request to [url] is outstanding. *)
Definition loading (url : string) (p : Page) : Page :=
  add_request url (searching p).

(** The page after [showError message]. *)
Definition failed (message : string) (p : Page) : Page :=
  mkPage (mkControls false "Search" true false message true)
    (card p) (pokemonInput_value p) (console p) (requests p).

Definition unbound_s : exn := mkExn "ReferenceError" "s is not defined".

(** The rounding position of a mantissa that has lost its last binary
    digit: that digit is the new rounding digit, what lay below is sticky. *)
Definition shifted_loc (q : Z) (l : location) : location :=
  match Z.odd q, l with
  | false, loc_Exact => loc_Exact
  | false, _ => loc_Inexact Lt
  | true, loc_Exact => loc_Inexact Eq
  | true, _ => loc_Inexact Gt
  end.

(** A tenth of an integer written with two decimals, as the specification
    words it: the integer part, a point, the tenths digit and a zero. *)
Definition tenths (n : Z) : string :=
  (if n <? 0 then "-" else "") ++
  decimal (Z.abs n / 10) ++ "." ++ digit (Z.abs n mod 10) ++ "0".

(** A page to run examples on: nothing shown yet, no request sent. *)
Definition start : Page :=
  mkPage (mkControls false "Search" true true "" true)
    (mkCard "" "" [] "" "" "" []) "" [] [].

(** A record to run examples on. *)
Definition pikachu : RawRecord :=
  mkRecord 25 "pikachu" 4 60 112
    (mkSprites (Some "https://img.example/25.png") None None None)
    ["electric"].

(** The failure kinds of the specification. *)
Inductive Failure : Type :=
| EmptyQuery
| NotFound
| NetworkFailure
| HttpError (status : Z)
| MalformedResponse.

End Render.

(** ** The theme switch *)

Module Theme.
Import Dom.

(** What the click on the switch reads and writes: the flag [isDarkMode]
    and the class lists of the body, of the switch and of the [span]
    inside it (none, when the switch holds no [span]). *)
Record State : Type := mkTheme {
  isDarkMode : bool;
  body_classList : list string;
  darkModeToggle_classList : list string;
  span_classList : option (list string)
}.

Definition T (A : Type) : Type := State -> completion A * State.

Definition tret {A} (a : A) : T A := fun t => (Normal a, t).

Definition tbind {A B} (m : T A) (k : A -> T B) : T B :=
  fun t =>
    match m t with
    | (Normal a, t') => k a t'
    | (Throw e, t') => (Throw e, t')
    end.

(** [DOMTokenList.remove]: the tokens leave the set. *)
Definition remove_tokens (set tokens : list string) : list string :=
  filter (fun c => negb (existsb (String.eqb c) tokens)) set.

(** [add] and [remove] on a class list, after the check of the tokens. *)
Definition checked (tokens : list string) (f : State -> State) : T unit :=
  fun t =>
    match invalid_token tokens with
    | Some e => (Throw e, t)
    | None => (Normal tt, f t)
    end.

Definition body_add (tokens : list string) : T unit :=
  checked tokens (fun t =>
    mkTheme (isDarkMode t) (append_tokens (body_classList t) tokens)
      (darkModeToggle_classList t) (span_classList t)).

Definition body_remove (tokens : list string) : T unit :=
  checked tokens (fun t =>
    mkTheme (isDarkMode t) (remove_tokens (body_classList t) tokens)
      (darkModeToggle_classList t) (span_classList t)).

Definition toggle_add (tokens : list string) : T unit :=
  checked tokens (fun t =>
    mkTheme (isDarkMode t) (body_classList t)
      (append_tokens (darkModeToggle_classList t) tokens) (span_classList t)).

Definition toggle_remove (tokens : list string) : T unit :=
  checked tokens (fun t =>
    mkTheme (isDarkMode t) (body_classList t)
      (remove_tokens (darkModeToggle_classList t) tokens) (span_classList t)).

(** [darkModeToggle.querySelector('span').classList]: reading [classList]
    of [null] throws before the tokens are looked at. *)
Definition on_span (tokens : list string)
  (f : list string -> list string) : T unit :=
  fun t =>
    match span_classList t with
    | None =>
        (Throw (mkExn "TypeError"
                  "Cannot read properties of null (reading 'classList')"), t)
    | Some k =>
        checked tokens (fun t =>
          mkTheme (isDarkMode t) (body_classList t)
            (darkModeToggle_classList t) (Some (f k))) t
    end.

Definition span_add (tokens : list string) : T unit :=
  on_span tokens (fun k => append_tokens k tokens).

Definition span_remove (tokens : list string) : T unit :=
  on_span tokens (fun k => remove_tokens k tokens).

Definition gradient : list string :=
  ["bg-gradient-to-br"; "from-blue-400"; "via-purple-500"; "to-pink-500"].

Definition flip : T unit :=
  fun t =>
    (Normal tt,
     mkTheme (negb (isDarkMode t)) (body_classList t)
       (darkModeToggle_classList t) (span_classList t)).

(** The listener of the click on the switch. *)
Definition onToggleClick : T unit :=
  tbind flip (fun _ =>
  fun t =>
    (if isDarkMode t then
       tbind (body_add ["bg-gray-900"]) (fun _ =>
       tbind (body_remove gradient) (fun _ =>
       tbind (toggle_add ["bg-purple-600"]) (fun _ =>
       tbind (toggle_remove ["bg-gray-300"]) (fun _ =>
       span_add ["translate-x-6"]))))
     else
       tbind (body_remove ["bg-gray-900"]) (fun _ =>
       tbind (body_add gradient) (fun _ =>
       tbind (toggle_remove ["bg-purple-600"]) (fun _ =>
       tbind (toggle_add ["bg-gray-300"]) (fun _ =>
       span_remove ["translate-x-6"]))))) t).

(** Membership in a class list. *)
Definition has (c : string) (set : list string) : bool :=
  existsb (String.eqb c) set.

(** The classes of each element that the listener adds or removes. *)
Definition body_managed : list string := "bg-gray-900" :: gradient.
Definition toggle_managed : list string := ["bg-purple-600"; "bg-gray-300"].
Definition span_managed : list string := ["translate-x-6"].

(** The classes agree with the flag: the dark ones are there exactly in
    dark mode, the light ones exactly in light mode. *)
Definition agrees (t : State) : bool :=
  let d := isDarkMode t in
  Bool.eqb (has "bg-gray-900" (body_classList t)) d &&
  forallb (fun g => Bool.eqb (has g (body_classList t)) (negb d)) gradient &&
  Bool.eqb (has "bg-purple-600" (darkModeToggle_classList t)) d &&
  Bool.eqb (has "bg-gray-300" (darkModeToggle_classList t)) (negb d) &&
  match span_classList t with
  | Some k => Bool.eqb (has "translate-x-6" k) d
  | None => false
  end.

(** Two class lists with the same members. *)
Definition same_classes (a b : list string) : Prop :=
  forall c, has c a = has c b.

End Theme.

(** ** What can be read off a page and off a rendering *)

Module Observe.
Import JsString JsNumber Dom Script.

(** How many of the three panels (loading indicator, error box, card) are
    shown. *)
Definition shown (hidden : bool) : nat := if hidden then 0 else 1.

Definition panels_shown (p : Page) : nat :=
  (shown (loadingIndicator_hidden (controls p)) +
   shown (errorMessage_hidden (controls p)) +
   shown (pokemonCard_hidden (controls p)))%nat.

(** The number a string of decimal digits denotes. *)
Fixpoint digits_value (s : string) (acc : Z) : Z :=
  match s with
  | EmptyString => acc
  | String c r => digits_value r (10 * acc + (Z.of_nat (nat_of_ascii c) - 48))
  end.

(** Every character is a decimal digit. *)
Fixpoint digits_only (s : string) : bool :=
  match s with
  | EmptyString => true
  | String c r =>
      ((48 <=? nat_of_ascii c) && (nat_of_ascii c <=? 57))%nat && digits_only r
  end.

(** Every character is in the ASCII range. *)
Fixpoint ascii_only (s : string) : bool :=
  match s with
  | EmptyString => true
  | String c r => (nat_of_ascii c <? 128)%nat && ascii_only r
  end.

(** Text of the ASCII range in the words of the specification, written
    without the built-ins of [JsString]: [trimmed] is the text without the
    blanks at its two ends, [lowered] the text with every capital letter
    replaced by its small one, [capitalized] the text with a small first
    letter replaced by its capital. *)
Definition blanks : list ascii :=
  [" "; "009"; "010"; "011"; "012"; "013"]%char.

Definition blank (c : ascii) : bool := existsb (Ascii.eqb c) blanks.

Fixpoint strip (l : list ascii) : list ascii :=
  match l with
  | [] => []
  | c :: r => if blank c then strip r else l
  end.

Definition trimmed (s : string) : string :=
  string_of_list_ascii (rev (strip (rev (strip (list_ascii_of_string s))))).

Definition capitals : list ascii :=
  list_ascii_of_string "ABCDEFGHIJKLMNOPQRSTUVWXYZ".

Definition smalls : list ascii :=
  list_ascii_of_string "abcdefghijklmnopqrstuvwxyz".

(** The letter at the place in [into] that [c] has in [from], and [c]
    itself when it does not occur in [from]. *)
Fixpoint counterpart (from into : list ascii) (c : ascii) : ascii :=
  match from, into with
  | a :: f, b :: t => if Ascii.eqb c a then b else counterpart f t c
  | _, _ => c
  end.

Definition lowered (s : string) : string :=
  string_of_list_ascii
    (map (counterpart capitals smalls) (list_ascii_of_string s)).

Definition capitalized (s : string) : string :=
  match s with
  | EmptyString => EmptyString
  | String c r => String (counterpart smalls capitals c) r
  end.

(** A type name that the object literal does not inherit. *)
Definition plain (t : string) : Prop := assoc t Object_prototype = None.

(** The class [getTypeColor] is meant to give: the one of the table, or
    the default. *)
Definition color_of (t : string) : string :=
  match assoc t typeColors with
  | Some c => c
  | None => "bg-gray-400"
  end.

(** The page after the user has, for each query of a list in turn, typed
    it and pressed Enter in the input, every lookup settled before the
    next.  The key is taken rather than the button because a lookup that
    fails leaves the button disabled, and a disabled button is sent no
    click; the input is never disabled. *)
Fixpoint after_lookups (net : string -> FetchResult) (queries : list string)
  (p : Page) : Page :=
  match queries with
  | [] => p
  | q :: r =>
      after_lookups net r (snd (onKeypress net "Enter" (set_input q p)))
  end.

(** The URL a query of the ASCII range is to be looked up at. *)
Definition url_of (query : string) : string :=
  endpoint ++ lowered (trimmed query).

(** States to run examples on: the controls of a page whose lookup is
    outstanding, and a light theme with a few classes of its own. *)
Definition busy_controls : Controls :=
  mkControls true "Searching..." false true "" true.

Definition light_theme : Theme.State :=
  Theme.mkTheme false
    ["min-h-screen"; "bg-gradient-to-br"; "from-blue-400"; "via-purple-500";
     "to-pink-500"]
    ["relative"; "rounded-full"; "bg-gray-300"]
    (Some ["inline-block"; "transform"]).

End Observe.

(** ** Bodies with missing fields *)

Module Sparse.
Import JsString JsNumber Dom.
Local Open Scope js_scope.

(** A field as the script may find it in a parsed body: not there (the
    read gives [undefined]), [null], or a value of the documented type. *)
Inductive field (A : Type) : Type :=
| Absent
| Null
| Value (a : A).
Arguments Absent {A}.
Arguments Null {A}.
Arguments Value {A} a.

(** [data.sprites]. *)
Record Sprites : Type := mkSprites {
  front_default : field string;
  back_default : field string;
  front_shiny : field string;
  back_shiny : field string
}.

(** [typeInfo.type], and an entry [typeInfo] of [data.types]. *)
Record TypeRef : Type := mkTypeRef { type_name : field string }.

Record TypeInfo : Type := mkTypeInfo { type : field TypeRef }.

(** The body, with each field the script reads absent, [null] or of the
    type of [Script.RawRecord].  A body that is a number, a string, a
    boolean or an array has none of the fields, like the empty object; a
    body with a field of another type has no counterpart here. *)
Record Payload : Type := mkPayload {
  id : field Z;
  name : field string;
  height : field Z;
  weight : field Z;
  base_experience : field Z;
  sprites : field Sprites;
  types : field (list (field TypeInfo))
}.

(** [x.key]: reading a property of [undefined] or of [null] throws (the
    message texts are V8's). *)
Definition member {A} (x : field A) (key : string) : M A :=
  match x with
  | Value a => ret a
  | Absent =>
      throw (mkExn "TypeError"
               ("Cannot read properties of undefined (reading '" ++ key ++ "')"))
  | Null =>
      throw (mkExn "TypeError"
               ("Cannot read properties of null (reading '" ++ key ++ "')"))
  end.

(** [String(x)], and [x] inside a template literal. *)
Definition ToString {A} (show : A -> string) (x : field A) : string :=
  match x with
  | Absent => "undefined"
  | Null => "null"
  | Value a => show a
  end.

(** [x] as an operand of [/]. *)
Definition ToNumber (x : field Z) : number :=
  match x with
  | Absent => S754_nan
  | Null => S754_zero false
  | Value z => Num z
  end.

(** [if (x)] *)
Definition ToBoolean (x : field string) : bool :=
  match x with
  | Value s => negb (isEmpty s)
  | _ => false
  end.

(** [element.textContent = x]: [null] and [undefined] give the empty
    text. *)
Definition textContent (x : field Z) : string :=
  match x with
  | Value z => NumberToString (Num z)
  | _ => ""
  end.

(** [capitalize(str)]: the call of [str.charAt] comes first. *)
Definition capitalize (str : field string) : M string :=
  s <- member str "charAt" ;;
  ret (Script.capitalize s).

Definition imageUrls (sp : Sprites) : list (field string * string) :=
  [ (front_default sp, "Front");
    (back_default sp, "Back");
    (front_shiny sp, "Shiny Front");
    (back_shiny sp, "Shiny Back") ].

Definition renderImage (obj : Payload) (slot : field string * string) : M unit :=
  let '(url, label) := slot in
  if ToBoolean url then
    box <- classList_add [] ["text-center"] ;;
    cls <- classList_add []
             ["w-32"; "h-32"; "mx-auto"; "hover:scale-110";
              "transition-transform"; "duration-200"] ;;
    lbl <- classList_add [] ["text-sm"; "text-gray-600"; "mt-1"] ;;
    Script.appendImage
      (mkImg box (ToString (fun u => u) url)
         (ToString (fun s => s) (name obj) ++ " " ++ label) cls label lbl)
  else ret tt.

Definition renderType (typeInfo : field TypeInfo) : M unit :=
  info <- member typeInfo "type" ;;
  ref <- member (type info) "name" ;;
  text <- capitalize (type_name ref) ;;
  let colorClass :=
    Script.getTypeColor (ToString (fun s => s) (type_name ref)) in
  cls <- classList_add []
           ["px-4"; "py-2"; "rounded-full"; "text-white"; "font-semibold";
            "text-sm"; Script.ToString colorClass] ;;
  Script.appendType (mkBadge text cls).

Definition displayPokemon (data : field Payload) : M unit :=
  Script.hideLoading ;;
  modify (with_controls (set_error_hidden true)) ;;
  obj <- member data "name" ;;
  text <- capitalize (name obj) ;;
  modify (with_card (set_name text)) ;;
  modify (with_card
            (set_id ("#" ++ padStart 3 "0"
                              (ToString (fun z => NumberToString (Num z)) (id obj))))) ;;
  modify (with_card (set_images [])) ;;
  sp <- member (sprites obj) "front_default" ;;
  forEach (renderImage obj) (imageUrls sp) ;;
  modify (with_card (set_height (Script.convertHeight (ToNumber (height obj))))) ;;
  modify (with_card (set_weight (Script.convertWeight (ToNumber (weight obj))))) ;;
  modify (with_card (set_experience (textContent (base_experience obj)))) ;;
  modify (with_card (set_types [])) ;;
  entries <- member (types obj) "map" ;;
  forEach renderType entries ;;
  modify (with_controls (set_card_hidden false)).

(** *** The response *)

Inductive Body : Type :=
| JsonBody (data : field Payload)
| BadBody (e : exn).

Record Response : Type := mkResponse {
  status : Z;
  body : Body
}.

Definition ok (r : Response) : bool :=
  (200 <=? status r) && (status r <=? 299).

Inductive FetchResult : Type :=
| Rejected (e : exn)
| Resolved (r : Response).

Section Lookup.

Variable net : string -> FetchResult.

Definition receive (url : string) : M Response :=
  match net url with
  | Rejected e => throw e
  | Resolved r => ret r
  end.

Definition fetch (url : string) : M Response := Script.send url ;; receive url.

Definition json (response : Response) : M (field Payload) :=
  match body response with
  | JsonBody data => ret data
  | BadBody e => throw e
  end.

Definition try_block (nameOrId : string) : M unit :=
  response <- fetch (Script.endpoint ++ toLowerCase nameOrId) ;;
  (if negb (ok response) then
     if status response =? 404 then
       throw (Error "Pokémon not found! Please check the name or ID and try again.")
     else
       throw (Error ("HTTP Error: " ++ NumberToString (Num (status response))))
   else ret tt) ;;
  data <- json response ;;
  displayPokemon data.

Definition fetchPokemon (nameOrId : string) : M unit :=
  Script.showLoading ;;
  try_catch (try_block nameOrId) (Script.catch_block nameOrId).

End Lookup.

(** *** Full records among the bodies *)

Definition of_slot (url : option string) : field string :=
  match url with
  | Some u => Value u
  | None => Null
  end.

Definition of_record (r : Script.RawRecord) : field Payload :=
  Value
    (mkPayload (Value (Script.id r)) (Value (Script.name r))
       (Value (Script.height r)) (Value (Script.weight r))
       (Value (Script.base_experience r))
       (Value (mkSprites
                 (of_slot (Script.front_default (Script.sprites r)))
                 (of_slot (Script.back_default (Script.sprites r)))
                 (of_slot (Script.front_shiny (Script.sprites r)))
                 (of_slot (Script.back_shiny (Script.sprites r)))))
       (Value (map (fun t => Value (mkTypeInfo (Value (mkTypeRef (Value t)))))
                 (Script.types r)))).

Definition of_body (b : Script.Body) : Body :=
  match b with
  | Script.JsonBody r => JsonBody (of_record r)
  | Script.BadBody e => BadBody e
  end.

Definition of_result (x : Script.FetchResult) : FetchResult :=
  match x with
  | Script.Rejected e => Rejected e
  | Script.Resolved r =>
      Resolved (mkResponse (Script.status r) (of_body (Script.body r)))
  end.

(** *** Which bodies can be displayed *)

(** The name of an entry of [types], when the entry, its [type] and the
    [name] of that are all there. *)
Definition entry_name (typeInfo : field TypeInfo) : option string :=
  match typeInfo with
  | Value info =>
      match type info with
      | Value ref =>
          match type_name ref with
          | Value s => Some s
          | _ => None
          end
      | _ => None
      end
  | _ => None
  end.

Definition there {A} (x : field A) : Prop :=
  match x with
  | Value _ => True
  | _ => False
  end.

(** The body is an object with a name, a [sprites] member and a list of
    types, each entry of which has a name that the table of colours does
    not inherit. *)
Definition displayable (data : field Payload) : Prop :=
  match data with
  | Value obj =>
      there (name obj) /\ there (sprites obj) /\
      match types obj with
      | Value entries =>
          Forall (fun e => match entry_name e with
                           | Some s => Observe.plain s
                           | None => False
                           end) entries
      | _ => False
      end
  | _ => False
  end.

(** The empty object.  The list of resources that the service answers
    with for the endpoint itself has none of the fields either. *)
Definition empty_object : field Payload :=
  Value (mkPayload Absent Absent Absent Absent Absent Absent Absent).

End Sparse.

(** ** Facts about the page computations *)

Section PageFacts.
Import JsString JsNumber Dom Script Render.

Lemma with_card_same (f : Card -> Card) (p : Page) :
  f (card p) = card p -> with_card f p = p.
Proof. destruct p; unfold with_card; simpl; intros ->; reflexivity. Qed.

Lemma with_card_compose (f g : Card -> Card) (p : Page) :
  with_card f (with_card g p) = with_card (fun k => f (g k)) p.
Proof. reflexivity. Qed.

Lemma set_images_same (k : Card) : set_images (pokemonImages k) k = k.
Proof. destruct k; reflexivity. Qed.

Lemma set_types_same (k : Card) : set_types (pokemonTypes k) k = k.
Proof. destruct k; reflexivity. Qed.

Lemma renderImage_run data slot p :
  renderImage data slot p =
  (Normal tt,
   with_card (fun k => set_images (pokemonImages k ++ image_of data slot) k) p).
Proof.
  destruct slot as [[u|] label]; unfold renderImage, image_of, present; simpl.
  - destruct (isEmpty u); simpl.
    + unfold ret. f_equal. symmetry. apply with_card_same.
      rewrite app_nil_r. apply set_images_same.
    + reflexivity.
  - unfold ret. f_equal. symmetry. apply with_card_same.
    rewrite app_nil_r. apply set_images_same.
Qed.

Lemma forEach_renderImage data slots : forall p,
  forEach (renderImage data) slots p =
  (Normal tt,
   with_card
     (fun k => set_images (pokemonImages k ++ flat_map (image_of data) slots) k) p).
Proof.
  induction slots as [|slot slots IH]; intros p; simpl.
  - unfold ret. f_equal. symmetry. apply with_card_same.
    rewrite app_nil_r. apply set_images_same.
  - unfold bind. rewrite renderImage_run, IH.
    f_equal. destruct p as [c k i l r]; destruct k; unfold with_card; simpl.
    rewrite <- app_assoc. reflexivity.
Qed.

Lemma renderType_run t p :
  renderType t p =
  match invalid_token (badge_tokens t) with
  | Some e => (Throw e, p)
  | None =>
      (Normal tt,
       with_card (fun k => set_types (pokemonTypes k ++ [badge_of t]) k) p)
  end.
Proof.
  unfold renderType, classList_add, bind. fold (badge_tokens t).
  destruct (invalid_token (badge_tokens t)); reflexivity.
Qed.

Lemma forEach_renderType ts : forall p,
  forEach renderType ts p =
  (outcome (snd (rendered ts)),
   with_card (fun k => set_types (pokemonTypes k ++ fst (rendered ts)) k) p).
Proof.
  induction ts as [|t ts IH]; intros p; cbn [forEach rendered].
  - unfold ret. cbn [fst snd outcome]. f_equal. symmetry. apply with_card_same.
    rewrite app_nil_r. apply set_types_same.
  - unfold bind. rewrite renderType_run.
    destruct (invalid_token (badge_tokens t)) as [e|]; cbn [fst snd outcome].
    + f_equal. symmetry. apply with_card_same.
      rewrite app_nil_r. apply set_types_same.
    + rewrite IH. f_equal.
      destruct p as [c k i l r]; destruct k; unfold with_card; simpl.
      rewrite <- app_assoc. reflexivity.
Qed.

(** [displayPokemon] in closed form: its completion and the page it
    leaves. *)
Lemma displayPokemon_run data p :
  displayPokemon data p =
  (outcome (snd (rendered (types data))),
   mkPage (controls_after (snd (rendered (types data))) (controls p))
     (card_of data) (pokemonInput_value p) (console p) (requests p)).
Proof.
  unfold displayPokemon, hideLoading.
  unfold bind at 1 2 3 4 5 6 7 8 9. unfold modify at 1 2 3 4 5 6 7 8.
  unfold bind at 1. rewrite forEach_renderImage.
  unfold bind, modify. rewrite forEach_renderType.
  destruct p as [c k i l r]; destruct c; destruct k.
  destruct (snd (rendered (types data))); reflexivity.
Qed.

End PageFacts.

(** ** Facts about [fetchPokemon] *)

Section LookupFacts.
Import JsString JsNumber Dom Script Render.

Variable net : string -> FetchResult.

Lemma showLoading_run p : showLoading p = (Normal tt, searching p).
Proof. destruct p as [c k i l r]; destruct c; reflexivity. Qed.

Lemma initiated_run q p :
  initiated q p = (Normal tt, loading (endpoint ++ toLowerCase q) p).
Proof. unfold initiated, bind. rewrite showLoading_run. reflexivity. Qed.

Lemma showError_run message p :
  showError message p = (Normal tt, failed message p).
Proof. destruct p as [c k i l r]; destruct c; reflexivity. Qed.

Lemma catch_block_run q e p :
  catch_block q e p = (Throw unbound_s, p).
Proof. reflexivity. Qed.

(** [fetchPokemon] in closed form. *)
Lemma fetchPokemon_run q p :
  fetchPokemon net q p =
  let url := endpoint ++ toLowerCase q in
  match net url with
  | Rejected _ => (Throw unbound_s, loading url p)
  | Resolved r =>
      if ok r then
        match body r with
        | BadBody _ => (Throw unbound_s, loading url p)
        | JsonBody data =>
            let oe := snd (rendered (types data)) in
            (match oe with None => Normal tt | Some _ => Throw unbound_s end,
             mkPage (controls_after oe (controls (loading url p)))
               (card_of data) (pokemonInput_value p) (console p)
               (requests p ++ [url]))
        end
      else (Throw unbound_s, loading url p)
  end.
Proof.
  cbv zeta. unfold fetchPokemon, try_catch, try_block, fetch, receive, json.
  unfold bind at 1. rewrite showLoading_run.
  unfold bind at 1 2 3. unfold send, modify.
  set (url := endpoint ++ toLowerCase q). fold (loading url p).
  destruct (net url) as [e|r]; [reflexivity|].
  unfold ret at 1. destruct (ok r); cbn [negb].
  - unfold bind at 1. unfold ret at 1. unfold bind.
    destruct (body r) as [data|e]; [|reflexivity].
    unfold ret. rewrite displayPokemon_run.
    destruct (snd (rendered (types data))); reflexivity.
  - destruct (status r =? 404); reflexivity.
Qed.

End LookupFacts.


(** ** More facts about lookups *)

Section HandlerFacts.
Import JsString JsNumber Dom Script Render.

Variable net : string -> FetchResult.

Lemma isEmpty_true (s : string) : isEmpty s = true <-> s = "".
Proof. destruct s; simpl; split; congruence. Qed.

Lemma isEmpty_false (s : string) : isEmpty s = false <-> s <> "".
Proof. destruct s; simpl; split; congruence. Qed.

(** The key press and the click run the same code. *)
Lemma onKeypress_Enter : onKeypress net "Enter" = onSearchClick net.
Proof. reflexivity. Qed.

Lemma onKeypress_other key p :
  String.eqb key "Enter" = false -> onKeypress net key p = (Normal tt, p).
Proof. unfold onKeypress. intros ->. reflexivity. Qed.

Lemma lookup_empty query p :
  trim query = "" ->
  lookup net query p =
  (Normal tt, failed "Please enter a Pokémon name or ID!" (set_input query p)).
Proof.
  intros H. unfold lookup, onSearchClick, bind, modify, read.
  cbn [pokemonInput_value set_input]. rewrite H. cbn [isEmpty].
  apply showError_run.
Qed.

Lemma lookup_nonempty query p :
  trim query <> "" ->
  lookup net query p = fetchPokemon net (trim query) (set_input query p).
Proof.
  intros H. unfold lookup, onSearchClick, bind, modify, read.
  cbn [pokemonInput_value set_input].
  apply isEmpty_false in H. rewrite H. reflexivity.
Qed.

(** The [try] block in closed form. *)
Lemma try_block_run q p :
  try_block net q p =
  let url := endpoint ++ toLowerCase q in
  let p1 := add_request url p in
  match net url with
  | Rejected e => (Throw e, p1)
  | Resolved r =>
      if ok r then
        match body r with
        | JsonBody data => displayPokemon data p1
        | BadBody e => (Throw e, p1)
        end
      else if status r =? 404 then
        (Throw (Error "Pokémon not found! Please check the name or ID and try again."), p1)
      else
        (Throw (Error ("HTTP Error: " ++ NumberToString (Num (status r)))), p1)
  end.
Proof.
  cbv zeta. unfold try_block, fetch, receive, json.
  unfold bind at 1 2. unfold send, modify.
  destruct (net (endpoint ++ toLowerCase q)) as [e|r]; [reflexivity|].
  unfold ret at 1. unfold bind at 1. destruct (ok r); cbn [negb].
  - unfold ret at 1. unfold bind. destruct (body r); reflexivity.
  - destruct (status r =? 404); reflexivity.
Qed.

(** Every call of [fetchPokemon] hands exactly one URL to [fetch]. *)
Lemma fetchPokemon_requests q p :
  requests (snd (fetchPokemon net q p)) =
  (requests p ++ [(endpoint ++ toLowerCase q)%string])%list.
Proof.
  rewrite fetchPokemon_run. cbv zeta.
  destruct (net (endpoint ++ toLowerCase q)) as [e|r]; [reflexivity|].
  destruct (ok r); [|reflexivity].
  destruct (body r); reflexivity.
Qed.

(** Whatever makes the [try] block throw, the handler throws in turn. *)
Lemma fetchPokemon_failure q p e p' :
  try_block net q (searching p) = (Throw e, p') ->
  fetchPokemon net q p = (Throw unbound_s, p').
Proof.
  intros H. unfold fetchPokemon, bind. rewrite showLoading_run.
  unfold try_catch. rewrite H. apply catch_block_run.
Qed.

(** The button is disabled while the request is outstanding. *)
Lemma busy_after_initiation q p :
  searchBtn_disabled (controls (snd (initiated q p))) = true.
Proof. rewrite initiated_run. reflexivity. Qed.

(** Once [displayPokemon] is reached, the button is enabled again. *)
Lemma busy_cleared_when_displayed q p r data :
  net (endpoint ++ toLowerCase q) = Resolved r ->
  ok r = true ->
  body r = JsonBody data ->
  searchBtn_disabled (controls (snd (fetchPokemon net q p))) = false.
Proof.
  intros Hn Hok Hb. rewrite fetchPokemon_run. cbv zeta.
  rewrite Hn, Hok, Hb. reflexivity.
Qed.

(** On the paths that never reach [displayPokemon], the button stays
    disabled. *)
Lemma busy_kept_on_failure q p :
  match net (endpoint ++ toLowerCase q) with
  | Rejected _ => True
  | Resolved r => ok r = false \/ exists e, body r = BadBody e
  end ->
  fetchPokemon net q p =
  (Throw unbound_s, loading (endpoint ++ toLowerCase q) p).
Proof.
  intros H. rewrite fetchPokemon_run. cbv zeta.
  destruct (net (endpoint ++ toLowerCase q)) as [e|r]; [reflexivity|].
  destruct H as [H|[e H]].
  - rewrite H. reflexivity.
  - rewrite H. destruct (ok r); reflexivity.
Qed.

End HandlerFacts.

(** ** The built-ins and the wording of the specification *)

Section TextFacts.
Import JsString Script Observe.

Lemma isWhiteSpace_blank (c : ascii) : isWhiteSpace c = blank c.
Proof. destruct c as [[] [] [] [] [] [] [] []]; reflexivity. Qed.

Lemma lower_char_counterpart (c : ascii) :
  lower_char c = counterpart capitals smalls c.
Proof. destruct c as [[] [] [] [] [] [] [] []]; reflexivity. Qed.

Lemma upper_char_counterpart (c : ascii) :
  upper_char c = counterpart smalls capitals c.
Proof. destruct c as [[] [] [] [] [] [] [] []]; reflexivity. Qed.

Lemma toLowerCase_lowered (s : string) : toLowerCase s = lowered s.
Proof.
  unfold lowered. induction s as [|c s IH]; [reflexivity|].
  cbn [toLowerCase list_ascii_of_string map string_of_list_ascii].
  rewrite lower_char_counterpart, IH. reflexivity.
Qed.

Lemma capitalize_capitalized (s : string) : capitalize s = capitalized s.
Proof.
  destruct s as [|c s]; [reflexivity|].
  unfold capitalize. cbn [charAt0 slice1 toUpperCase append capitalized].
  rewrite upper_char_counterpart. reflexivity.
Qed.

Lemma strip_all (l : list ascii) : strip l = [] <-> forallb blank l = true.
Proof.
  induction l as [|c l IH]; cbn [strip forallb]; [tauto|].
  destruct (blank c); cbn [andb]; [exact IH|].
  split; discriminate.
Qed.

Lemma strip_app (a b : list ascii) :
  strip (a ++ b) = if forallb blank a then strip b else (strip a ++ b)%list.
Proof.
  induction a as [|c a IH]; cbn [app strip forallb]; [reflexivity|].
  destruct (blank c); cbn [andb]; [exact IH|reflexivity].
Qed.

Lemma trimStart_strip (s : string) :
  list_ascii_of_string (trimStart s) = strip (list_ascii_of_string s).
Proof.
  induction s as [|c s IH]; [reflexivity|].
  cbn [trimStart list_ascii_of_string strip]. rewrite isWhiteSpace_blank.
  destruct (blank c); [exact IH|reflexivity].
Qed.

Lemma trimEnd_strip (s : string) :
  list_ascii_of_string (trimEnd s) =
  rev (strip (rev (list_ascii_of_string s))).
Proof.
  induction s as [|c s IH]; [reflexivity|].
  cbn [trimEnd list_ascii_of_string rev]. rewrite strip_app, isWhiteSpace_blank.
  assert (E : isEmpty (trimEnd s) = forallb blank (rev (list_ascii_of_string s))).
  { destruct (forallb blank (rev (list_ascii_of_string s))) eqn:F.
    - apply strip_all in F. rewrite F in IH.
      destruct (trimEnd s); [reflexivity|discriminate].
    - destruct (trimEnd s) as [|x t]; [|reflexivity].
      cbn [list_ascii_of_string] in IH. symmetry in IH.
      assert (G : strip (rev (list_ascii_of_string s)) = []).
      { destruct (strip (rev (list_ascii_of_string s))) as [|y u];
          [reflexivity|].
        apply (f_equal (@List.length ascii)) in IH.
        rewrite length_rev in IH. discriminate. }
      apply strip_all in G. congruence. }
  rewrite E.
  destruct (forallb blank (rev (list_ascii_of_string s))) eqn:F.
  - cbn [strip]. apply strip_all in F. rewrite F in IH.
    destruct (blank c); cbn [andb].
    + reflexivity.
    + cbn [list_ascii_of_string rev app]. rewrite IH. reflexivity.
  - rewrite andb_false_r. cbn [list_ascii_of_string].
    rewrite rev_app_distr. cbn [rev app]. rewrite IH. reflexivity.
Qed.

(** On every text the model's [trim] is the trimming of the wording. *)
Lemma trim_trimmed (s : string) : trim s = trimmed s.
Proof.
  unfold trim, trimmed.
  rewrite <- trimStart_strip, <- trimEnd_strip.
  rewrite string_of_list_ascii_of_string. reflexivity.
Qed.

End TextFacts.

(** ** Facts about [getTypeColor] and the badges *)

Section TypeFacts.
Import JsString JsNumber Dom Script Render.

(** A name that is neither in the table nor on [Object.prototype] gets the
    default class. *)
Lemma getTypeColor_default t :
  assoc t typeColors = None ->
  assoc t Object_prototype = None ->
  getTypeColor t = VString "bg-gray-400".
Proof.
  intros H1 H2. unfold getTypeColor, Get. rewrite H1, H2. reflexivity.
Qed.

(** A name in the table gets the class given there. *)
Lemma getTypeColor_listed t c :
  assoc t typeColors = Some c -> getTypeColor t = VString c.
Proof.
  intros H. unfold getTypeColor, Get. rewrite H.
  assert (Hc : forall l : list (string * string),
             Forall (fun kv => isEmpty (snd kv) = false) l ->
             assoc t l = Some c -> isEmpty c = false).
  { induction l as [|[k v] l IH]; simpl; intros HF Ha; [discriminate|].
    inversion HF; subst. destruct (String.eqb t k); [|auto].
    injection Ha as <-. assumption. }
  unfold ToBoolean. rewrite (Hc typeColors); [reflexivity| |assumption].
  unfold typeColors. repeat constructor.
Qed.

(** When every badge can be built, the badges follow the source list:
    same order, nothing merged. *)
Lemma rendered_all ts :
  snd (rendered ts) = None -> fst (rendered ts) = map badge_of ts.
Proof.
  induction ts as [|t ts IH]; cbn [rendered map fst snd]; [reflexivity|].
  destruct (invalid_token (badge_tokens t)); cbn [fst snd]; [discriminate|].
  intros H. rewrite IH by assumption. reflexivity.
Qed.

(** The classes of the table are valid tokens. *)
Lemma listed_class_valid t c :
  assoc t typeColors = Some c -> isEmpty c = false /\ has_whitespace c = false.
Proof.
  assert (Hc : forall l : list (string * string),
             Forall (fun kv => isEmpty (snd kv) = false /\
                               has_whitespace (snd kv) = false) l ->
             assoc t l = Some c ->
             isEmpty c = false /\ has_whitespace c = false).
  { induction l as [|[k v] l IH]; simpl; intros HF Ha; [discriminate|].
    inversion HF; subst. destruct (String.eqb t k); [|auto].
    injection Ha as <-. assumption. }
  apply Hc. unfold typeColors. repeat constructor.
Qed.

(** A name that [Object.prototype] does not carry gets a badge: with the
    class of the table when it is listed there, with the default class
    otherwise. *)
Lemma plain_name_badge t :
  assoc t Object_prototype = None ->
  invalid_token (badge_tokens t) = None /\
  getTypeColor t =
    VString (match assoc t typeColors with Some c => c | None => "bg-gray-400" end).
Proof.
  intros Hp. destruct (assoc t typeColors) as [c|] eqn:Ht.
  - rewrite (getTypeColor_listed t c Ht). split; [|reflexivity].
    destruct (listed_class_valid t c Ht) as [He Hw].
    unfold badge_tokens. rewrite (getTypeColor_listed t c Ht).
    cbn [ToString invalid_token isEmpty has_whitespace]. simpl.
    rewrite He, Hw. reflexivity.
  - unfold badge_tokens. rewrite (getTypeColor_default t Ht Hp).
    split; reflexivity.
Qed.

(** For such names, [displayPokemon] completes and shows one badge per
    entry of the list, in order, duplicates included. *)
Lemma plain_names_displayed data p :
  Forall (fun t => assoc t Object_prototype = None) (types data) ->
  fst (displayPokemon data p) = Normal tt /\
  pokemonTypes (card (snd (displayPokemon data p))) = map badge_of (types data).
Proof.
  intros HF. rewrite displayPokemon_run. cbn [fst snd card card_of pokemonTypes].
  assert (Hr : snd (rendered (types data)) = None).
  { induction HF as [|t ts Ht HF IH]; [reflexivity|].
    cbn [rendered]. destruct (plain_name_badge t Ht) as [Hv _].
    rewrite Hv. exact IH. }
  rewrite Hr. split; [reflexivity|]. apply rendered_all. exact Hr.
Qed.

Example electric_badge :
  badge_of "electric" =
  mkBadge "Electric"
    ["px-4"; "py-2"; "rounded-full"; "text-white"; "font-semibold"; "text-sm";
     "bg-yellow-400"] /\
  getTypeColor "shadow" = VString "bg-gray-400".
Proof. split; reflexivity. Qed.

End TypeFacts.

(** * Facts about numbers and their rendering *)

(** ** Facts about strings *)

Section StringFacts.
Import JsString.

Lemma sapp_assoc (a b c : string) : (a ++ b) ++ c = a ++ (b ++ c).
Proof. induction a as [|x a IH]; simpl; [reflexivity|]. rewrite IH. reflexivity. Qed.

Lemma sapp_nil_r (a : string) : a ++ "" = a.
Proof. induction a as [|x a IH]; simpl; [reflexivity|]. rewrite IH. reflexivity. Qed.

Lemma slength_app (a b : string) :
  String.length (a ++ b) = (String.length a + String.length b)%nat.
Proof. induction a as [|x a IH]; simpl; [reflexivity|]. rewrite IH. reflexivity. Qed.

Lemma take_app (a b : string) : take (String.length a) (a ++ b) = a.
Proof. induction a as [|x a IH]; simpl; [destruct b; reflexivity|]. rewrite IH. reflexivity. Qed.

Lemma drop_app (a b : string) : drop (String.length a) (a ++ b) = b.
Proof. induction a as [|x a IH]; simpl; [destruct b; reflexivity|]. exact IH. Qed.

Lemma zeros_length (n : nat) : String.length (zeros n) = n.
Proof. induction n as [|n IH]; simpl; [reflexivity|]. rewrite IH. reflexivity. Qed.

Lemma zeros_snoc (n : nat) : zeros n ++ "0" = zeros (S n).
Proof. induction n as [|n IH]; simpl; [reflexivity|]. simpl in IH. rewrite IH. reflexivity. Qed.

End StringFacts.

(** ** Facts about decimal digits *)

Section DecimalFacts.
Import JsString JsNumber.

Lemma digits_fuel_indep (f1 : nat) : forall (f2 : nat) (n : Z),
  (1 <= f1)%nat -> (1 <= f2)%nat ->
  0 <= n -> n < 10 ^ Z.of_nat f1 -> n < 10 ^ Z.of_nat f2 ->
  digits_fuel f1 n = digits_fuel f2 n.
Proof.
  induction f1 as [|f1 IH]; intros f2 n G1 G2 H0 H1 H2; [lia|].
  destruct f2 as [|f2]; [lia|].
  cbn [digits_fuel]. destruct (n <? 10) eqn:E; [reflexivity|].
  apply Z.ltb_ge in E. f_equal.
  rewrite Nat2Z.inj_succ, Z.pow_succ_r in H1, H2 by lia.
  assert (Hd : 1 <= n / 10) by (apply Z.div_le_lower_bound; lia).
  assert (Hu1 : n / 10 < 10 ^ Z.of_nat f1) by (apply Z.div_lt_upper_bound; lia).
  assert (Hu2 : n / 10 < 10 ^ Z.of_nat f2) by (apply Z.div_lt_upper_bound; lia).
  apply IH; try lia.
  - destruct f1; [simpl in Hu1; lia | lia].
  - destruct f2; [simpl in Hu2; lia | lia].
Qed.

Lemma log2_fuel (n : Z) : 0 <= n -> n < 10 ^ Z.of_nat (S (Z.to_nat (Z.log2 n))).
Proof.
  intros H. destruct (Z.eq_dec n 0) as [->|Hn].
  - simpl. lia.
  - assert (Hp : 0 < n) by lia.
    pose proof (Z.log2_spec n Hp) as [_ Hl].
    pose proof (Z.log2_nonneg n) as Hnn.
    rewrite Nat2Z.inj_succ, Z2Nat.id by lia.
    assert (2 ^ Z.succ (Z.log2 n) <= 10 ^ Z.succ (Z.log2 n))
      by (apply Z.pow_le_mono_l; lia).
    lia.
Qed.

Lemma decimal_small (n : Z) : 0 <= n < 10 -> decimal n = digit n.
Proof.
  intros [H0 H1]. unfold decimal. cbn [digits_fuel].
  apply Z.ltb_lt in H1. rewrite H1. reflexivity.
Qed.

Lemma decimal_step (n : Z) :
  10 <= n -> decimal n = decimal (n / 10) ++ digit (n mod 10).
Proof.
  intros H. unfold decimal at 1. cbn [digits_fuel].
  assert (E : (n <? 10) = false) by (apply Z.ltb_ge; lia). rewrite E.
  assert (Hd : 1 <= n / 10) by (apply Z.div_le_lower_bound; lia).
  assert (Hl2 : 1 <= Z.log2 n) by (apply Z.log2_le_pow2; simpl; lia).
  f_equal. unfold decimal. apply digits_fuel_indep.
  - apply Nat2Z.inj_le. rewrite Z2Nat.id by lia. simpl. lia.
  - lia.
  - lia.
  - assert (Hn0 : 0 <= n) by lia.
    pose proof (log2_fuel n Hn0) as Hl.
    rewrite Nat2Z.inj_succ, Z.pow_succ_r in Hl by lia.
    apply Z.div_lt_upper_bound; lia.
  - apply log2_fuel. lia.
Qed.

(** Appending a zero multiplies by ten. *)
Lemma decimal_times_10 (s : Z) : 1 <= s -> decimal (s * 10) = decimal s ++ "0".
Proof.
  intros H. rewrite decimal_step by lia.
  rewrite Z.div_mul, Z.mod_mul by lia. reflexivity.
Qed.

Lemma decimal_times_pow10 (s : Z) (j : nat) :
  1 <= s -> decimal (s * 10 ^ Z.of_nat j) = decimal s ++ zeros j.
Proof.
  intros H. induction j as [|j IH].
  - simpl. rewrite Z.mul_1_r, sapp_nil_r. reflexivity.
  - rewrite Nat2Z.inj_succ, Z.pow_succ_r by lia.
    replace (s * (10 * 10 ^ Z.of_nat j)) with (s * 10 ^ Z.of_nat j * 10) by lia.
    rewrite decimal_times_10 by (assert (0 < 10 ^ Z.of_nat j) by (apply Z.pow_pos_nonneg; lia); nia).
    rewrite IH, sapp_assoc, zeros_snoc. reflexivity.
Qed.

(** The length of the rendering is the number of decimal digits. *)
Lemma decimal_length (n : Z) :
  1 <= n ->
  10 ^ (Z.of_nat (String.length (decimal n)) - 1) <= n
  < 10 ^ Z.of_nat (String.length (decimal n)).
Proof.
  intros H.
  assert (G : forall k : nat, forall n, 1 <= n -> n < 10 ^ Z.of_nat k ->
            10 ^ (Z.of_nat (String.length (decimal n)) - 1) <= n
            < 10 ^ Z.of_nat (String.length (decimal n))).
  { clear n H. induction k as [|k IH]; intros n H Hk.
    - simpl in Hk. lia.
    - destruct (Z_lt_le_dec n 10) as [Hs|Hs].
      + rewrite decimal_small by lia. simpl. lia.
      + rewrite decimal_step by lia. rewrite slength_app.
        rewrite Nat2Z.inj_succ, Z.pow_succ_r in Hk by lia.
        assert (Hd : 1 <= n / 10) by (apply Z.div_le_lower_bound; lia).
        assert (Hu : n / 10 < 10 ^ Z.of_nat k) by (apply Z.div_lt_upper_bound; lia).
        specialize (IH (n / 10) Hd Hu).
        set (L := String.length (decimal (n / 10))) in *.
        assert (HL : (1 <= L)%nat).
        { destruct L; [|lia]. simpl in IH. lia. }
        replace (String.length (digit (n mod 10))) with 1%nat by reflexivity.
        replace (Z.of_nat (L + 1) - 1) with (Z.succ (Z.of_nat L - 1)) by lia.
        replace (Z.of_nat (L + 1)) with (Z.succ (Z.of_nat L)) by lia.
        rewrite !Z.pow_succ_r by lia.
        pose proof (Z.div_mod n 10 ltac:(lia)) as Hdm.
        pose proof (Z.mod_pos_bound n 10 ltac:(lia)) as Hm.
        lia. }
  apply (G (S (Z.to_nat (Z.log2 n)))); [assumption|].
  apply log2_fuel. lia.
Qed.

End DecimalFacts.

(** ** Facts about binary64 rounding *)

(** The powers of two around the mantissa size, as literals, so that
    linear arithmetic can use them. *)
Ltac mantissa_bounds :=
  change (2 ^ 52) with 4503599627370496 in *;
  change (2 ^ 53) with 9007199254740992 in *;
  change (2 ^ 54) with 18014398509481984 in *.


Section RoundingFacts.
Import JsNumber Render.

Lemma digits2_pos_bounds (p : positive) :
  2 ^ (Zpos (digits2_pos p) - 1) <= Zpos p < 2 ^ Zpos (digits2_pos p).
Proof.
  induction p as [p IH|p IH|]; cbn [digits2_pos].
  - rewrite Pos2Z.inj_succ.
    replace (Z.succ (Zpos (digits2_pos p)) - 1) with (Z.succ (Zpos (digits2_pos p) - 1)) by lia.
    rewrite !Z.pow_succ_r by lia. lia.
  - rewrite Pos2Z.inj_succ.
    replace (Z.succ (Zpos (digits2_pos p)) - 1) with (Z.succ (Zpos (digits2_pos p) - 1)) by lia.
    rewrite !Z.pow_succ_r by lia. lia.
  - simpl. lia.
Qed.

(** The number of binary digits is fixed by the power of two below. *)
Lemma Zdigits2_eq (m d : Z) :
  0 < d -> 2 ^ (d - 1) <= m < 2 ^ d -> Zdigits2 m = d.
Proof.
  intros Hd [Hl Hu].
  assert (Hm : 0 < m) by (assert (0 < 2 ^ (d - 1)) by (apply Z.pow_pos_nonneg; lia); lia).
  destruct m as [|p|p]; try lia. cbn [Zdigits2].
  pose proof (digits2_pos_bounds p) as [Bl Bu].
  set (n := Zpos (digits2_pos p)) in *.
  assert (Hn : 0 < n) by (unfold n; lia).
  destruct (Z.lt_trichotomy n d) as [H|[H|H]]; [|assumption|].
  - assert (2 ^ n <= 2 ^ (d - 1)) by (apply Z.pow_le_mono_r; lia). lia.
  - assert (2 ^ d <= 2 ^ (n - 1)) by (apply Z.pow_le_mono_r; lia). lia.
Qed.

Lemma Zdigits2_log2 (m : Z) : 0 < m -> Zdigits2 m = Z.log2 m + 1.
Proof.
  intros H. apply Zdigits2_eq.
  - pose proof (Z.log2_nonneg m). lia.
  - pose proof (Z.log2_spec m H) as [A B].
    replace (Z.log2 m + 1 - 1) with (Z.log2 m) by lia.
    replace (Z.log2 m + 1) with (Z.succ (Z.log2 m)) by lia. lia.
Qed.

Lemma iter_xO (m d : positive) : Zpos (Pos.iter xO m d) = Zpos m * 2 ^ Zpos d.
Proof.
  induction d as [|d IH] using Pos.peano_ind.
  - simpl. lia.
  - rewrite Pos.iter_succ, Pos2Z.inj_succ, Z.pow_succ_r by lia.
    rewrite Pos2Z.inj_xO, IH. lia.
Qed.

(** One step of the right shift halves the mantissa. *)
Lemma shr_1_spec (m : Z) (r s : bool) :
  0 <= m ->
  shr_1 (Build_shr_record m r s) = Build_shr_record (m / 2) (Z.odd m) (r || s).
Proof.
  intros H. destruct m as [|p|p]; [reflexivity| |lia].
  destruct p as [p|p|]; cbn [shr_1].
  - f_equal; try reflexivity. rewrite Pos2Z.inj_xI.
    apply Z.div_unique with (r := 1); lia.
  - f_equal; try reflexivity. rewrite Pos2Z.inj_xO.
    apply Z.div_unique with (r := 0); lia.
  - reflexivity.
Qed.

Lemma loc_of_record_of_loc (m : Z) (l : location) :
  loc_of_shr_record (shr_record_of_loc m l) = l.
Proof. destruct l as [|[| |]]; reflexivity. Qed.

Lemma shr_m_record_of_loc (m : Z) (l : location) :
  shr_m (shr_record_of_loc m l) = m.
Proof. destruct l as [|[| |]]; reflexivity. Qed.

(** A mantissa of 53 digits that needs no rounding is kept as it is. *)
Lemma round_aux_exact (sx : bool) (q e : Z) :
  2 ^ 52 <= q < 2 ^ 53 -> -1074 <= e <= 971 ->
  binary_round_aux prec emax sx q e loc_Exact = S754_finite sx (Z.to_pos q) e.
Proof.
  intros Hq He. unfold binary_round_aux, shr_fexp.
  rewrite (Zdigits2_eq q 53) by (simpl; lia).
  unfold fexp, emin, prec, emax.
  replace (Z.max (53 + e - 53) (3 - 1024 - 53) - e) with 0 by lia.
  cbn [shr shr_record_of_loc shr_m loc_of_shr_record round_nearest_even].
  rewrite (Zdigits2_eq q 53) by (simpl; lia).
  replace (Z.max (53 + e - 53) (3 - 1024 - 53) - e) with 0 by lia.
  cbn [shr shr_m].
  destruct q as [|p|p]; try lia.
  replace (e <=? 1024 - 53) with true by (symmetry; apply Z.leb_le; lia).
  reflexivity.
Qed.

(** A mantissa of 53 digits with a remainder: rounded in place. *)
Lemma round_aux_53 (sx : bool) (q e : Z) (l : location) :
  2 ^ 52 <= q < 2 ^ 53 -> -1074 <= e <= 970 ->
  round_nearest_even q l < 2 ^ 53 ->
  binary_round_aux prec emax sx q e l =
  S754_finite sx (Z.to_pos (round_nearest_even q l)) e.
Proof.
  intros Hq He HM. unfold binary_round_aux, shr_fexp.
  rewrite (Zdigits2_eq q 53) by (simpl; lia).
  unfold fexp, emin, prec, emax.
  replace (Z.max (53 + e - 53) (3 - 1024 - 53) - e) with 0 by lia.
  cbn [shr]. rewrite loc_of_record_of_loc, shr_m_record_of_loc.
  set (M := round_nearest_even q l) in *.
  assert (HM' : 2 ^ 52 <= M).
  { unfold M. destruct l as [|[| |]]; cbn [round_nearest_even]; try lia.
    destruct (Z.even q); lia. }
  rewrite (Zdigits2_eq M 53) by (simpl; lia).
  replace (Z.max (53 + e - 53) (3 - 1024 - 53) - e) with 0 by lia.
  cbn [shr shr_record_of_loc shr_m].
  destruct M as [|p|p]; try lia.
  replace (e <=? 1024 - 53) with true by (symmetry; apply Z.leb_le; lia).
  reflexivity.
Qed.

(** A mantissa of 54 digits: shifted by one place, then rounded. *)
Lemma round_aux_54 (sx : bool) (q e : Z) (l : location) :
  2 ^ 53 <= q < 2 ^ 54 -> -1075 <= e <= 969 ->
  round_nearest_even (q / 2) (shifted_loc q l) < 2 ^ 53 ->
  binary_round_aux prec emax sx q e l =
  S754_finite sx (Z.to_pos (round_nearest_even (q / 2) (shifted_loc q l))) (e + 1).
Proof.
  intros Hq He HM. unfold binary_round_aux, shr_fexp.
  rewrite (Zdigits2_eq q 54) by (simpl; lia).
  unfold fexp, emin, prec, emax.
  replace (Z.max (54 + e - 53) (3 - 1024 - 53) - e) with 1 by lia.
  cbn [shr iter_pos].
  assert (E : shr_1 (shr_record_of_loc q l) =
              Build_shr_record (q / 2) (Z.odd q)
                (match l with loc_Exact => false | _ => true end)).
  { destruct l as [|[| |]]; cbn [shr_record_of_loc]; rewrite shr_1_spec by lia;
      reflexivity. }
  rewrite E. clear E.
  assert (EL : loc_of_shr_record
                 (Build_shr_record (q / 2) (Z.odd q)
                    (match l with loc_Exact => false | _ => true end)) =
               shifted_loc q l).
  { unfold shifted_loc. destruct (Z.odd q), l as [|[| |]]; reflexivity. }
  rewrite EL. clear EL. cbn [shr_m].
  set (M := round_nearest_even (q / 2) (shifted_loc q l)) in *.
  assert (Hh : 2 ^ 52 <= q / 2 < 2 ^ 53).
  { split; [apply Z.div_le_lower_bound | apply Z.div_lt_upper_bound]; simpl; lia. }
  assert (HM' : 2 ^ 52 <= M).
  { unfold M. destruct (shifted_loc q l) as [|[| |]]; cbn [round_nearest_even]; try lia.
    destruct (Z.even (q / 2)); lia. }
  rewrite (Zdigits2_eq M 53) by (simpl; lia).
  replace (Z.max (53 + (e + 1) - 53) (3 - 1024 - 53) - (e + 1)) with 0 by lia.
  cbn [shr shr_record_of_loc shr_m].
  destruct M as [|p|p]; try lia.
  replace (e + 1 <=? 1024 - 53) with true by (symmetry; apply Z.leb_le; lia).
  reflexivity.
Qed.

End RoundingFacts.

Section QuotientFacts.
Import JsNumber Render.

Lemma div_eucl_div_mod (a b : Z) : Z.div_eucl a b = (a / b, a mod b).
Proof. unfold Z.div, Z.modulo. destruct (Z.div_eucl a b); reflexivity. Qed.

(** The Number of a non-zero integer below [2^53] in size: the integer
    itself, scaled to a mantissa of 53 digits. *)
Lemma Num_exact (sx : bool) (v : Z) :
  0 < v < 2 ^ 53 ->
  Num (if sx then - v else v) =
  S754_finite sx (Z.to_pos (v * 2 ^ (52 - Z.log2 v))) (Z.log2 v - 52).
Proof.
  intros Hv.
  assert (Hl : 0 <= Z.log2 v <= 52).
  { split; [apply Z.log2_nonneg|].
    assert (Z.log2 v < 53) by (apply Z.log2_lt_pow2; lia). lia. }
  pose proof (Z.log2_spec v ltac:(lia)) as [Hlo Hhi].
  assert (R : forall p, Zpos p = v -> binary_round prec emax sx p 0 =
            S754_finite sx (Z.to_pos (v * 2 ^ (52 - Z.log2 v))) (Z.log2 v - 52)).
  { intros p Hp. unfold binary_round, shl_align.
    assert (Hd : Zpos (digits2_pos p) = Z.log2 v + 1).
    { change (Zpos (digits2_pos p)) with (Zdigits2 (Zpos p)). rewrite Hp.
      apply Zdigits2_log2. lia. }
    rewrite Hd. unfold fexp, emin, prec, emax.
    replace (Z.max (Z.log2 v + 1 + 0 - 53) (3 - 1024 - 53)) with (Z.log2 v - 52) by lia.
    destruct (Z.log2 v - 52 - 0) as [|d|d] eqn:Ed; try lia.
    - assert (El : Z.log2 v = 52) by lia. rewrite El.
      change (52 - 52) with 0. rewrite Z.pow_0_r, Z.mul_1_r, <- Hp.
      change (Z.to_pos (Zpos p)) with p.
      rewrite El in Hlo. apply round_aux_exact; lia.
    - rewrite iter_xO, Hp.
      assert (Hdd : Zpos d = 52 - Z.log2 v) by lia. rewrite Hdd.
      apply round_aux_exact; [|lia].
      replace (2 ^ 52) with (2 ^ Z.log2 v * 2 ^ (52 - Z.log2 v))
        by (rewrite <- Z.pow_add_r by lia; f_equal; lia).
      replace (2 ^ 53) with (2 ^ Z.succ (Z.log2 v) * 2 ^ (52 - Z.log2 v))
        by (rewrite <- Z.pow_add_r by lia; f_equal; lia).
      assert (0 < 2 ^ (52 - Z.log2 v)) by (apply Z.pow_pos_nonneg; lia).
      split; [apply Z.mul_le_mono_nonneg_r | apply Z.mul_lt_mono_pos_r]; lia. }
  unfold Num, binary_normalize.
  destruct v as [|p|p]; try lia.
  destruct sx; cbn [Z.opp]; apply R; reflexivity.
Qed.

Lemma Num_10 : Num 10 = S754_finite false 5629499534213120 (-49).
Proof. reflexivity. Qed.

(** The quotient of an integer below [10 * 2^46] in size by ten: a finite
    Number [M * 2^E] within [2^E / 200] of the tenth, on the lower side
    inclusive. *)
Lemma div_10_close (sx : bool) (h : Z) :
  0 < h < 10 * 2 ^ 46 ->
  exists (M : positive) (E : Z),
    div (Num (if sx then - h else h)) (Num 10) = S754_finite sx M E /\
    E < 0 /\ Zpos M < 2 ^ 53 /\
    20 * h * 2 ^ (- E) - 2 ^ (- E) <= 200 * Zpos M < 20 * h * 2 ^ (- E) + 2 ^ (- E).
Proof.
  intros Hh.
  assert (Hl : 0 <= Z.log2 h <= 49).
  { split; [apply Z.log2_nonneg|].
    assert (Z.log2 h < 50) by (apply Z.log2_lt_pow2; simpl in *; lia). lia. }
  pose proof (Z.log2_spec h ltac:(lia)) as [Hlo Hhi].
  rewrite Num_exact by (simpl in *; lia). rewrite Num_10.
  set (L := Z.log2 h) in *.
  set (T := 2 ^ (52 - L)).
  set (X := h * T).
  assert (HT : T = 8 \/ 16 <= T).
  { destruct (Z.eq_dec L 49) as [E|E].
    - left. unfold T. rewrite E. reflexivity.
    - right. unfold T. replace (52 - L) with (4 + (48 - L)) by lia.
      rewrite Z.pow_add_r by lia.
      assert (0 < 2 ^ (48 - L)) by (apply Z.pow_pos_nonneg; lia).
      change (2 ^ 4) with 16. lia. }
  assert (HX : 2 ^ 52 <= X < 2 ^ 53).
  { unfold X, T.
    replace (2 ^ 52) with (2 ^ L * 2 ^ (52 - L))
      by (rewrite <- Z.pow_add_r by lia; f_equal; lia).
    replace (2 ^ 53) with (2 ^ Z.succ L * 2 ^ (52 - L))
      by (rewrite <- Z.pow_add_r by lia; f_equal; lia).
    assert (0 < 2 ^ (52 - L)) by (apply Z.pow_pos_nonneg; lia).
    split; [apply Z.mul_le_mono_nonneg_r | apply Z.mul_lt_mono_pos_r]; lia. }
  assert (D0 : 2 ^ (- (L - 56)) = 16 * T).
  { unfold T. replace (- (L - 56)) with (4 + (52 - L)) by lia.
    rewrite Z.pow_add_r by lia. reflexivity. }
  assert (D1 : 2 ^ (- (L - 56 + 1)) = 8 * T).
  { unfold T. replace (- (L - 56 + 1)) with (3 + (52 - L)) by lia.
    rewrite Z.pow_add_r by lia. reflexivity. }
  assert (EX : X = h * T) by reflexivity.
  clearbody X T.
  unfold div, SFdiv. rewrite xorb_false_r.
  unfold SFdiv_core_binary. cbv zeta.
  rewrite Z2Pos.id by lia.
  rewrite (Zdigits2_eq X 53) by (simpl; lia).
  change (Zdigits2 5629499534213120) with 53.
  replace (Z.min (fexp prec emax (53 + (L - 52) - (53 + -49))) (L - 52 - -49))
    with (L - 56) by (unfold fexp, emin, prec, emax; lia).
  replace (L - 52 - -49 - (L - 56)) with 53 by lia.
  cbv beta iota. rewrite Z.shiftl_mul_pow2 by lia. rewrite div_eucl_div_mod.
  pose proof (Z.div_mod (X * 2 ^ 53) 5629499534213120 ltac:(lia)) as Hqr.
  pose proof (Z.mod_pos_bound (X * 2 ^ 53) 5629499534213120 ltac:(lia)) as Hr.
  set (q := X * 2 ^ 53 / 5629499534213120) in *.
  set (r := (X * 2 ^ 53) mod 5629499534213120) in *.
  clearbody q r. mantissa_bounds.
  unfold new_location. change (Z.even 5629499534213120) with true.
  cbv iota. unfold new_location_even.
  assert (Hodd : q = 2 * (q / 2) + (if Z.odd q then 1 else 0)).
  { rewrite <- Zmod_odd. apply Z.div_mod. lia. }
  destruct (Z_lt_le_dec q 9007199254740992) as [Hk|Hk].
  - (* the quotient has 53 digits *)
    set (l := if r =? 0 then loc_Exact else loc_Inexact (2 * r ?= 5629499534213120)).
    assert (HM : round_nearest_even q l = q /\ 2 * r < 5629499534213120 \/
                 round_nearest_even q l = q + 1 /\ 5629499534213120 < 2 * r).
    { unfold l. destruct (Z.eqb_spec r 0) as [Hr0|Hr0]; [left; split; [reflexivity|lia]|].
      destruct (Z.compare_spec (2 * r) 5629499534213120) as [Hc|Hc|Hc];
        cbn [round_nearest_even]; lia. }
    exists (Z.to_pos (round_nearest_even q l)), (L - 56).
    assert (HMb : round_nearest_even q l < 9007199254740992) by lia.
    split; [apply round_aux_53; mantissa_bounds; lia|].
    rewrite D0, Z2Pos.id by lia.
    split; [lia|]. split; [lia|]. nia.
  - (* the quotient has 54 digits *)
    set (l := if r =? 0 then loc_Exact else loc_Inexact (2 * r ?= 5629499534213120)).
    assert (HT16 : 16 <= T) by (destruct HT as [HT|HT]; [subst T; lia | lia]).
    set (M := round_nearest_even (q / 2) (shifted_loc q l)).
    assert (HM : M = q / 2 /\ (Z.odd q = false \/ r = 0) \/
                 M = q / 2 + 1 /\ Z.odd q = true).
    { unfold M, shifted_loc, l. destruct (Z.odd q).
      - destruct (Z.eqb_spec r 0) as [Hr0|Hr0]; cbn [round_nearest_even].
        + destruct (Z.even (q / 2)); [left|right]; auto.
        + destruct (2 * r ?= 5629499534213120); right; auto.
      - left. split; [|left; reflexivity].
        destruct (Z.eqb_spec r 0) as [Hr0|Hr0]; cbn [round_nearest_even];
          [reflexivity|].
        destruct (2 * r ?= 5629499534213120); reflexivity. }
    exists (Z.to_pos M), (L - 56 + 1).
    assert (HMb : 4503599627370496 <= M < 9007199254740992)
      by (destruct (Z.odd q); lia).
    split; [apply round_aux_54; mantissa_bounds; fold l; fold M;
            destruct (Z.odd q); lia|].
    rewrite D1, Z2Pos.id by lia.
    split; [lia|]. split; [lia|]. destruct (Z.odd q); nia.
Qed.

End QuotientFacts.


Section FixedFacts.
Import JsString JsNumber Script Render.

Lemma fixed_digits_tenths (h : Z) :
  0 < h ->
  fixed_digits (10 * h) 2 = decimal (h / 10) ++ "." ++ digit (h mod 10) ++ "0".
Proof.
  intros Hh. unfold fixed_digits.
  rewrite (Z.mul_comm 10 h), decimal_times_10 by lia.
  destruct (Z_lt_le_dec h 10) as [Hs|Hs].
  - rewrite decimal_small by lia.
    rewrite Z.div_small, Z.mod_small by lia. reflexivity.
  - rewrite decimal_step by lia.
    set (a := decimal (h / 10)). set (b := digit (h mod 10)).
    assert (Ha : (1 <= String.length a)%nat).
    { assert (Hd : 1 <= h / 10) by (apply Z.div_le_lower_bound; lia).
      pose proof (decimal_length (h / 10) Hd) as Hlen. fold a in Hlen.
      destruct (String.length a); [simpl in Hlen; lia | lia]. }
    assert (Hlen : String.length ((a ++ b) ++ "0") = (String.length a + 2)%nat).
    { rewrite !slength_app. replace (String.length b) with 1%nat by reflexivity.
      simpl. lia. }
    cbv zeta. rewrite Hlen.
    replace (String.length a + 2 <=? 2)%nat with false
      by (symmetry; apply Nat.leb_gt; lia).
    rewrite Hlen.
    replace (String.length a + 2 - 2)%nat with (String.length a) by lia.
    rewrite !sapp_assoc. rewrite take_app, drop_app. reflexivity.
Qed.

Lemma toFixed_tenth (sx : bool) (h : Z) :
  0 < h < 10 * 2 ^ 46 ->
  toFixed (div (Num (if sx then - h else h)) (Num 10)) 2 =
  (if sx then "-" else "") ++
  decimal (h / 10) ++ "." ++ digit (h mod 10) ++ "0".
Proof.
  intros Hh.
  destruct (div_10_close sx h Hh) as (M & E & Hdiv & HE & HM & Hlo & Hhi).
  rewrite Hdiv. unfold toFixed. f_equal.
  unfold numerator, denominator, nearest_scaled, numerator, denominator.
  replace (0 <=? E) with false by (symmetry; apply Z.leb_gt; lia).
  assert (HD : 0 < 2 ^ (- E)) by (apply Z.pow_pos_nonneg; lia).
  set (D := 2 ^ (- E)) in *.
  replace (10 ^ 21 * D <=? Zpos M) with false.
  2:{ symmetry. apply Z.leb_gt. change (2 ^ 53) with 9007199254740992 in HM.
      change (10 ^ 21) with 1000000000000000000000. nia. }
  change (10 ^ Z.of_nat 2) with 100.
  replace ((2 * (Zpos M * 100) + D) / (2 * D)) with (10 * h).
  - apply fixed_digits_tenths. lia.
  - apply Z.div_unique with (r := 2 * (Zpos M * 100) + D - 2 * D * (10 * h)); nia.
Qed.

Lemma convert_tenths (h : Z) :
  - (10 * 2 ^ 46) <= h <= 10 * 2 ^ 46 ->
  toFixed (div (Num h) (Num 10)) 2 = tenths h.
Proof.
  intros Hh.
  destruct (Z.eq_dec h (10 * 2 ^ 46)) as [->|Hu]; [vm_compute; reflexivity|].
  destruct (Z.eq_dec h (- (10 * 2 ^ 46))) as [->|Hd]; [vm_compute; reflexivity|].
  unfold tenths.
  destruct (Z.lt_trichotomy h 0) as [Hn|[Hz|Hp]].
  - replace (h <? 0) with true by (symmetry; apply Z.ltb_lt; lia).
    replace h with (- (- h)) at 1 by lia.
    rewrite (toFixed_tenth true (- h)) by lia.
    rewrite Z.abs_neq by lia. reflexivity.
  - subst h. reflexivity.
  - replace (h <? 0) with false by (symmetry; apply Z.ltb_ge; lia).
    rewrite (toFixed_tenth false h) by lia.
    rewrite Z.abs_eq by lia. reflexivity.
Qed.

End FixedFacts.


Section ToStringFacts.
Import JsString JsNumber Render.

(** An integer of 54 binary digits loses its last digit. *)
Lemma Num_54 (w : Z) :
  2 ^ 53 <= w < 2 ^ 54 - 1 -> exists M, Num w = S754_finite false M 1.
Proof.
  intros Hw. mantissa_bounds.
  unfold Num, binary_normalize. destruct w as [|p|p]; try lia.
  unfold binary_round, shl_align.
  change (Zpos (digits2_pos p)) with (Zdigits2 (Zpos p)).
  rewrite (Zdigits2_eq (Zpos p) 54) by (simpl; lia).
  change (fexp prec emax (54 + 0) - 0) with 1. cbv iota.
  assert (Hodd : Zpos p = 2 * (Zpos p / 2) + (if Z.odd (Zpos p) then 1 else 0)).
  { rewrite <- Zmod_odd. apply Z.div_mod. lia. }
  eexists. apply (round_aux_54 false (Zpos p) 0 loc_Exact).
  - lia.
  - lia.
  - unfold shifted_loc.
    destruct (Z.odd (Zpos p)); cbn [round_nearest_even]; [|lia].
    destruct (Z.even (Zpos p / 2)); lia.
Qed.

Lemma SFeqb_finite (m1 m2 : positive) (e1 e2 : Z) :
  SFeqb (S754_finite false m1 e1) (S754_finite false m2 e2) =
  (e1 =? e2) && Pos.eqb m1 m2.
Proof.
  unfold SFeqb, SFcompare.
  destruct (Z.compare_spec e1 e2) as [H|H|H].
  - subst. rewrite Z.eqb_refl. cbn [andb].
    change (Pos.compare_cont Eq m1 m2) with (Pos.compare m1 m2).
    destruct (Pos.compare_spec m1 m2) as [G|G|G].
    + subst. rewrite Pos.eqb_refl. reflexivity.
    + symmetry. apply Pos.eqb_neq. lia.
    + symmetry. apply Pos.eqb_neq. lia.
  - replace (e1 =? e2) with false by (symmetry; apply Z.eqb_neq; lia). reflexivity.
  - replace (e1 =? e2) with false by (symmetry; apply Z.eqb_neq; lia). reflexivity.
Qed.

(** Below [2^53] two integers give the same Number only when they are
    equal, and nothing up to [2^54 - 2] rounds down into that range. *)
Lemma SFeqb_Num (u v : Z) :
  0 < u < 2 ^ 54 - 1 -> 0 < v < 2 ^ 53 ->
  SFeqb (Num u) (Num v) = (u =? v).
Proof.
  intros Hu Hv.
  assert (Lv : 0 <= Z.log2 v <= 52).
  { split; [apply Z.log2_nonneg|].
    assert (Z.log2 v < 53) by (apply Z.log2_lt_pow2; lia). lia. }
  rewrite (Num_exact false v Hv).
  destruct (Z_lt_le_dec u (2 ^ 53)) as [Hs|Hs].
  - assert (Lu : 0 <= Z.log2 u <= 52).
    { split; [apply Z.log2_nonneg|].
      assert (Z.log2 u < 53) by (apply Z.log2_lt_pow2; lia). lia. }
    rewrite (Num_exact false u) by lia. rewrite SFeqb_finite.
    destruct (Z.eqb_spec u v) as [E|E].
    + subst. rewrite Z.eqb_refl, Pos.eqb_refl. reflexivity.
    + destruct (Z.eqb_spec (Z.log2 u - 52) (Z.log2 v - 52)) as [G|G]; [|reflexivity].
      cbn [andb]. apply Pos.eqb_neq. intros C.
      assert (G' : Z.log2 u = Z.log2 v) by lia. rewrite G' in C.
      assert (HT : 0 < 2 ^ (52 - Z.log2 v)) by (apply Z.pow_pos_nonneg; lia).
      apply Z2Pos.inj in C; nia.
  - destruct (Num_54 u ltac:(lia)) as [M HM]. rewrite HM, SFeqb_finite.
    replace (1 =? Z.log2 v - 52) with false by (symmetry; apply Z.eqb_neq; lia).
    symmetry. apply Z.eqb_neq. lia.
Qed.

End ToStringFacts.


Section ShortestFacts.
Import JsString JsNumber.

Variables v a b : Z.
Hypothesis Hv : 0 < v < 2 ^ 53.
Hypothesis Hb : 0 < b.
Hypothesis Hab : a = v * b.

(** With a unit [10^j] no larger than [v], the only candidate that can
    round to [v] is [v] itself, when it is a multiple of the unit. *)
Lemma candidate_exact (j : Z) :
  0 <= j -> 10 ^ j <= v ->
  candidate (Num v) a b j =
  if v / 10 ^ j * 10 ^ j =? v then Some (v / 10 ^ j) else None.
Proof.
  intros Hj Hle. unfold candidate, of_scaled.
  replace (0 <=? j) with true by (symmetry; apply Z.leb_le; lia).
  assert (Hp : 0 < 10 ^ j) by (apply Z.pow_pos_nonneg; lia).
  replace (a / (b * 10 ^ j)) with (v / 10 ^ j)
    by (rewrite Hab, (Z.mul_comm v b); symmetry; apply Z.div_mul_cancel_l; lia).
  set (lo := v / 10 ^ j).
  assert (Hlo : 1 <= lo) by (apply Z.div_le_lower_bound; lia).
  pose proof (Z.div_mod v (10 ^ j) ltac:(lia)) as Hdm.
  pose proof (Z.mod_pos_bound v (10 ^ j) Hp) as Hm.
  fold lo in Hdm.
  mantissa_bounds.
  replace (0 <? lo) with true by (symmetry; apply Z.ltb_lt; lia).
  rewrite (SFeqb_Num (lo * 10 ^ j) v)
    by nia.
  rewrite (SFeqb_Num ((lo + 1) * 10 ^ j) v)
    by nia.
  replace ((lo + 1) * 10 ^ j =? v) with false by (symmetry; apply Z.eqb_neq; nia).
  cbn [andb]. destruct (lo * 10 ^ j =? v); reflexivity.
Qed.

Variable n0 : Z.
Hypothesis Hn0 : 10 ^ (n0 - 1) <= v < 10 ^ n0.

Lemma shortest_exact (fuel : nat) : forall k : Z,
  1 <= k <= n0 -> n0 - k < Z.of_nat fuel ->
  exists s k1,
    shortest fuel (Num v) a b n0 k = (s, k1, n0) /\
    1 <= k1 <= n0 /\ 1 <= s /\ s * 10 ^ (n0 - k1) = v.
Proof.
  induction fuel as [|fuel IH]; intros k Hk Hf; [lia|].
  cbn [shortest].
  assert (Hj : 10 ^ (n0 - k) <= v).
  { apply Z.le_trans with (10 ^ (n0 - 1)); [|lia].
    apply Z.pow_le_mono_r; lia. }
  rewrite candidate_exact by lia.
  assert (Hp : 0 < 10 ^ (n0 - k)) by (apply Z.pow_pos_nonneg; lia).
  destruct (Z.eqb_spec (v / 10 ^ (n0 - k) * 10 ^ (n0 - k)) v) as [E|E].
  - assert (Hs : 1 <= v / 10 ^ (n0 - k)) by (apply Z.div_le_lower_bound; lia).
    assert (Hlt : v / 10 ^ (n0 - k) < 10 ^ k).
    { apply Z.div_lt_upper_bound; [lia|].
      rewrite <- Z.pow_add_r by lia. replace (n0 - k + k) with n0 by lia. lia. }
    replace (v / 10 ^ (n0 - k) =? 10 ^ k) with false
      by (symmetry; apply Z.eqb_neq; lia).
    exists (v / 10 ^ (n0 - k)), k. repeat split; try lia.
  - assert (Hk' : k < n0).
    { destruct (Z.eq_dec k n0) as [->|]; [|lia].
      exfalso. apply E. replace (n0 - n0) with 0 by lia.
      rewrite Z.pow_0_r, Z.div_1_r. lia. }
    destruct (IH (k + 1)) as (s & k1 & Hsh & Hk1 & Hs & Hval); try lia.
    exists s, k1. repeat split; try lia. exact Hsh.
Qed.

End ShortestFacts.

Section ToStringResult.
Import JsString JsNumber.

(** Up to [2^53] the conversion to a string gives the decimal digits. *)
Lemma NumberToString_Num (v : Z) :
  0 <= v <= 2 ^ 53 -> NumberToString (Num v) = decimal v.
Proof.
  intros Hv. destruct (Z.eq_dec v 0) as [->|Hz]; [reflexivity|].
  destruct (Z.eq_dec v (2 ^ 53)) as [->|Hz']; [vm_compute; reflexivity|].
  assert (Hv' : 0 < v < 2 ^ 53) by lia.
  assert (Lv : 0 <= Z.log2 v <= 52).
  { split; [apply Z.log2_nonneg|].
    assert (Z.log2 v < 53) by (apply Z.log2_lt_pow2; lia). lia. }
  pose proof (Num_exact false v Hv') as HN. cbv iota in HN.
  set (T := 2 ^ (52 - Z.log2 v)) in *.
  assert (HT : 0 < T) by (apply Z.pow_pos_nonneg; lia).
  set (m := Z.to_pos (v * T)) in *.
  set (e := Z.log2 v - 52) in *.
  assert (Hm : Zpos m = v * T) by (unfold m; rewrite Z2Pos.id; nia).
  assert (Hab : numerator m e = v * denominator e /\ 0 < denominator e).
  { unfold numerator, denominator. destruct (Z.leb_spec 0 e) as [He|He].
    - assert (He0 : e = 0) by (unfold e in *; lia).
      assert (HT1 : T = 1) by (unfold T; replace (52 - Z.log2 v) with 0 by (unfold e in *; lia); reflexivity).
      rewrite He0, Hm, HT1. simpl. lia.
    - replace (- e) with (52 - Z.log2 v) by (unfold e; lia). fold T. lia. }
  destruct Hab as [Hab Hb].
  pose proof (decimal_length v ltac:(lia)) as Hlen.
  rewrite HN. unfold NumberToString, positive_to_string.
  assert (Hde : decimal_exponent (numerator m e) (denominator e) = ndigits v).
  { unfold decimal_exponent.
    replace (denominator e <=? numerator m e) with true
      by (symmetry; apply Z.leb_le; nia).
    rewrite Hab, Z.div_mul by lia. reflexivity. }
  rewrite Hde. rewrite <- HN.
  assert (Hnd : 1 <= ndigits v <= 16).
  { unfold ndigits. split.
    - destruct (String.length (decimal v)); [simpl in Hlen|]; lia.
    - destruct (Z_le_gt_dec (Z.of_nat (String.length (decimal v))) 16) as [|G]; [lia|].
      exfalso. assert (10 ^ 16 <= 10 ^ (Z.of_nat (String.length (decimal v)) - 1))
        by (apply Z.pow_le_mono_r; lia).
      change (2 ^ 53) with 9007199254740992 in Hv'.
      change (10 ^ 16) with 10000000000000000 in H. lia. }
  destruct (shortest_exact v (numerator m e) (denominator e) Hv' Hb Hab
              (ndigits v) Hlen 17 1) as (s & k1 & Hsh & Hk1 & Hs & Hval);
    try (simpl; lia).
  rewrite Hsh.
  replace ((k1 <=? ndigits v) && (ndigits v <=? 21)) with true.
  2:{ symmetry. apply andb_true_iff. split; apply Z.leb_le; lia. }
  rewrite <- Hval at 2.
  rewrite <- (Z2Nat.id (ndigits v - k1)) at 2 by lia.
  rewrite decimal_times_pow10 by lia. reflexivity.
Qed.

Lemma fill_zero (n : nat) : fill n "0" "0" = zeros n.
Proof.
  assert (G : forall n cur, cur = "0" \/ cur = "" -> fill n cur "0" = zeros n).
  { clear n. induction n as [|n IH]; intros cur H; [reflexivity|].
    cbn [fill zeros]. destruct H as [->| ->]; rewrite IH; auto. }
  apply G. auto.
Qed.

(** Padding with zeros to three characters, in closed form. *)
Lemma padStart_3_0 (s : string) :
  padStart 3 "0" s = zeros (3 - String.length s) ++ s.
Proof.
  unfold padStart. destruct (Nat.leb_spec 3 (String.length s)) as [H|H].
  - replace (3 - String.length s)%nat with 0%nat by lia. reflexivity.
  - cbn [isEmpty]. rewrite fill_zero. reflexivity.
Qed.

End ToStringResult.

(** ** The built-ins on known values *)

Section BuiltinChecks.
Import JsString JsNumber.

Example toString_integers :
  NumberToString (Num 0) = "0" /\ NumberToString (Num 25) = "25" /\
  NumberToString (Num (-7)) = "-7" /\
  NumberToString (Num (2 ^ 53)) = "9007199254740992" /\
  NumberToString (Num (2 ^ 60)) = "1152921504606847000" /\
  NumberToString (Num (10 ^ 21)) = "1e+21" /\
  NumberToString (Num (10 ^ 400)) = "Infinity".
Proof. vm_compute. repeat split. Qed.

Example toString_fractions :
  NumberToString (div (Num 1) (Num 10)) = "0.1" /\
  NumberToString (div (Num 1) (Num 3)) = "0.3333333333333333" /\
  NumberToString (div (Num 123456) (Num 1000)) = "123.456" /\
  NumberToString (div (Num 1) (Num 1000000)) = "0.000001" /\
  NumberToString (div (Num 1) (Num 10000000)) = "1e-7" /\
  NumberToString (SFadd prec emax (div (Num 1) (Num 10)) (div (Num 2) (Num 10))) =
    "0.30000000000000004" /\
  NumberToString (S754_finite false 1 (-1074)) = "5e-324" /\
  NumberToString (S754_finite false 9007199254740991 971) =
    "1.7976931348623157e+308".
Proof. vm_compute. repeat split. Qed.

Example toFixed_values :
  toFixed (div (Num 4) (Num 10)) 2 = "0.40" /\
  toFixed (div (Num 1005) (Num 1000)) 2 = "1.00" /\
  toFixed (div (Num 8345) (Num 1000)) 2 = "8.35" /\
  toFixed (div (Num 25) (Num 10)) 0 = "3" /\
  toFixed (div (Num (-1)) (Num 1000)) 2 = "-0.00" /\
  toFixed (Num 123) 2 = "123.00" /\
  toFixed (Num (10 ^ 21)) 2 = "1e+21".
Proof. vm_compute. repeat split. Qed.

Example string_values :
  trim "  a b  " = "a b" /\ trim "   " = "" /\
  toLowerCase "PikaChu-25" = "pikachu-25" /\
  padStart 3 "0" "25" = "025" /\ padStart 3 "0" "1200" = "1200" /\
  padStart 5 "ab" "x" = "ababx" /\
  includes "HTTP Error: 500" "Failed to fetch" = false.
Proof. vm_compute. repeat split. Qed.

End BuiltinChecks.

(** * The claims of the specification *)

Section Claims.
Import JsString JsNumber Dom Script Render.

(** ** Failures and the busy flag *)

(** C1 (the script departs from the claim).  A lookup of a name the
    service answers with 404: the [try] block throws the not-found error,
    the handler starts with the read of the unbound [s], and the promise of
    [fetchPokemon] is rejected with that [ReferenceError].  No message is
    shown, nothing is logged, and the search button stays disabled. *)
Theorem not_found_escapes_unclassified :
  let net := fun _ : string => Resolved (mkResponse 404 (BadBody (mkExn "SyntaxError" "Unexpected token N in JSON at position 0"))) in
  let settled := fetchPokemon net "missingno" start in
  fst settled = Throw (mkExn "ReferenceError" "s is not defined") /\
  errorMessage_hidden (controls (snd settled)) = true /\
  errorText (controls (snd settled)) = "" /\
  console (snd settled) = [] /\
  searchBtn_disabled (controls (snd settled)) = true.
Proof. cbv zeta. repeat split. Qed.

(** C2 (the script departs from the claim).  A lookup whose request the
    transport cannot complete: the button is disabled once the request is
    out, and it is still disabled, with the loading indicator still shown,
    after the promise has settled.  A lookup that is answered with the
    record enables the button again. *)
Theorem busy_flag_stuck_after_transport_failure :
  let down := fun _ : string => Rejected (mkExn "TypeError" "Failed to fetch") in
  let up := fun _ : string => Resolved (mkResponse 200 (JsonBody pikachu)) in
  searchBtn_disabled (controls (snd (initiated "pikachu" start))) = true /\
  fst (fetchPokemon down "pikachu" start) = Throw unbound_s /\
  searchBtn_disabled (controls (snd (fetchPokemon down "pikachu" start))) = true /\
  loadingIndicator_hidden (controls (snd (fetchPokemon down "pikachu" start))) = false /\
  fst (fetchPokemon up "pikachu" start) = Normal tt /\
  searchBtn_disabled (controls (snd (fetchPokemon up "pikachu" start))) = false.
Proof. cbv zeta. repeat split. Qed.

(** ** Classification *)

(** C3, as stated, fails: a lookup answered with status 500 and a lookup
    answered with status 200 and a body that does not parse settle in the
    same way on the same page, so no reading of the result tells an HTTP
    error carrying its status from a malformed response; and the handler's
    choice of message is the same for both. *)
Lemma http_error_and_malformed_not_distinct :
  let parse_error := mkExn "SyntaxError" "Unexpected token < in JSON at position 0" in
  let net500 := fun _ : string => Resolved (mkResponse 500 (BadBody parse_error)) in
  let netBad := fun _ : string => Resolved (mkResponse 200 (BadBody parse_error)) in
  (~ exists kind : completion unit * Page -> Failure,
       kind (fetchPokemon net500 "pikachu" start) = HttpError 500 /\
       kind (fetchPokemon netBad "pikachu" start) = MalformedResponse) /\
  fst (try_block net500 "pikachu" start) = Throw (Error "HTTP Error: 500") /\
  fst (try_block netBad "pikachu" start) = Throw parse_error /\
  catch_dispatch (Error "HTTP Error: 500") start =
  catch_dispatch parse_error start.
Proof.
  cbv zeta. split; [|repeat split].
  intros [kind [H1 H2]].
  assert (E : fetchPokemon (fun _ : string => Resolved (mkResponse 500 (BadBody (mkExn "SyntaxError" "Unexpected token < in JSON at position 0")))) "pikachu" start =
              fetchPokemon (fun _ : string => Resolved (mkResponse 200 (BadBody (mkExn "SyntaxError" "Unexpected token < in JSON at position 0")))) "pikachu" start)
    by reflexivity.
  rewrite E in H1. rewrite H1 in H2. discriminate.
Qed.

(** C3, as the script has it.  The [try] block raises: the transport's own
    exception when the request cannot complete; the not-found error on a
    404; an error whose message carries the status on any other status
    outside 200-299; the parser's own exception when the body of a
    successful response does not parse.  The handler's [if] chain then
    picks the text by the message alone: the message itself when it
    contains "Pokémon not found", the network text when it contains
    "Failed to fetch", and one generic text for everything else. *)
Theorem classification_by_message (net : string -> FetchResult) (q : string) (p : Page) :
  let url := endpoint ++ toLowerCase q in
  (forall e, net url = Rejected e -> fst (try_block net q p) = Throw e) /\
  (forall r, net url = Resolved r -> status r = 404 ->
     fst (try_block net q p) =
     Throw (Error "Pokémon not found! Please check the name or ID and try again.")) /\
  (forall r, net url = Resolved r -> ok r = false -> status r <> 404 ->
     fst (try_block net q p) =
     Throw (Error ("HTTP Error: " ++ NumberToString (Num (status r))))) /\
  (forall r e, net url = Resolved r -> ok r = true -> body r = BadBody e ->
     fst (try_block net q p) = Throw e) /\
  (forall error,
     catch_dispatch error p =
     (Normal tt,
      failed
        (if includes (exn_message error) "Pokémon not found"
         then exn_message error
         else if includes (exn_message error) "Failed to fetch"
         then "Network error! Please check your internet connection."
         else "Something went wrong! Please try again.") p)).
Proof.
  cbv zeta. repeat split.
  - intros e H. rewrite try_block_run. cbv zeta. rewrite H. reflexivity.
  - intros r Hn H. rewrite try_block_run. cbv zeta. rewrite Hn.
    unfold ok. rewrite H. reflexivity.
  - intros r Hn Hok H. rewrite try_block_run. cbv zeta. rewrite Hn, Hok.
    apply Z.eqb_neq in H. rewrite H. reflexivity.
  - intros r e Hn Hok Hb. rewrite try_block_run. cbv zeta.
    rewrite Hn, Hok, Hb. reflexivity.
  - intros error. unfold catch_dispatch.
    destruct (includes (exn_message error) "Pokémon not found");
      [apply showError_run|].
    destruct (includes (exn_message error) "Failed to fetch");
      apply showError_run.
Qed.

(** The four ways the [try] block throws, on concrete answers. *)
Lemma classification_by_message_witness :
  let down := mkExn "TypeError" "Failed to fetch" in
  let bad := mkExn "SyntaxError" "Unexpected end of JSON input" in
  fst (try_block (fun _ => Rejected down) "pikachu" start) = Throw down /\
  fst (try_block (fun _ => Resolved (mkResponse 404 (BadBody bad))) "pikachu" start) =
    Throw (Error "Pokémon not found! Please check the name or ID and try again.") /\
  fst (try_block (fun _ => Resolved (mkResponse 500 (BadBody bad))) "pikachu" start) =
    Throw (Error ("HTTP Error: " ++ NumberToString (Num 500))) /\
  fst (try_block (fun _ => Resolved (mkResponse 200 (BadBody bad))) "pikachu" start) =
    Throw bad.
Proof.
  cbv zeta. split; [|split; [|split]].
  - apply (proj1 (classification_by_message
                    (fun _ => Rejected (mkExn "TypeError" "Failed to fetch"))
                    "pikachu" start)).
    reflexivity.
  - apply (proj1 (proj2 (classification_by_message
                    (fun _ => Resolved (mkResponse 404 (BadBody (mkExn "SyntaxError" "Unexpected end of JSON input"))))
                    "pikachu" start))
             (mkResponse 404 (BadBody (mkExn "SyntaxError" "Unexpected end of JSON input")))).
    + reflexivity.
    + reflexivity.
  - apply (proj1 (proj2 (proj2 (classification_by_message
                    (fun _ => Resolved (mkResponse 500 (BadBody (mkExn "SyntaxError" "Unexpected end of JSON input"))))
                    "pikachu" start)))
             (mkResponse 500 (BadBody (mkExn "SyntaxError" "Unexpected end of JSON input")))).
    + reflexivity.
    + reflexivity.
    + simpl. lia.
  - apply (proj1 (proj2 (proj2 (proj2 (classification_by_message
                    (fun _ => Resolved (mkResponse 200 (BadBody (mkExn "SyntaxError" "Unexpected end of JSON input"))))
                    "pikachu" start))))
             (mkResponse 200 (BadBody (mkExn "SyntaxError" "Unexpected end of JSON input")))).
    + reflexivity.
    + reflexivity.
    + reflexivity.
Defined.

(** ** Validation and the request *)



(** ** The details view *)

(** C5.  The images of the card are the four slots in the order front,
    back, shiny front, shiny back, each kept exactly when its URL is
    neither [null] nor empty and labelled "Front", "Back", "Shiny Front"
    or "Shiny Back"; with only the first slot filled there is one image,
    labelled "Front". *)
Theorem images_follow_slots :
  (forall data p,
     map (fun c => (label_text c, img_src c))
       (pokemonImages (card (snd (displayPokemon data p)))) =
     slot_entries (sprites data)) /\
  (forall i n h w b ts c u p,
     map (fun c => (label_text c, img_src c))
       (pokemonImages
          (card (snd (displayPokemon
                        (mkRecord i n h w b
                           (mkSprites (Some (String c u)) None None None) ts) p)))) =
     [("Front", String c u)]).
Proof.
  assert (H : forall data p,
     map (fun c => (label_text c, img_src c))
       (pokemonImages (card (snd (displayPokemon data p)))) =
     slot_entries (sprites data)).
  { intros data p. rewrite displayPokemon_run. cbn [snd card card_of pokemonImages].
    unfold images_of, imageUrls, slot_entries.
    destruct (sprites data) as [a b c d]. cbn [flat_map front_default back_default front_shiny back_shiny].
    unfold image_of. cbn [fst snd].
    rewrite !map_app.
    destruct a as [a|], b as [b|], c as [c|], d as [d|];
      try destruct (isEmpty a); try destruct (isEmpty b);
      try destruct (isEmpty c); try destruct (isEmpty d); reflexivity. }
  split; [exact H|].
  intros. rewrite H. reflexivity.
Qed.

(** C6 (the script departs from the claim).  A category named
    "constructor" is not in the table, yet it does not get the default
    class: the read of the table finds the member the object literal
    inherits, [getTypeColor] returns that function, and [classList.add]
    refuses its text, so [displayPokemon] throws and no badge is shown. *)
Theorem inherited_name_is_not_defaulted :
  assoc "constructor" typeColors = None /\
  getTypeColor "constructor" = VFunction "Object" /\
  getTypeColor "constructor" <> VString "bg-gray-400" /\
  (let shown := displayPokemon
                  (mkRecord 25 "pikachu" 4 60 112
                     (mkSprites (Some "front.png") None None None)
                     ["constructor"]) start in
   fst shown =
     Throw (mkExn "InvalidCharacterError"
              "The token provided ('function Object() { [native code] }') contains HTML space characters, which are not valid in tokens.") /\
   pokemonTypes (card (snd shown)) = [] /\
   pokemonCard_hidden (controls (snd shown)) = true).
Proof.
  split; [reflexivity|]. split; [reflexivity|]. split; [discriminate|].
  cbv zeta. split; [reflexivity|]. split; reflexivity.
Qed.

(** C9.  Two lookups whose requests are both answered with a successful
    response carrying the same record settle in the same way and leave the
    same card, the one given by the record alone, whatever the pages they
    started from showed. *)
Theorem same_record_same_card
  (net1 net2 : string -> FetchResult) (q1 q2 : string) (p1 p2 : Page)
  (r1 r2 : Response) (data : RawRecord) :
  net1 (endpoint ++ toLowerCase q1) = Resolved r1 -> ok r1 = true ->
  body r1 = JsonBody data ->
  net2 (endpoint ++ toLowerCase q2) = Resolved r2 -> ok r2 = true ->
  body r2 = JsonBody data ->
  fst (fetchPokemon net1 q1 p1) = fst (fetchPokemon net2 q2 p2) /\
  card (snd (fetchPokemon net1 q1 p1)) = card_of data /\
  card (snd (fetchPokemon net2 q2 p2)) = card_of data.
Proof.
  intros Hn1 Hok1 Hb1 Hn2 Hok2 Hb2.
  rewrite !fetchPokemon_run. cbv zeta.
  rewrite Hn1, Hok1, Hb1, Hn2, Hok2, Hb2.
  split; [reflexivity|]. split; reflexivity.
Qed.

(** The same record looked up twice in a row, the second time from the
    page the first lookup left. *)
Lemma same_record_same_card_witness :
  let net := fun _ : string => Resolved (mkResponse 200 (JsonBody pikachu)) in
  let again := snd (fetchPokemon net "pikachu" start) in
  fst (fetchPokemon net "pikachu" start) = fst (fetchPokemon net "PIKACHU" again) /\
  card (snd (fetchPokemon net "pikachu" start)) = card_of pikachu /\
  card (snd (fetchPokemon net "PIKACHU" again)) = card_of pikachu.
Proof.
  cbv zeta.
  apply (same_record_same_card
           (fun _ => Resolved (mkResponse 200 (JsonBody pikachu)))
           (fun _ => Resolved (mkResponse 200 (JsonBody pikachu)))
           "pikachu" "PIKACHU" start
           (snd (fetchPokemon (fun _ => Resolved (mkResponse 200 (JsonBody pikachu)))
                   "pikachu" start))
           (mkResponse 200 (JsonBody pikachu)) (mkResponse 200 (JsonBody pikachu))
           pikachu);
    reflexivity.
Defined.

(** C10.  [capitalize] is a function from strings to strings and gives the
    empty string on the empty string; a record with an empty name shows an
    empty name; and a record whose only category label is empty is
    displayed without an exception, with one badge whose text is empty. *)
Theorem capitalize_empty :
  capitalize "" = "" /\
  (forall s, exists r, capitalize s = r) /\
  (forall i h w b sp ts p,
     pokemonName (card (snd (displayPokemon (mkRecord i "" h w b sp ts) p))) = "") /\
  (forall i n h w b sp p,
     fst (displayPokemon (mkRecord i n h w b sp [""]) p) = Normal tt /\
     map badge_text
       (pokemonTypes (card (snd (displayPokemon (mkRecord i n h w b sp [""]) p)))) =
     [""]).
Proof.
  split; [reflexivity|]. split; [intros s; eexists; reflexivity|]. split.
  - intros. rewrite displayPokemon_run. reflexivity.
  - intros. rewrite displayPokemon_run. split; reflexivity.
Qed.

(** ** Numbers on the card *)

(** C7, as stated, fails for large values.  A height of [10^22] tenths is
    shown in exponent notation, with no decimals at all; and the height
    [703687441776641], one above [10 * 2^46], is shown with the decimals
    ".09" although its tenth ends in ".10": the quotient is no longer exact
    enough.  So the rendering is not, for every integer, the tenth with two
    decimals. *)
Lemma two_decimals_fail_for_large_values :
  pokemonHeight
    (card (snd (displayPokemon
                  (mkRecord 25 "pikachu" (10 ^ 22) (10 ^ 22) 112
                     (mkSprites None None None None) []) start))) = "1e+21 m" /\
  pokemonWeight
    (card (snd (displayPokemon
                  (mkRecord 25 "pikachu" (10 ^ 22) (10 ^ 22) 112
                     (mkSprites None None None None) []) start))) = "1e+21 kg" /\
  convertHeight (Num 703687441776641) = "70368744177664.09 m" /\
  tenths 703687441776641 = "70368744177664.10" /\
  ~ (forall h : Z, convertHeight (Num h) = tenths h ++ " m").
Proof.
  split; [vm_compute; reflexivity|]. split; [vm_compute; reflexivity|].
  split; [vm_compute; reflexivity|]. split; [vm_compute; reflexivity|].
  intros H. specialize (H 703687441776641). vm_compute in H. discriminate.
Qed.

(** C7, within the range where the quotient is exact enough.  For a height
    and a weight of at most [10 * 2^46 = 703687441776640] in size, the card
    shows the tenth of each with exactly two decimals, the tenths digit and
    a zero, followed by " m" and " kg". *)
Theorem height_and_weight_in_tenths (data : RawRecord) (p : Page) :
  - (10 * 2 ^ 46) <= height data <= 10 * 2 ^ 46 ->
  - (10 * 2 ^ 46) <= weight data <= 10 * 2 ^ 46 ->
  pokemonHeight (card (snd (displayPokemon data p))) = tenths (height data) ++ " m" /\
  pokemonWeight (card (snd (displayPokemon data p))) = tenths (weight data) ++ " kg".
Proof.
  intros Hh Hw. rewrite displayPokemon_run.
  cbn [snd card card_of pokemonHeight pokemonWeight].
  unfold convertHeight, convertWeight.
  rewrite !convert_tenths by assumption. split; reflexivity.
Qed.

(** Height 4 and weight 60. *)
Lemma height_and_weight_in_tenths_witness :
  pokemonHeight (card (snd (displayPokemon pikachu start))) = "0.40 m" /\
  pokemonWeight (card (snd (displayPokemon pikachu start))) = "6.00 kg".
Proof.
  apply (height_and_weight_in_tenths pikachu start); simpl; lia.
Defined.

(** C8, as stated, fails for large values: the identifier [2^53 + 1] is
    shown with the digits of [2^53], the Number it is read as, and the
    identifier [10^21] is shown as "#1e+21". *)
Lemma identifier_not_its_decimal_rendering :
  pokemonId
    (card (snd (displayPokemon
                  (mkRecord 9007199254740993 "pikachu" 4 60 112
                     (mkSprites None None None None) []) start))) =
    "#9007199254740992" /\
  pokemonId
    (card (snd (displayPokemon
                  (mkRecord (10 ^ 21) "pikachu" 4 60 112
                     (mkSprites None None None None) []) start))) = "#1e+21" /\
  decimal 9007199254740993 = "9007199254740993" /\
  decimal (10 ^ 21) = "1000000000000000000000" /\
  ~ (forall i : Z, 0 <= i ->
       "#" ++ padStart 3 "0" (NumberToString (Num i)) =
       "#" ++ zeros (3 - String.length (decimal i)) ++ decimal i).
Proof.
  split; [vm_compute; reflexivity|]. split; [vm_compute; reflexivity|].
  split; [vm_compute; reflexivity|]. split; [vm_compute; reflexivity|].
  intros H. specialize (H 9007199254740993 ltac:(lia)).
  vm_compute in H. discriminate.
Qed.

(** C8, for the identifiers a Number holds exactly.  For an identifier from
    0 to [2^53] the card shows "#" and the decimal digits, with zeros in
    front up to three characters; from 1000 on there is no padding and
    every digit is kept. *)
Theorem identifier_padded (data : RawRecord) (p : Page) :
  0 <= id data <= 2 ^ 53 ->
  pokemonId (card (snd (displayPokemon data p))) =
    "#" ++ zeros (3 - String.length (decimal (id data))) ++ decimal (id data) /\
  (1000 <= id data ->
   pokemonId (card (snd (displayPokemon data p))) = "#" ++ decimal (id data)).
Proof.
  intros Hid. rewrite displayPokemon_run. cbn [snd card card_of pokemonId].
  rewrite NumberToString_Num by assumption. rewrite padStart_3_0.
  split; [reflexivity|]. intros Hk.
  assert (H1 : 1 <= id data) by lia.
  pose proof (decimal_length (id data) H1) as [_ Hlen].
  assert (Hl : (4 <= String.length (decimal (id data)))%nat).
  { destruct (le_lt_dec 4 (String.length (decimal (id data)))) as [|G]; [assumption|].
    exfalso.
    assert (10 ^ Z.of_nat (String.length (decimal (id data))) <= 10 ^ 3)
      by (apply Z.pow_le_mono_r; lia).
    change (10 ^ 3) with 1000 in H. lia. }
  replace (3 - String.length (decimal (id data)))%nat with 0%nat by lia.
  reflexivity.
Qed.

(** Identifiers 25 and 1200. *)
Lemma identifier_padded_witness :
  pokemonId (card (snd (displayPokemon pikachu start))) = "#025" /\
  pokemonId
    (card (snd (displayPokemon
                  (mkRecord 1200 "pikachu" 4 60 112
                     (mkSprites None None None None) []) start))) = "#1200".
Proof.
  split.
  - apply (proj1 (identifier_padded pikachu start ltac:(simpl; lia))).
  - apply (proj2 (identifier_padded
                    (mkRecord 1200 "pikachu" 4 60 112
                       (mkSprites None None None None) []) start
                    ltac:(simpl; lia))).
    simpl. lia.
Defined.

End Claims.

(** * Further properties of the script *)

(** ** The theme switch *)

Section ThemeFacts.
Import Dom Theme.

Lemma has_app (c : string) (a b : list string) :
  has c (a ++ b) = has c a || has c b.
Proof. unfold has. apply existsb_app. Qed.

Lemma has_In (c : string) (set : list string) : has c set = true <-> In c set.
Proof.
  unfold has. rewrite existsb_exists. split.
  - intros [x [Hx He]]. apply String.eqb_eq in He. subst. exact Hx.
  - intros H. exists c. split; [exact H | apply String.eqb_refl].
Qed.

(** After [add], a class is there when it was there or was added. *)
Lemma has_append (c : string) (tokens : list string) : forall set,
  has c (append_tokens set tokens) = has c set || has c tokens.
Proof.
  induction tokens as [|t r IH]; intros set; cbn [append_tokens].
  - unfold has at 3. simpl. rewrite orb_false_r. reflexivity.
  - rewrite IH. change (has c (t :: r)) with (String.eqb c t || has c r).
    destruct (existsb (String.eqb t) set) eqn:E.
    + destruct (String.eqb_spec c t) as [->|N]; [|reflexivity].
      change (existsb (String.eqb t) set) with (has t set) in E.
      rewrite E. reflexivity.
    + rewrite has_app. unfold has at 2. simpl. rewrite orb_false_r.
      rewrite orb_assoc. reflexivity.
Qed.

(** After [remove], a class is there when it was there and was not
    removed. *)
Lemma has_remove (c : string) (tokens set : list string) :
  has c (remove_tokens set tokens) = has c set && negb (has c tokens).
Proof.
  unfold remove_tokens. induction set as [|x set IH]; [reflexivity|].
  cbn [filter]. change (has c (x :: set)) with (String.eqb c x || has c set).
  destruct (String.eqb_spec c x) as [->|N].
  - fold (has x tokens). destruct (has x tokens); cbn [negb].
    + rewrite IH. rewrite andb_false_r. reflexivity.
    + change (has x (x :: filter (fun c => negb (existsb (String.eqb c) tokens)) set))
        with (String.eqb x x || has x (filter (fun c => negb (existsb (String.eqb c) tokens)) set)).
      rewrite String.eqb_refl. reflexivity.
  - destruct (negb (existsb (String.eqb x) tokens)).
    + change (has c (x :: filter (fun c => negb (existsb (String.eqb c) tokens)) set))
        with (String.eqb c x || has c (filter (fun c => negb (existsb (String.eqb c) tokens)) set)).
      apply String.eqb_neq in N. rewrite N. exact IH.
    + exact IH.
Qed.

Lemma NoDup_append_tokens (tokens : list string) : forall set,
  NoDup set -> NoDup (append_tokens set tokens).
Proof.
  induction tokens as [|t r IH]; intros set H; cbn [append_tokens]; [exact H|].
  apply IH. destruct (existsb (String.eqb t) set) eqn:E; [exact H|].
  apply NoDup_rev in H. rewrite <- (rev_involutive (set ++ [t])).
  apply NoDup_rev. rewrite rev_app_distr. cbn [rev app].
  constructor; [|exact H].
  intros C. apply in_rev in C. apply has_In in C. unfold has in C. congruence.
Qed.

Lemma NoDup_remove_tokens (tokens set : list string) :
  NoDup set -> NoDup (remove_tokens set tokens).
Proof. apply NoDup_filter. Qed.

(** The click in closed form, when the switch holds a [span]. *)
Lemma onToggleClick_run (t : State) (k : list string) :
  span_classList t = Some k ->
  onToggleClick t =
  (Normal tt,
   if isDarkMode t then
     mkTheme false
       (append_tokens (remove_tokens (body_classList t) ["bg-gray-900"]) gradient)
       (append_tokens (remove_tokens (darkModeToggle_classList t) ["bg-purple-600"])
          ["bg-gray-300"])
       (Some (remove_tokens k ["translate-x-6"]))
   else
     mkTheme true
       (remove_tokens (append_tokens (body_classList t) ["bg-gray-900"]) gradient)
       (remove_tokens (append_tokens (darkModeToggle_classList t) ["bg-purple-600"])
          ["bg-gray-300"])
       (Some (append_tokens k ["translate-x-6"]))).
Proof.
  destruct t as [d b g s]. cbn [span_classList]. intros ->.
  destruct d; reflexivity.
Qed.

End ThemeFacts.

Ltac split_has :=
  repeat rewrite has_append; repeat rewrite has_remove;
  repeat rewrite has_append; repeat rewrite has_remove.

Ltac case_has :=
  repeat match goal with
         | |- context [Theme.has ?c (Theme.body_classList ?t)] =>
             destruct (Theme.has c (Theme.body_classList t))
         | |- context [Theme.has ?c (Theme.darkModeToggle_classList ?t)] =>
             destruct (Theme.has c (Theme.darkModeToggle_classList t))
         end.

Section ThemeTheorems.
Import Dom Theme.

(** After a click the flag is flipped and every class the listener
    manages is present or absent as the new flag says, whatever the class
    lists held before. *)
Theorem click_sets_the_theme (t : State) (k : list string) :
  span_classList t = Some k ->
  fst (onToggleClick t) = Normal tt /\
  isDarkMode (snd (onToggleClick t)) = negb (isDarkMode t) /\
  agrees (snd (onToggleClick t)) = true.
Proof.
  intros Hs. rewrite (onToggleClick_run t k Hs). cbn [fst snd].
  split; [reflexivity|]. split; [destruct (isDarkMode t); reflexivity|].
  destruct (isDarkMode t); unfold agrees;
    cbn [isDarkMode body_classList darkModeToggle_classList span_classList
         gradient forallb negb];
    split_has; case_has; destruct (has "translate-x-6" k); reflexivity.
Qed.

Lemma has_cons (c x : string) (l : list string) :
  has c (x :: l) = String.eqb c x || has c l.
Proof. reflexivity. Qed.

(** A click keeps every class it does not manage, on each of the three
    elements, and leaves no class twice in a list that had none twice. *)
Theorem click_keeps_other_classes (t : State) (k : list string) :
  span_classList t = Some k ->
  (forall c, has c body_managed = false ->
     has c (body_classList (snd (onToggleClick t))) = has c (body_classList t)) /\
  (forall c, has c toggle_managed = false ->
     has c (darkModeToggle_classList (snd (onToggleClick t))) =
     has c (darkModeToggle_classList t)) /\
  (exists k', span_classList (snd (onToggleClick t)) = Some k' /\
     (forall c, has c span_managed = false -> has c k' = has c k) /\
     (NoDup k -> NoDup k')) /\
  (NoDup (body_classList t) -> NoDup (body_classList (snd (onToggleClick t)))) /\
  (NoDup (darkModeToggle_classList t) ->
   NoDup (darkModeToggle_classList (snd (onToggleClick t)))).
Proof.
  intros Hs. rewrite (onToggleClick_run t k Hs). cbn [snd].
  split; [|split; [|split; [|split]]].
  - intros c Hc. unfold body_managed in Hc. rewrite has_cons in Hc.
    apply orb_false_iff in Hc. destruct Hc as [H1 H2].
    assert (H1' : has c ["bg-gray-900"] = false)
      by (rewrite has_cons, H1; reflexivity).
    destruct (isDarkMode t); cbn [body_classList]; split_has;
      rewrite H1', H2; destruct (has c (body_classList t)); reflexivity.
  - intros c Hc. unfold toggle_managed in Hc. rewrite has_cons in Hc.
    apply orb_false_iff in Hc. destruct Hc as [H1 H2].
    assert (H1' : has c ["bg-purple-600"] = false)
      by (rewrite has_cons, H1; reflexivity).
    destruct (isDarkMode t); cbn [darkModeToggle_classList]; split_has;
      rewrite H1', H2; destruct (has c (darkModeToggle_classList t)); reflexivity.
  - destruct (isDarkMode t); cbn [span_classList]; eexists;
      (split; [reflexivity|]); split.
    + intros c Hc. unfold span_managed in Hc. rewrite has_remove, Hc.
      apply andb_true_r.
    + apply NoDup_remove_tokens.
    + intros c Hc. unfold span_managed in Hc. rewrite has_append, Hc.
      apply orb_false_r.
    + apply NoDup_append_tokens.
  - intros H. destruct (isDarkMode t); cbn [body_classList].
    + apply NoDup_append_tokens, NoDup_remove_tokens, H.
    + apply NoDup_remove_tokens, NoDup_append_tokens, H.
  - intros H. destruct (isDarkMode t); cbn [darkModeToggle_classList].
    + apply NoDup_append_tokens, NoDup_remove_tokens, H.
    + apply NoDup_remove_tokens, NoDup_append_tokens, H.
Qed.

End ThemeTheorems.

Ltac by_class c :=
  unfold Theme.gradient; repeat rewrite has_cons;
  change (Theme.has c []) with false;
  repeat match goal with
         | |- context [String.eqb c ?x] =>
             destruct (String.eqb_spec c x) as [->|?]
         end.

Section ThemeRoundTrip.
Import Dom Theme.

Lemma agrees_spec (t : State) :
  agrees t = true ->
  has "bg-gray-900" (body_classList t) = isDarkMode t /\
  has "bg-gradient-to-br" (body_classList t) = negb (isDarkMode t) /\
  has "from-blue-400" (body_classList t) = negb (isDarkMode t) /\
  has "via-purple-500" (body_classList t) = negb (isDarkMode t) /\
  has "to-pink-500" (body_classList t) = negb (isDarkMode t) /\
  has "bg-purple-600" (darkModeToggle_classList t) = isDarkMode t /\
  has "bg-gray-300" (darkModeToggle_classList t) = negb (isDarkMode t) /\
  exists k, span_classList t = Some k /\ has "translate-x-6" k = isDarkMode t.
Proof.
  unfold agrees. cbn [forallb gradient]. intros H.
  repeat match goal with
         | E : _ && _ = true |- _ => apply andb_true_iff in E; destruct E
         end.
  destruct (span_classList t) as [k|]; [|discriminate].
  repeat match goal with
         | E : Bool.eqb _ _ = true |- _ => apply eqb_prop in E
         end.
  repeat (split; [assumption|]). exists k. split; [reflexivity|assumption].
Qed.

(** Two clicks on a page whose classes agree with the flag bring back the
    flag and, on each element, the same set of classes. *)
Theorem two_clicks_restore (t : State) :
  agrees t = true ->
  fst (onToggleClick t) = Normal tt /\
  fst (onToggleClick (snd (onToggleClick t))) = Normal tt /\
  isDarkMode (snd (onToggleClick (snd (onToggleClick t)))) = isDarkMode t /\
  same_classes (body_classList (snd (onToggleClick (snd (onToggleClick t)))))
    (body_classList t) /\
  same_classes
    (darkModeToggle_classList (snd (onToggleClick (snd (onToggleClick t)))))
    (darkModeToggle_classList t) /\
  exists k k2,
    span_classList t = Some k /\
    span_classList (snd (onToggleClick (snd (onToggleClick t)))) = Some k2 /\
    same_classes k2 k.
Proof.
  intros Ha.
  destruct (agrees_spec t Ha) as (B0 & B1 & B2 & B3 & B4 & G0 & G1 & k & Hk & S0).
  rewrite (onToggleClick_run t k Hk). cbn [fst snd].
  destruct (isDarkMode t) eqn:Hd; cbn [negb] in *.
  - erewrite onToggleClick_run by reflexivity.
    cbn [fst snd isDarkMode body_classList darkModeToggle_classList span_classList].
    split; [reflexivity|]. split; [reflexivity|]. split; [reflexivity|].
    split; [|split].
    + intros c. split_has. by_class c; cbn;
        rewrite ?B0, ?B1, ?B2, ?B3, ?B4;
        try reflexivity; destruct (has c (body_classList t)); reflexivity.
    + intros c. split_has. by_class c; cbn; rewrite ?G0, ?G1;
        try reflexivity; destruct (has c (darkModeToggle_classList t)); reflexivity.
    + exists k. eexists. split; [exact Hk|]. split; [reflexivity|].
      intros c. split_has. by_class c; cbn; rewrite ?S0;
        try reflexivity; destruct (has c k); reflexivity.
  - erewrite onToggleClick_run by reflexivity.
    cbn [fst snd isDarkMode body_classList darkModeToggle_classList span_classList].
    split; [reflexivity|]. split; [reflexivity|]. split; [reflexivity|].
    split; [|split].
    + intros c. split_has. by_class c; cbn;
        rewrite ?B0, ?B1, ?B2, ?B3, ?B4;
        try reflexivity; destruct (has c (body_classList t)); reflexivity.
    + intros c. split_has. by_class c; cbn; rewrite ?G0, ?G1;
        try reflexivity; destruct (has c (darkModeToggle_classList t)); reflexivity.
    + exists k. eexists. split; [exact Hk|]. split; [reflexivity|].
      intros c. split_has. by_class c; cbn; rewrite ?S0;
        try reflexivity; destruct (has c k); reflexivity.
Qed.

(** A switch without a [span]: the click throws at the last statement of
    its branch, after the flag and the classes of the body and of the
    switch have been changed. *)
Theorem click_without_span (t : State) :
  span_classList t = None ->
  fst (onToggleClick t) =
    Throw (mkExn "TypeError" "Cannot read properties of null (reading 'classList')") /\
  isDarkMode (snd (onToggleClick t)) = negb (isDarkMode t) /\
  has "bg-gray-900" (body_classList (snd (onToggleClick t))) = negb (isDarkMode t) /\
  has "bg-purple-600" (darkModeToggle_classList (snd (onToggleClick t))) =
    negb (isDarkMode t) /\
  has "bg-gray-300" (darkModeToggle_classList (snd (onToggleClick t))) = isDarkMode t.
Proof.
  destruct t as [d b g s]. cbn [span_classList]. intros ->.
  destruct d; cbn [fst snd isDarkMode negb];
    (split; [reflexivity|]); (split; [reflexivity|]).
  - change (body_classList (snd (onToggleClick (mkTheme true b g None))))
      with (append_tokens (remove_tokens b ["bg-gray-900"]) gradient).
    change (darkModeToggle_classList (snd (onToggleClick (mkTheme true b g None))))
      with (append_tokens (remove_tokens g ["bg-purple-600"]) ["bg-gray-300"]).
    split_has. cbn. destruct (has "bg-gray-900" b), (has "bg-purple-600" g),
      (has "bg-gray-300" g); repeat split; reflexivity.
  - change (body_classList (snd (onToggleClick (mkTheme false b g None))))
      with (remove_tokens (append_tokens b ["bg-gray-900"]) gradient).
    change (darkModeToggle_classList (snd (onToggleClick (mkTheme false b g None))))
      with (remove_tokens (append_tokens g ["bg-purple-600"]) ["bg-gray-300"]).
    split_has. cbn. destruct (has "bg-gray-900" b), (has "bg-purple-600" g),
      (has "bg-gray-300" g); repeat split; reflexivity.
Qed.

End ThemeRoundTrip.

(** ** The page after a lookup *)

Section SettledPage.
Import JsString JsNumber Dom Script Render Observe.

Variable net : string -> FetchResult.

(** The page [fetchPokemon] leaves shows at most one panel, and its button
    reads "Searching..." exactly when it is disabled. *)
Lemma fetchPokemon_settled q p :
  (panels_shown (snd (fetchPokemon net q p)) <= 1)%nat /\
  (fst (fetchPokemon net q p) = Normal tt ->
   panels_shown (snd (fetchPokemon net q p)) = 1%nat /\
   pokemonCard_hidden (controls (snd (fetchPokemon net q p))) = false) /\
  searchBtn_textContent (controls (snd (fetchPokemon net q p))) =
    (if searchBtn_disabled (controls (snd (fetchPokemon net q p)))
     then "Searching..." else "Search").
Proof.
  rewrite fetchPokemon_run. cbv zeta.
  destruct (net (endpoint ++ toLowerCase q)) as [e|r].
  - split; [cbn; lia|]. split; [discriminate|reflexivity].
  - destruct (ok r).
    + destruct (body r) as [data|e].
      * destruct (snd (rendered (types data))); cbn [fst snd].
        -- split; [cbn; lia|]. split; [discriminate|reflexivity].
        -- split; [cbn; lia|]. split; [|reflexivity]. intros _. split; reflexivity.
      * split; [cbn; lia|]. split; [discriminate|reflexivity].
    + split; [cbn; lia|]. split; [discriminate|reflexivity].
Qed.


(** After a lookup the label of the button tells whether it is disabled. *)
Theorem button_label_matches_state (query : string) (p : Page) :
  searchBtn_textContent (controls (snd (lookup net query p))) =
  (if searchBtn_disabled (controls (snd (lookup net query p)))
   then "Searching..." else "Search").
Proof.
  destruct (trim query) eqn:E.
  - rewrite lookup_empty by assumption. reflexivity.
  - rewrite lookup_nonempty by (rewrite E; discriminate).
    apply fetchPokemon_settled.
Qed.

(** A lookup does not read the controls it starts from, the text of the
    error box apart: the button's state and label and the three
    visibilities have no effect on what it does. *)
Theorem lookup_ignores_controls (p : Page) (c : Controls) :
  errorText c = errorText (controls p) ->
  onSearchClick net (with_controls (fun _ => c) p) = onSearchClick net p /\
  onKeypress net "Enter" (with_controls (fun _ => c) p) =
  onKeypress net "Enter" p.
Proof.
  intros H.
  assert (G : onSearchClick net (with_controls (fun _ => c) p) = onSearchClick net p).
  { unfold onSearchClick, bind, read. cbn [with_controls pokemonInput_value].
    destruct (isEmpty (trim (pokemonInput_value p))).
    - rewrite !showError_run. reflexivity.
    - rewrite !fetchPokemon_run. cbv zeta.
      unfold loading, searching, add_request, with_controls.
      cbn [controls card pokemonInput_value console requests].
      rewrite H. reflexivity. }
  split; [exact G|]. rewrite !onKeypress_Enter. exact G.
Qed.

End SettledPage.

(** ** When the card can be built *)

Section Completion.
Import JsString JsNumber Dom Script Render Observe.

(** A name the object literal inherits gives back the inherited member,
    whose text contains a space. *)
Lemma inherited_member (t : string) (v : value) :
  assoc t Object_prototype = Some v ->
  getTypeColor t = v /\ has_whitespace (ToString v) = true.
Proof.
  intros H.
  assert (G : forall l : list (string * value),
             Forall (fun kv => assoc (fst kv) typeColors = None /\
                               ToBoolean (snd kv) = true /\
                               has_whitespace (ToString (snd kv)) = true) l ->
             assoc t l = Some v ->
             assoc t typeColors = None /\ ToBoolean v = true /\
             has_whitespace (ToString v) = true).
  { induction l as [|[k w] l IH]; cbn [assoc]; intros HF Ha; [discriminate|].
    inversion HF as [|? ? Hk HF']; subst.
    destruct (String.eqb_spec t k) as [->|N]; [|auto].
    injection Ha as <-. exact Hk. }
  destruct (G Object_prototype) as (Hc & Hb & Hw); [|exact H|].
  - unfold Object_prototype. repeat constructor.
  - split; [|exact Hw]. unfold getTypeColor, Get. rewrite Hc, H, Hb. reflexivity.
Qed.

(** The only token of a badge that can be refused is the colour, and only
    for white space. *)
Lemma badge_token_error (t : string) (e : exn) :
  invalid_token (badge_tokens t) = Some e ->
  exn_name e = "InvalidCharacterError" /\ ~ plain t.
Proof.
  change (invalid_token (badge_tokens t))
    with (invalid_token [ToString (getTypeColor t)]).
  intros H. split.
  - cbn [invalid_token] in H.
    destruct (isEmpty (ToString (getTypeColor t))) eqn:E.
    + exfalso. unfold getTypeColor in E.
      destruct (Get t) as [s|f| |]; cbn [ToBoolean ToString] in E;
        try discriminate.
      destruct (isEmpty s) eqn:E'; cbn [negb ToString] in E;
        [discriminate | congruence].
    + destruct (has_whitespace (ToString (getTypeColor t)));
        [injection H as <-; reflexivity | discriminate].
  - intros Hp. destruct (plain_name_badge t Hp) as [Hv _].
    change (invalid_token (badge_tokens t))
      with (invalid_token [ToString (getTypeColor t)]) in Hv.
    congruence.
Qed.

Lemma inherited_name_refused (t : string) :
  ~ plain t -> invalid_token (badge_tokens t) <> None.
Proof.
  unfold plain. intros Hp.
  destruct (assoc t Object_prototype) as [v|] eqn:E; [|congruence].
  destruct (inherited_member t v E) as [Hg Hw].
  change (invalid_token (badge_tokens t))
    with (invalid_token [ToString (getTypeColor t)]).
  rewrite Hg. cbn [invalid_token]. rewrite Hw.
  destruct (isEmpty (ToString v)); discriminate.
Qed.

Lemma rendered_ok_iff (ts : list string) :
  snd (rendered ts) = None <-> Forall plain ts.
Proof.
  induction ts as [|t ts IH]; cbn [rendered].
  - split; [constructor | reflexivity].
  - destruct (invalid_token (badge_tokens t)) as [e|] eqn:E; cbn [snd].
    + split; [discriminate|]. intros HF. inversion HF; subst.
      destruct (badge_token_error t e E) as [_ Hn]. contradiction.
    + rewrite IH. split; [|intros HF; inversion HF; assumption].
      intros HF. constructor; [|exact HF].
      destruct (assoc t Object_prototype) as [v|] eqn:Ev; [|exact Ev].
      exfalso. apply (inherited_name_refused t); [|exact E].
      unfold plain. rewrite Ev. discriminate.
Qed.

Lemma rendered_error (ts : list string) (e : exn) :
  snd (rendered ts) = Some e -> exn_name e = "InvalidCharacterError".
Proof.
  induction ts as [|t ts IH]; cbn [rendered]; [discriminate|].
  destruct (invalid_token (badge_tokens t)) as [e'|] eqn:E; cbn [snd].
  - intros H. injection H as <-. apply (badge_token_error t e' E).
  - exact IH.
Qed.

(** For a payload that has the fields of a Pokémon record, with values of
    the documented types (a [RawRecord]): [displayPokemon] runs to its end
    exactly when no type name is a member the table inherits.  When it
    does not, the exception is that of [classList.add]; the button is
    enabled and the loading indicator and the error box are hidden all the
    same, but the card keeps the visibility it had.  Payloads with
    missing fields, on which the function throws a [TypeError], are
    outside this statement; [Sparse.displayPokemon] has them. *)
Theorem displayPokemon_completes_iff (data : RawRecord) (p : Page) :
  (fst (displayPokemon data p) = Normal tt <-> Forall plain (types data)) /\
  (forall e, fst (displayPokemon data p) = Throw e ->
     exn_name e = "InvalidCharacterError" /\
     pokemonCard_hidden (controls (snd (displayPokemon data p))) =
       pokemonCard_hidden (controls p)) /\
  searchBtn_disabled (controls (snd (displayPokemon data p))) = false /\
  loadingIndicator_hidden (controls (snd (displayPokemon data p))) = true /\
  errorMessage_hidden (controls (snd (displayPokemon data p))) = true.
Proof.
  rewrite displayPokemon_run. cbn [fst snd].
  split; [|split; [|repeat split]].
  - rewrite <- rendered_ok_iff.
    destruct (snd (rendered (types data))); cbn [outcome];
      split; congruence.
  - intros e. destruct (snd (rendered (types data))) as [e'|] eqn:E;
      cbn [outcome]; [|discriminate].
    intros H. injection H as <-. split; [|reflexivity].
    apply (rendered_error (types data) e' E).
Qed.

(** The outcome of [fetchPokemon], for a request that fails, a response
    whose body does not parse, and a response whose body parses to a
    Pokémon record (a [RawRecord]).  With a record, the promise is
    fulfilled exactly when the status is in 200-299 and no type name is an
    inherited member.  When the request fails, the status is outside
    200-299 or the body does not parse, the promise is rejected; and every
    rejection is the [ReferenceError] of the handler.  In all these cases
    the error box is hidden, and its text, the console and the input are
    as before.  Bodies with missing fields are outside this statement;
    [Sparse.fetchPokemon] has them. *)
Theorem fetchPokemon_outcome (net : string -> FetchResult) (q : string) (p : Page) :
  (forall r data,
     net (endpoint ++ toLowerCase q) = Resolved r -> body r = JsonBody data ->
     (fst (fetchPokemon net q p) = Normal tt <->
      ok r = true /\ Forall plain (types data))) /\
  (match net (endpoint ++ toLowerCase q) with
   | Rejected _ => True
   | Resolved r => ok r = false \/ exists e, body r = BadBody e
   end ->
   fst (fetchPokemon net q p) = Throw unbound_s) /\
  (forall e, fst (fetchPokemon net q p) = Throw e -> e = unbound_s) /\
  errorMessage_hidden (controls (snd (fetchPokemon net q p))) = true /\
  errorText (controls (snd (fetchPokemon net q p))) = errorText (controls p) /\
  console (snd (fetchPokemon net q p)) = console p /\
  pokemonInput_value (snd (fetchPokemon net q p)) = pokemonInput_value p.
Proof.
  rewrite fetchPokemon_run. cbv zeta.
  destruct (net (endpoint ++ toLowerCase q)) as [e|r].
  - split; [|split; [|split; [|repeat split]]].
    + intros r d H. discriminate.
    + reflexivity.
    + intros e' H. injection H as <-. reflexivity.
  - destruct (ok r) eqn:Hok.
    + destruct (body r) as [data|e] eqn:Hb.
      * pose proof (rendered_ok_iff (types data)) as Hr.
        destruct (snd (rendered (types data))) as [e'|]; cbn [fst snd].
        -- split; [|split; [|split; [|repeat split]]].
           ++ intros r' d H Hb'. injection H as <-. rewrite Hb in Hb'.
              injection Hb' as <-. split; [discriminate|].
              intros [_ HF]. apply Hr in HF. discriminate.
           ++ intros [H|[e0 H]]; [discriminate|congruence].
           ++ intros e0 H. injection H as <-. reflexivity.
        -- split; [|split; [|split; [|repeat split]]].
           ++ intros r' d H Hb'. injection H as <-. rewrite Hb in Hb'.
              injection Hb' as <-. split; [|reflexivity].
              intros _. split; [exact Hok|]. apply Hr. reflexivity.
           ++ intros [H|[e0 H]]; [discriminate|congruence].
           ++ discriminate.
      * split; [|split; [|split; [|repeat split]]].
        -- intros r' d H Hb'. injection H as <-. congruence.
        -- reflexivity.
        -- intros e0 H. injection H as <-. reflexivity.
    + split; [|split; [|split; [|repeat split]]].
      * intros r' d H Hb. injection H as <-. rewrite Hok.
        split; [discriminate|]. intros [H _]. discriminate.
      * reflexivity.
      * intros e0 H. injection H as <-. reflexivity.
Qed.

(** The images of the card: at most four, each with a URL that is not
    empty, and each with the alternative text made of the record's name, a
    space and the label. *)
Theorem images_alt_text (data : RawRecord) (p : Page) :
  (List.length (pokemonImages (card (snd (displayPokemon data p)))) <= 4)%nat /\
  Forall (fun c => img_alt c = name data ++ " " ++ label_text c /\
                   img_src c <> "")
    (pokemonImages (card (snd (displayPokemon data p)))).
Proof.
  rewrite displayPokemon_run. cbn [snd card card_of pokemonImages].
  unfold images_of, imageUrls. cbn [flat_map]. unfold image_of. cbn [fst snd].
  destruct (front_default (sprites data)) as [a|],
           (back_default (sprites data)) as [b|],
           (front_shiny (sprites data)) as [c|],
           (back_shiny (sprites data)) as [d|];
    try destruct a; try destruct b; try destruct c; try destruct d;
    cbn [isEmpty app List.length]; split; try lia;
    repeat constructor; cbn [img_alt img_src label_text]; discriminate.
Qed.

End Completion.

(** ** The query and the request *)

Section QueryFacts.
Import JsString JsNumber Dom Script Render Observe.

Lemma upper_keeps_whitespace (c : ascii) :
  isWhiteSpace (upper_char c) = isWhiteSpace c.
Proof. destruct c as [[] [] [] [] [] [] [] []]; reflexivity. Qed.

Lemma lower_after_upper (c : ascii) : lower_char (upper_char c) = lower_char c.
Proof. destruct c as [[] [] [] [] [] [] [] []]; reflexivity. Qed.

Lemma toLowerCase_toUpperCase (s : string) :
  toLowerCase (toUpperCase s) = toLowerCase s.
Proof.
  induction s as [|c s IH]; cbn [toUpperCase toLowerCase]; [reflexivity|].
  rewrite lower_after_upper, IH. reflexivity.
Qed.

Lemma isEmpty_toUpperCase (s : string) : isEmpty (toUpperCase s) = isEmpty s.
Proof. destruct s; reflexivity. Qed.

Lemma trimStart_toUpperCase (s : string) :
  trimStart (toUpperCase s) = toUpperCase (trimStart s).
Proof.
  induction s as [|c s IH]; cbn [toUpperCase trimStart]; [reflexivity|].
  rewrite upper_keeps_whitespace. destruct (isWhiteSpace c); [exact IH|reflexivity].
Qed.

Lemma trimEnd_toUpperCase (s : string) :
  trimEnd (toUpperCase s) = toUpperCase (trimEnd s).
Proof.
  induction s as [|c s IH]; cbn [toUpperCase trimEnd]; [reflexivity|].
  rewrite upper_keeps_whitespace, IH, isEmpty_toUpperCase.
  destruct (isWhiteSpace c && isEmpty (trimEnd s)); reflexivity.
Qed.

Lemma trim_toUpperCase (s : string) : trim (toUpperCase s) = toUpperCase (trim s).
Proof. unfold trim. rewrite trimStart_toUpperCase, trimEnd_toUpperCase. reflexivity. Qed.

(** A query of ASCII characters typed in capitals is looked up as the
    query itself: the same request or none, the same completion, the same
    card and controls. *)
Theorem lookup_ignores_case (net : string -> FetchResult) (query : string) (p : Page) :
  ascii_only query = true ->
  fst (lookup net (toUpperCase query) p) = fst (lookup net query p) /\
  requests (snd (lookup net (toUpperCase query) p)) =
    requests (snd (lookup net query p)) /\
  card (snd (lookup net (toUpperCase query) p)) = card (snd (lookup net query p)) /\
  controls (snd (lookup net (toUpperCase query) p)) =
    controls (snd (lookup net query p)).
Proof.
  intros _. destruct (trim query) eqn:E.
  - rewrite (lookup_empty net query p E).
    rewrite (lookup_empty net (toUpperCase query) p)
      by (rewrite trim_toUpperCase, E; reflexivity).
    repeat split.
  - assert (N : trim query <> "") by (rewrite E; discriminate).
    assert (N' : trim (toUpperCase query) <> "").
    { rewrite trim_toUpperCase, E. discriminate. }
    rewrite (lookup_nonempty net query p N).
    rewrite (lookup_nonempty net (toUpperCase query) p N').
    rewrite !fetchPokemon_run. cbv zeta.
    rewrite trim_toUpperCase, toLowerCase_toUpperCase.
    destruct (net (endpoint ++ toLowerCase (trim query))) as [e|r];
      [repeat split|].
    destruct (ok r); [|repeat split].
    destruct (body r); repeat split.
Qed.

End QueryFacts.

(** ** Digits *)

Section DigitFacts.
Import JsString JsNumber Dom Script Render Observe.

Lemma digits_value_app (a b : string) : forall acc,
  digits_value (a ++ b) acc = digits_value b (digits_value a acc).
Proof. induction a as [|c a IH]; intros acc; cbn; [reflexivity|apply IH]. Qed.

Lemma digits_value_digit (d acc : Z) :
  0 <= d < 10 -> digits_value (digit d) acc = 10 * acc + d.
Proof.
  intros H. unfold digit. cbn [digits_value].
  rewrite nat_ascii_embedding by lia. lia.
Qed.

Lemma digits_only_app (a b : string) :
  digits_only (a ++ b) = digits_only a && digits_only b.
Proof.
  induction a as [|c a IH]; cbn [append digits_only]; [reflexivity|].
  rewrite IH, andb_assoc. reflexivity.
Qed.

Lemma digits_only_digit (d : Z) : 0 <= d < 10 -> digits_only (digit d) = true.
Proof.
  intros H. unfold digit. cbn [digits_only].
  rewrite nat_ascii_embedding by lia.
  rewrite andb_true_r. apply andb_true_iff.
  split; apply Nat.leb_le; lia.
Qed.

(** Reading the decimal rendering gives the number back, and the
    rendering holds digits only. *)
Lemma decimal_read (n : Z) :
  0 <= n -> digits_value (decimal n) 0 = n /\ digits_only (decimal n) = true.
Proof.
  intros Hn.
  assert (G : forall k : nat, forall n, 0 <= n -> n < 10 ^ Z.of_nat k ->
            digits_value (decimal n) 0 = n /\ digits_only (decimal n) = true).
  { clear n Hn. induction k as [|k IH]; intros n H0 Hk.
    - simpl in Hk. assert (n = 0) by lia. subst. split; reflexivity.
    - destruct (Z_lt_le_dec n 10) as [Hs|Hs].
      + rewrite decimal_small by lia.
        rewrite digits_value_digit, digits_only_digit by lia. split; [lia|reflexivity].
      + rewrite decimal_step by lia.
        rewrite Nat2Z.inj_succ, Z.pow_succ_r in Hk by lia.
        assert (Hd : 0 <= n / 10) by (apply Z.div_pos; lia).
        assert (Hu : n / 10 < 10 ^ Z.of_nat k) by (apply Z.div_lt_upper_bound; lia).
        destruct (IH (n / 10) Hd Hu) as [Hv Ho].
        pose proof (Z.mod_pos_bound n 10) as Hm.
        rewrite digits_value_app, Hv, digits_value_digit by lia.
        rewrite digits_only_app, Ho, digits_only_digit by lia.
        split; [|reflexivity].
        pose proof (Z.div_mod n 10). lia. }
  apply (G (S (Z.to_nat (Z.log2 n)))); [assumption|].
  apply log2_fuel. assumption.
Qed.

Lemma digits_value_zeros (k : nat) (s : string) :
  digits_value (zeros k ++ s) 0 = digits_value s 0.
Proof. induction k as [|k IH]; [reflexivity|]. cbn. exact IH. Qed.

(** Up to [2^53], records with different identifiers show different
    identifier strings: the number can be read back from the string. *)
Theorem identifier_read_back (data : RawRecord) (p : Page) :
  0 <= id data <= 2 ^ 53 ->
  digits_value (slice1 (pokemonId (card (snd (displayPokemon data p))))) 0 = id data.
Proof.
  intros H. rewrite displayPokemon_run. cbn [snd card card_of pokemonId].
  rewrite NumberToString_Num by assumption. rewrite padStart_3_0.
  cbn [append slice1]. rewrite digits_value_zeros.
  apply decimal_read. lia.
Qed.

Lemma identifier_shown_apart (d1 d2 : RawRecord) (p1 p2 : Page) :
  0 <= id d1 <= 2 ^ 53 -> 0 <= id d2 <= 2 ^ 53 ->
  pokemonId (card (snd (displayPokemon d1 p1))) =
  pokemonId (card (snd (displayPokemon d2 p2))) ->
  id d1 = id d2.
Proof.
  intros H1 H2 E.
  rewrite <- (identifier_read_back d1 p1 H1), <- (identifier_read_back d2 p2 H2), E.
  reflexivity.
Qed.

(** A pattern that starts with a character that is no digit does not occur
    in a string of digits. *)
Lemma includes_digits (s : string) (c : ascii) (pat : string) :
  digits_only s = true ->
  ((48 <=? nat_of_ascii c) && (nat_of_ascii c <=? 57))%nat = false ->
  includes s (String c pat) = false.
Proof.
  intros Hs Hc. induction s as [|x s IH]; [reflexivity|].
  cbn [digits_only] in Hs. apply andb_true_iff in Hs. destruct Hs as [Hx Hs].
  cbn [includes prefix]. rewrite (IH Hs).
  destruct (ascii_dec c x) as [->|N]; [congruence|reflexivity].
Qed.

(** The message thrown for a status outside 200-299 other than 404 is
    "HTTP Error: " and the decimal digits of the status; neither of the two
    patterns of the handler occurs in it, so the handler's [if] chain
    picks the generic text for it. *)
Theorem http_error_message_is_generic
  (net : string -> FetchResult) (q : string) (p : Page) (r : Response) :
  net (endpoint ++ toLowerCase q) = Resolved r ->
  ok r = false -> status r <> 404 -> 0 <= status r <= 2 ^ 53 ->
  fst (try_block net q p) = Throw (Error ("HTTP Error: " ++ decimal (status r))) /\
  includes ("HTTP Error: " ++ decimal (status r)) "Pokémon not found" = false /\
  includes ("HTTP Error: " ++ decimal (status r)) "Failed to fetch" = false /\
  forall p', catch_dispatch (Error ("HTTP Error: " ++ decimal (status r))) p' =
             (Normal tt, failed "Something went wrong! Please try again." p').
Proof.
  intros Hn Hok H404 Hr.
  assert (Hd : digits_only (decimal (status r)) = true) by (apply decimal_read; lia).
  assert (I1 : includes ("HTTP Error: " ++ decimal (status r)) "Pokémon not found" = false).
  { cbn [append includes prefix]. simpl.
    apply includes_digits; [exact Hd|reflexivity]. }
  assert (I2 : includes ("HTTP Error: " ++ decimal (status r)) "Failed to fetch" = false).
  { cbn [append includes prefix]. simpl.
    apply includes_digits; [exact Hd|reflexivity]. }
  split; [|split; [exact I1|split; [exact I2|]]].
  - rewrite try_block_run. cbv zeta. rewrite Hn, Hok.
    apply Z.eqb_neq in H404. rewrite H404.
    rewrite NumberToString_Num by assumption. reflexivity.
  - intros p'. unfold catch_dispatch. cbn [exn_message Error].
    rewrite I1, I2. apply showError_run.
Qed.

End DigitFacts.

(** ** Sequences of lookups, and the remaining fields of the card *)

Section MoreCardFacts.
Import JsString JsNumber Dom Script Render Observe.

(** Nothing is cached and nothing is retried.  After a series of queries
    of ASCII characters, each typed and sent with the Enter key and settled
    before the next, the requests sent are, in order, one per query that
    is not empty once trimmed, repeated queries included, whether the
    earlier lookups failed or not. *)
Theorem requests_accumulate (net : string -> FetchResult) (queries : list string) :
  Forall (fun q => ascii_only q = true) queries ->
  forall p,
    requests (after_lookups net queries p) =
    (requests p ++
     map url_of (filter (fun q => negb (isEmpty (trimmed q))) queries))%list.
Proof.
  intros _.
  induction queries as [|q r IH]; intros p; cbn [after_lookups filter map].
  - rewrite app_nil_r. reflexivity.
  - rewrite IH. rewrite onKeypress_Enter.
    change (onSearchClick net (set_input q p)) with (lookup net q p).
    rewrite <- trim_trimmed. destruct (trim q) eqn:E.
    + rewrite lookup_empty by assumption. reflexivity.
    + assert (N : trim q <> "") by (rewrite E; discriminate).
      rewrite lookup_nonempty by assumption. rewrite fetchPokemon_requests.
      cbn [isEmpty negb map requests set_input]. rewrite <- app_assoc.
      unfold url_of. rewrite <- trim_trimmed, <- toLowerCase_lowered, E.
      reflexivity.
Qed.

(** The digits of a negative integer follow its sign. *)
Lemma NumberToString_Num_neg (v : Z) :
  0 < v <= 2 ^ 53 -> NumberToString (Num (- v)) = "-" ++ decimal v.
Proof.
  intros Hv. destruct (Z.eq_dec v (2 ^ 53)) as [->|N]; [vm_compute; reflexivity|].
  assert (Hv' : 0 < v < 2 ^ 53) by lia.
  pose proof (NumberToString_Num v ltac:(lia)) as Hp.
  rewrite (Num_exact false v Hv') in Hp. cbn [NumberToString] in Hp.
  rewrite (Num_exact true v Hv'). cbn [NumberToString]. rewrite Hp. reflexivity.
Qed.

(** The base experience is shown as the integer is written: its sign, if
    negative, and its decimal digits, for every integer of size at most
    [2^53]. *)
Theorem experience_in_decimal (data : RawRecord) (p : Page) :
  - 2 ^ 53 <= base_experience data <= 2 ^ 53 ->
  pokemonExperience (card (snd (displayPokemon data p))) =
  (if base_experience data <? 0 then "-" else "") ++
  decimal (Z.abs (base_experience data)).
Proof.
  intros H. rewrite displayPokemon_run. cbn [snd card card_of pokemonExperience].
  destruct (Z.ltb_spec (base_experience data) 0) as [Hn|Hn].
  - replace (base_experience data) with (- (- base_experience data)) at 1 by lia.
    rewrite NumberToString_Num_neg by lia. rewrite Z.abs_neq by lia. reflexivity.
  - rewrite NumberToString_Num by lia. rewrite Z.abs_eq by lia. reflexivity.
Qed.

(** The classes of the table are none of the six fixed classes of a
    badge. *)
Lemma color_not_fixed (t : string) :
  append_tokens []
    ["px-4"; "py-2"; "rounded-full"; "text-white"; "font-semibold"; "text-sm";
     color_of t] =
  ["px-4"; "py-2"; "rounded-full"; "text-white"; "font-semibold"; "text-sm";
   color_of t].
Proof.
  unfold color_of.
  assert (G : forall l : list (string * string),
     Forall (fun kv => append_tokens []
       ["px-4"; "py-2"; "rounded-full"; "text-white"; "font-semibold"; "text-sm";
        snd kv] =
       ["px-4"; "py-2"; "rounded-full"; "text-white"; "font-semibold"; "text-sm";
        snd kv]) l ->
     forall c, assoc t l = Some c ->
     append_tokens []
       ["px-4"; "py-2"; "rounded-full"; "text-white"; "font-semibold"; "text-sm"; c] =
       ["px-4"; "py-2"; "rounded-full"; "text-white"; "font-semibold"; "text-sm"; c]).
  { induction l as [|[k w] l IH]; cbn [assoc]; intros HF c Ha; [discriminate|].
    inversion HF; subst. destruct (String.eqb t k); [|auto].
    injection Ha as <-. assumption. }
  destruct (assoc t typeColors) as [c|] eqn:E; [|reflexivity].
  apply (G typeColors); [|exact E].
  unfold typeColors. repeat constructor.
Qed.

(** For type names of ASCII characters that the table does not inherit,
    the card shows one badge per entry of the source list, in its order and
    with its repetitions: the name with a small first letter made capital,
    and the six fixed classes followed by the class of the table, or by the
    default class for a name the table does not list. *)
Theorem badges_of_plain_names (data : RawRecord) (p : Page) :
  Forall plain (types data) ->
  Forall (fun t => ascii_only t = true) (types data) ->
  pokemonTypes (card (snd (displayPokemon data p))) =
  map (fun t =>
         mkBadge (capitalized t)
           ["px-4"; "py-2"; "rounded-full"; "text-white"; "font-semibold";
            "text-sm"; color_of t])
    (types data).
Proof.
  intros HF _. destruct (plain_names_displayed data p HF) as [_ ->].
  apply map_ext_in. intros t Ht.
  rewrite Forall_forall in HF. destruct (plain_name_badge t (HF t Ht)) as [_ Hc].
  unfold badge_of, badge_tokens. rewrite Hc. cbn [ToString].
  fold (color_of t). rewrite color_not_fixed, capitalize_capitalized.
  reflexivity.
Qed.

End MoreCardFacts.

(** ** Facts about bodies with missing fields *)

Section SparseFacts.
Import JsString JsNumber Dom Script Render Observe.

(** On a full record the functions on sparse bodies are those on
    records. *)
Lemma sparse_renderImage (r : RawRecord) (u : option string)
  (label : string) (p : Page) (obj : Sparse.Payload) :
  Sparse.name obj = Sparse.Value (name r) ->
  Sparse.renderImage obj (Sparse.of_slot u, label) p = renderImage r (u, label) p.
Proof.
  intros H. unfold Sparse.renderImage, renderImage. rewrite H.
  destruct u as [u|]; reflexivity.
Qed.

Lemma sparse_renderType (t : string) :
  Sparse.renderType
    (Sparse.Value (Sparse.mkTypeInfo (Sparse.Value (Sparse.mkTypeRef (Sparse.Value t))))) =
  renderType t.
Proof. reflexivity. Qed.

Lemma sparse_forEach_types (ts : list string) (p : Page) :
  forEach Sparse.renderType
    (map (fun t => Sparse.Value
                     (Sparse.mkTypeInfo (Sparse.Value (Sparse.mkTypeRef (Sparse.Value t)))))
       ts) p =
  forEach renderType ts p.
Proof.
  revert p. induction ts as [|t ts IH]; intros p; [reflexivity|].
  cbn [map forEach]. rewrite sparse_renderType. unfold bind.
  destruct (renderType t p) as [[[]|e] p']; [apply IH|reflexivity].
Qed.

Lemma sparse_forEach_images (r : RawRecord) (obj : Sparse.Payload) (p : Page) :
  Sparse.name obj = Sparse.Value (name r) ->
  forEach (Sparse.renderImage obj)
    (Sparse.imageUrls
       (Sparse.mkSprites
          (Sparse.of_slot (front_default (sprites r)))
          (Sparse.of_slot (back_default (sprites r)))
          (Sparse.of_slot (front_shiny (sprites r)))
          (Sparse.of_slot (back_shiny (sprites r))))) p =
  forEach (renderImage r) (imageUrls r) p.
Proof.
  intros H. unfold Sparse.imageUrls, imageUrls.
  cbn [Sparse.front_default Sparse.back_default Sparse.front_shiny
       Sparse.back_shiny forEach].
  unfold bind.
  rewrite (sparse_renderImage r) by exact H.
  destruct (renderImage r (front_default (sprites r), "Front") p) as [[[]|e] p1];
    [|reflexivity].
  rewrite (sparse_renderImage r) by exact H.
  destruct (renderImage r (back_default (sprites r), "Back") p1) as [[[]|e] p2];
    [|reflexivity].
  rewrite (sparse_renderImage r) by exact H.
  destruct (renderImage r (front_shiny (sprites r), "Shiny Front") p2) as [[[]|e] p3];
    [|reflexivity].
  rewrite (sparse_renderImage r) by exact H.
  reflexivity.
Qed.

(** [displayPokemon] on a body that has a name and sprites. *)
Lemma sparse_display_unfold (obj : Sparse.Payload) (s : string)
  (sp : Sparse.Sprites) (p : Page) :
  Sparse.name obj = Sparse.Value s ->
  Sparse.sprites obj = Sparse.Value sp ->
  Sparse.displayPokemon (Sparse.Value obj) p =
  bind hideLoading (fun _ =>
  bind (modify (with_controls (set_error_hidden true))) (fun _ =>
  bind (modify (with_card (set_name (capitalize s)))) (fun _ =>
  bind (modify (with_card
          (set_id ("#" ++ padStart 3 "0"
                     (Sparse.ToString (fun z => NumberToString (Num z))
                        (Sparse.id obj)))))) (fun _ =>
  bind (modify (with_card (set_images []))) (fun _ =>
  bind (forEach (Sparse.renderImage obj) (Sparse.imageUrls sp)) (fun _ =>
  bind (modify (with_card
          (set_height (convertHeight (Sparse.ToNumber (Sparse.height obj)))))) (fun _ =>
  bind (modify (with_card
          (set_weight (convertWeight (Sparse.ToNumber (Sparse.weight obj)))))) (fun _ =>
  bind (modify (with_card
          (set_experience (Sparse.textContent (Sparse.base_experience obj))))) (fun _ =>
  bind (modify (with_card (set_types []))) (fun _ =>
  bind (Sparse.member (Sparse.types obj) "map") (fun entries =>
  bind (forEach Sparse.renderType entries) (fun _ =>
  modify (with_controls (set_card_hidden false)))))))))))))) p.
Proof.
  destruct obj as [i n h w b s' t]. cbn. intros -> ->. reflexivity.
Qed.

Lemma bind_ext {A B} (m1 m2 : M A) (k1 k2 : A -> M B) (p : Page) :
  m1 p = m2 p -> (forall a q, k1 a q = k2 a q) ->
  bind m1 k1 p = bind m2 k2 p.
Proof.
  intros Hm Hk. unfold bind. rewrite Hm.
  destruct (m2 p) as [[a|e] q]; [apply Hk|reflexivity].
Qed.

Lemma sparse_displayPokemon (r : RawRecord) (p : Page) :
  Sparse.displayPokemon (Sparse.of_record r) p = displayPokemon r p.
Proof.
  unfold Sparse.of_record.
  erewrite sparse_display_unfold; [|reflexivity|reflexivity].
  cbn [Sparse.id Sparse.height Sparse.weight Sparse.base_experience
       Sparse.types Sparse.member
       Sparse.ToString Sparse.ToNumber Sparse.textContent].
  unfold displayPokemon.
  do 5 (apply bind_ext; [reflexivity|]; intros _ ?q).
  apply bind_ext; [apply sparse_forEach_images; reflexivity|]. intros _ ?q.
  do 4 (apply bind_ext; [reflexivity|]; intros _ ?q).
  apply (bind_ext
           (forEach Sparse.renderType
              (map (fun t => Sparse.Value
                      (Sparse.mkTypeInfo (Sparse.Value (Sparse.mkTypeRef (Sparse.Value t)))))
                 (types r)))
           (forEach renderType (types r)));
    [apply sparse_forEach_types|]. reflexivity.
Qed.

(** The images: the loop never throws and only adds to the container. *)
Lemma sparse_renderImage_run (obj : Sparse.Payload)
  (slot : Sparse.field string * string) (p : Page) :
  exists imgs,
    Sparse.renderImage obj slot p =
    (Normal tt, with_card (fun k => set_images (pokemonImages k ++ imgs) k) p).
Proof.
  destruct slot as [url label]. unfold Sparse.renderImage.
  destruct (Sparse.ToBoolean url).
  - eexists [_]. reflexivity.
  - exists []. unfold ret. f_equal. symmetry. apply with_card_same.
    rewrite app_nil_r. apply set_images_same.
Qed.

Lemma sparse_forEach_images_run (obj : Sparse.Payload)
  (slots : list (Sparse.field string * string)) : forall p,
  exists imgs,
    forEach (Sparse.renderImage obj) slots p =
    (Normal tt, with_card (fun k => set_images (pokemonImages k ++ imgs) k) p).
Proof.
  induction slots as [|slot slots IH]; intros p; cbn [forEach].
  - exists []. unfold ret. f_equal. symmetry. apply with_card_same.
    rewrite app_nil_r. apply set_images_same.
  - destruct (sparse_renderImage_run obj slot p) as [a Ha].
    destruct (IH (with_card (fun k => set_images (pokemonImages k ++ a) k) p))
      as [b Hb].
    exists (a ++ b)%list. unfold bind. rewrite Ha, Hb. f_equal.
    destruct p as [c k i l r]; destruct k; unfold with_card; simpl.
    rewrite <- app_assoc. reflexivity.
Qed.

(** An entry of the types with its name in place is rendered as the name
    is; any other entry throws where the missing member is read. *)
Lemma sparse_renderType_run (e : Sparse.field Sparse.TypeInfo) (p : Page) :
  match Sparse.entry_name e with
  | Some s => Sparse.renderType e p = renderType s p
  | None =>
      exists x, Sparse.renderType e p = (Throw x, p) /\ exn_name x = "TypeError"
  end.
Proof.
  destruct e as [| |[[| |[[| |s]]]]];
    cbn [Sparse.entry_name Sparse.type Sparse.type_name];
    try reflexivity; eexists; split; reflexivity.
Qed.

(** What makes an entry of the types fit for a badge. *)
Lemma sparse_forEach_types_run (entries : list (Sparse.field Sparse.TypeInfo)) :
  forall p,
  exists oe bs,
    forEach Sparse.renderType entries p =
    (outcome oe, with_card (fun k => set_types (pokemonTypes k ++ bs) k) p) /\
    (oe = None <->
     Forall (fun e => match Sparse.entry_name e with
                      | Some s => plain s
                      | None => False
                      end) entries) /\
    (forall x, oe = Some x ->
       exn_name x = "TypeError" \/ exn_name x = "InvalidCharacterError").
Proof.
  induction entries as [|e entries IH]; intros p; cbn [forEach].
  - exists None, []. split; [|split].
    + unfold ret. cbn [outcome]. f_equal. symmetry. apply with_card_same.
      rewrite app_nil_r. apply set_types_same.
    + split; [constructor|reflexivity].
    + discriminate.
  - pose proof (sparse_renderType_run e p) as He.
    destruct (Sparse.entry_name e) as [s|] eqn:En.
    + unfold bind. rewrite He, renderType_run.
      destruct (invalid_token (badge_tokens s)) as [x|] eqn:Et.
      * exists (Some x), []. split; [|split].
        -- cbn [outcome]. f_equal. symmetry. apply with_card_same.
           rewrite app_nil_r. apply set_types_same.
        -- split; [discriminate|]. intros HF. inversion HF as [|? ? Hs _]; subst.
           rewrite En in Hs.
           destruct (badge_token_error s x Et) as [_ Hn]. contradiction.
        -- intros y Hy. injection Hy as <-. right.
           apply (badge_token_error s x Et).
      * destruct (IH (with_card
                        (fun k => set_types (pokemonTypes k ++ [badge_of s]) k) p))
          as (oe & bs & Hrun & Hiff & Hexn).
        exists oe, (badge_of s :: bs). split; [|split].
        -- rewrite Hrun. f_equal.
           destruct p as [c k i l r]; destruct k; unfold with_card; simpl.
           rewrite <- app_assoc. reflexivity.
        -- rewrite Hiff. split.
           ++ intros HF. constructor; [|exact HF]. rewrite En.
              unfold plain.
              destruct (assoc s Object_prototype) as [v|] eqn:Ev; [|reflexivity].
              exfalso. apply (inherited_name_refused s); [|exact Et].
              unfold plain. rewrite Ev. discriminate.
           ++ intros HF. inversion HF; assumption.
        -- exact Hexn.
    + destruct He as (x & Hx & Hname). exists (Some x), []. split; [|split].
      * unfold bind. rewrite Hx. cbn [outcome]. f_equal. symmetry.
        apply with_card_same. rewrite app_nil_r. apply set_types_same.
      * split; [discriminate|]. intros HF. inversion HF as [|? ? Hs _]; subst.
        rewrite En in Hs. contradiction.
      * intros y Hy. injection Hy as <-. left. exact Hname.
Qed.

(** Up to the loop over the types: the controls and the card once the
    texts and the images are set. *)
Lemma sparse_display_prefix (obj : Sparse.Payload) (s : string)
  (sp : Sparse.Sprites) (p : Page) :
  Sparse.name obj = Sparse.Value s ->
  Sparse.sprites obj = Sparse.Value sp ->
  exists imgs,
    Sparse.displayPokemon (Sparse.Value obj) p =
    bind (Sparse.member (Sparse.types obj) "map") (fun entries =>
    bind (forEach Sparse.renderType entries) (fun _ =>
    modify (with_controls (set_card_hidden false))))
      (mkPage
         (mkControls false "Search" true true (errorText (controls p))
            (pokemonCard_hidden (controls p)))
         (mkCard (capitalize s)
            ("#" ++ padStart 3 "0"
                      (Sparse.ToString (fun z => NumberToString (Num z)) (Sparse.id obj)))
            imgs
            (convertHeight (Sparse.ToNumber (Sparse.height obj)))
            (convertWeight (Sparse.ToNumber (Sparse.weight obj)))
            (Sparse.textContent (Sparse.base_experience obj))
            [])
         (pokemonInput_value p) (console p) (requests p)).
Proof.
  intros Hn Hs. rewrite (sparse_display_unfold obj s sp p Hn Hs).
  unfold hideLoading. unfold bind at 1 2 3 4 5 6 7 8. unfold modify at 1 2 3 4 5 6 7.
  match goal with
  | |- context [forEach (Sparse.renderImage obj) ?sl ?q] =>
      destruct (sparse_forEach_images_run obj sl q) as [imgs Hi]
  end.
  exists imgs. rewrite Hi.
  unfold bind at 1 2 3 4. unfold modify at 1 2 3 4.
  destruct p as [c k i l r]; destruct c; destruct k. reflexivity.
Qed.

(** [displayPokemon] on any body, in closed form: how it completes, the
    controls it leaves, and the texts of the card when it runs to its
    end. *)
Lemma sparse_display_run (data : Sparse.field Sparse.Payload) (p : Page) :
  exists oe k,
    Sparse.displayPokemon data p =
    (outcome oe,
     mkPage (controls_after oe (controls p)) k
       (pokemonInput_value p) (console p) (requests p)) /\
    (oe = None <-> Sparse.displayable data) /\
    (forall x, oe = Some x ->
       exn_name x = "TypeError" \/ exn_name x = "InvalidCharacterError") /\
    (forall obj s, data = Sparse.Value obj -> Sparse.name obj = Sparse.Value s ->
       oe = None ->
       pokemonName k = capitalize s /\
       pokemonId k =
         "#" ++ padStart 3 "0"
                  (Sparse.ToString (fun z => NumberToString (Num z)) (Sparse.id obj)) /\
       pokemonHeight k = convertHeight (Sparse.ToNumber (Sparse.height obj)) /\
       pokemonWeight k = convertWeight (Sparse.ToNumber (Sparse.weight obj)) /\
       pokemonExperience k = Sparse.textContent (Sparse.base_experience obj)).
Proof.
  destruct data as [| |obj].
  1, 2: eexists (Some _), (card p); split;
    [destruct p as [c k i l r]; destruct c; reflexivity|];
    split; [split; [discriminate|intros []]|];
    split; [intros x H; injection H as <-; left; reflexivity|discriminate].
  destruct (Sparse.name obj) as [| |s] eqn:Hn.
  1, 2: eexists (Some _), (card p); split;
    [destruct obj as [fi fn fh fw fb fs ft]; cbn in Hn; subst fn;
     destruct p as [c k i l r]; destruct c; reflexivity|];
    split; [split; [discriminate|cbn [Sparse.displayable]; rewrite Hn; intros [[] _]]|];
    split; [intros x H; injection H as <-; left; reflexivity|discriminate].
  destruct (Sparse.sprites obj) as [| |sp] eqn:Hs.
  1, 2: eexists (Some _), _; split;
    [destruct obj as [fi fn fh fw fb fs ft]; cbn in Hn, Hs; subst fn fs;
     destruct p as [c k i l r]; destruct c; reflexivity|];
    split; [split; [discriminate
                   |cbn [Sparse.displayable]; rewrite Hs; intros [_ [[] _]]]|];
    split; [intros x H; injection H as <-; left; reflexivity|discriminate].
  destruct (sparse_display_prefix obj s sp p Hn Hs) as [imgs Hp].
  destruct (Sparse.types obj) as [| |entries] eqn:Ht.
  1, 2: eexists (Some _), _; split;
    [rewrite Hp; destruct p as [c k i l r]; destruct c; reflexivity|];
    split; [split; [discriminate
                   |cbn [Sparse.displayable]; rewrite Ht; intros [_ [_ []]]]|];
    split; [intros x H; injection H as <-; left; reflexivity|discriminate].
  cbn [Sparse.member] in Hp.
  match type of Hp with
  | _ = bind _ _ ?q =>
      destruct (sparse_forEach_types_run entries q)
        as (oe & bs & Hrun & Hiff & Hexn)
  end.
  exists oe. eexists. split; [|split; [|split]].
  - rewrite Hp. unfold bind at 1. unfold ret. unfold bind. rewrite Hrun.
    destruct p as [c k i l r]; destruct c; destruct k.
    destruct oe; cbn [outcome]; unfold with_card, with_controls, modify; cbn;
      reflexivity.
  - rewrite Hiff. cbn [Sparse.displayable]. rewrite Hn, Hs, Ht.
    cbn [Sparse.there]. tauto.
  - exact Hexn.
  - intros obj' s' E Hn' Hoe. injection E as <-. rewrite Hn in Hn'.
    injection Hn' as <-. subst oe.
    destruct p as [c k i l r]; destruct c; destruct k. cbn. repeat split.
Qed.

Lemma sparse_try_block_run (net : string -> Sparse.FetchResult) (q : string) (p : Page) :
  Sparse.try_block net q p =
  let url := endpoint ++ toLowerCase q in
  let p1 := add_request url p in
  match net url with
  | Sparse.Rejected e => (Throw e, p1)
  | Sparse.Resolved r =>
      if Sparse.ok r then
        match Sparse.body r with
        | Sparse.JsonBody data => Sparse.displayPokemon data p1
        | Sparse.BadBody e => (Throw e, p1)
        end
      else if Sparse.status r =? 404 then
        (Throw (Error "Pokémon not found! Please check the name or ID and try again."), p1)
      else
        (Throw (Error ("HTTP Error: " ++ NumberToString (Num (Sparse.status r)))), p1)
  end.
Proof.
  cbv zeta. unfold Sparse.try_block, Sparse.fetch, Sparse.receive, Sparse.json.
  unfold bind at 1 2. unfold send, modify.
  destruct (net (endpoint ++ toLowerCase q)) as [e|r]; [reflexivity|].
  unfold ret at 1. unfold bind at 1. destruct (Sparse.ok r); cbn [negb].
  - unfold ret at 1. unfold bind. destruct (Sparse.body r); reflexivity.
  - destruct (Sparse.status r =? 404); reflexivity.
Qed.

Lemma sparse_try_block (net : string -> FetchResult) (q : string) (p : Page) :
  Sparse.try_block (fun u => Sparse.of_result (net u)) q p = try_block net q p.
Proof.
  rewrite sparse_try_block_run, try_block_run. cbv zeta.
  destruct (net (endpoint ++ toLowerCase q)) as [e|r]; [reflexivity|].
  cbn [Sparse.of_result]. unfold Sparse.ok, ok. cbn [Sparse.status Sparse.body].
  destruct ((200 <=? status r) && (status r <=? 299)); [|reflexivity].
  destruct (body r) as [data|e]; [|reflexivity].
  apply sparse_displayPokemon.
Qed.

(** On the answers of a service that sends full records, [fetchPokemon]
    on sparse bodies is [fetchPokemon] on records. *)
Lemma sparse_fetchPokemon (net : string -> FetchResult) (q : string) (p : Page) :
  Sparse.fetchPokemon (fun u => Sparse.of_result (net u)) q p = fetchPokemon net q p.
Proof.
  unfold Sparse.fetchPokemon, fetchPokemon.
  apply bind_ext; [reflexivity|]. intros _ p'.
  unfold try_catch. rewrite sparse_try_block. reflexivity.
Qed.

(** [fetchPokemon] on sparse bodies, in closed form. *)
Lemma sparse_fetch_run (net : string -> Sparse.FetchResult) (q : string) (p : Page) :
  let url := endpoint ++ toLowerCase q in
  match net url with
  | Sparse.Rejected _ =>
      Sparse.fetchPokemon net q p = (Throw unbound_s, loading url p)
  | Sparse.Resolved r =>
      if Sparse.ok r then
        match Sparse.body r with
        | Sparse.BadBody _ =>
            Sparse.fetchPokemon net q p = (Throw unbound_s, loading url p)
        | Sparse.JsonBody data =>
            exists oe k,
              Sparse.fetchPokemon net q p =
              (match oe with None => Normal tt | Some _ => Throw unbound_s end,
               mkPage (controls_after oe (controls (loading url p))) k
                 (pokemonInput_value p) (console p) (requests p ++ [url])) /\
              (oe = None <-> Sparse.displayable data)
        end
      else Sparse.fetchPokemon net q p = (Throw unbound_s, loading url p)
  end.
Proof.
  cbv zeta.
  assert (E : Sparse.fetchPokemon net q p =
              match Sparse.try_block net q (searching p) with
              | (Normal a, p') => (Normal a, p')
              | (Throw _, p') => (Throw unbound_s, p')
              end).
  { unfold Sparse.fetchPokemon, try_catch. unfold bind at 1.
    rewrite showLoading_run.
    destruct (Sparse.try_block net q (searching p)) as [[[]|e] p']; reflexivity. }
  rewrite E, sparse_try_block_run. cbv zeta. clear E.
  destruct (net (endpoint ++ toLowerCase q)) as [e|r]; [reflexivity|].
  destruct (Sparse.ok r).
  - destruct (Sparse.body r) as [data|e]; [|reflexivity].
    destruct (sparse_display_run data (add_request (endpoint ++ toLowerCase q) (searching p)))
      as (oe & k & Hrun & Hiff & _).
    exists oe, k. rewrite Hrun. split; [|exact Hiff].
    destruct oe; reflexivity.
  - destruct (Sparse.status r =? 404); reflexivity.
Qed.

End SparseFacts.

(** ** Bodies with missing fields: what the page shows *)

Section SparseTheorems.
Import JsString JsNumber Dom Script Render Observe.

(** Whatever fields the body has: [displayPokemon] runs to its end exactly
    when the body is an object with a name, a [sprites] member and a list
    of types each entry of which carries a name that the table does not
    inherit.  Otherwise it throws, a [TypeError] where it reads the first
    missing member or the error of [classList.add], and the card keeps the
    visibility it had.  In every case the button is enabled and the
    loading indicator and the error box are hidden. *)
Theorem body_displayed_iff (data : Sparse.field Sparse.Payload) (p : Page) :
  (fst (Sparse.displayPokemon data p) = Normal tt <-> Sparse.displayable data) /\
  (forall e, fst (Sparse.displayPokemon data p) = Throw e ->
     (exn_name e = "TypeError" \/ exn_name e = "InvalidCharacterError") /\
     pokemonCard_hidden (controls (snd (Sparse.displayPokemon data p))) =
       pokemonCard_hidden (controls p)) /\
  searchBtn_disabled (controls (snd (Sparse.displayPokemon data p))) = false /\
  loadingIndicator_hidden (controls (snd (Sparse.displayPokemon data p))) = true /\
  errorMessage_hidden (controls (snd (Sparse.displayPokemon data p))) = true.
Proof.
  destruct (sparse_display_run data p) as (oe & k & Hrun & Hiff & Hexn & _).
  rewrite Hrun. cbn [fst snd controls].
  split; [|split; [|repeat split]].
  - rewrite <- Hiff. destruct oe; cbn [outcome]; split; congruence.
  - intros e. destruct oe as [x|]; cbn [outcome]; [|discriminate].
    intros H. injection H as <-. split; [apply Hexn|]; reflexivity.
Qed.

(** A body that can be displayed but lacks a number shows it so: the
    identifier reads "#undefined" or "#null", the height and the weight
    "NaN" for a missing value and "0.00" for [null], and the base
    experience is empty. *)
Theorem missing_fields_as_shown (obj : Sparse.Payload) (p : Page) :
  Sparse.displayable (Sparse.Value obj) ->
  let k := card (snd (Sparse.displayPokemon (Sparse.Value obj) p)) in
  (Sparse.id obj = Sparse.Absent -> pokemonId k = "#undefined") /\
  (Sparse.id obj = Sparse.Null -> pokemonId k = "#null") /\
  (Sparse.height obj = Sparse.Absent -> pokemonHeight k = "NaN m") /\
  (Sparse.height obj = Sparse.Null -> pokemonHeight k = "0.00 m") /\
  (Sparse.weight obj = Sparse.Absent -> pokemonWeight k = "NaN kg") /\
  (Sparse.weight obj = Sparse.Null -> pokemonWeight k = "0.00 kg") /\
  (Sparse.base_experience obj = Sparse.Absent \/
   Sparse.base_experience obj = Sparse.Null -> pokemonExperience k = "").
Proof.
  intros Hd. cbv zeta.
  destruct (sparse_display_run (Sparse.Value obj) p) as (oe & k & Hrun & Hiff & _ & Hk).
  assert (Hn : exists s, Sparse.name obj = Sparse.Value s).
  { destruct Hd as [Hn _]. destruct (Sparse.name obj) as [| |s];
      [destruct Hn|destruct Hn|exists s; reflexivity]. }
  destruct Hn as [s Hn]. apply Hiff in Hd.
  destruct (Hk obj s eq_refl Hn Hd) as (_ & H2 & H3 & H4 & H5).
  rewrite Hrun. cbn [snd card].
  split; [intros E; rewrite H2, E; reflexivity|].
  split; [intros E; rewrite H2, E; reflexivity|].
  split; [intros E; rewrite H3, E; reflexivity|].
  split; [intros E; rewrite H3, E; reflexivity|].
  split; [intros E; rewrite H4, E; reflexivity|].
  split; [intros E; rewrite H4, E; reflexivity|].
  intros [E|E]; rewrite H5, E; reflexivity.
Qed.


(** A status in 200-299 with a body that cannot be displayed (the empty
    object, the list of resources, a record without its types) leaves the
    page with no panel at all: the loading indicator, the error box and
    the card are hidden, the button is enabled and reads "Search", and the
    promise is rejected. *)
Theorem no_panel_after_unusable_body (net : string -> Sparse.FetchResult)
  (q : string) (p : Page) (r : Sparse.Response) (data : Sparse.field Sparse.Payload) :
  net (endpoint ++ toLowerCase q) = Sparse.Resolved r ->
  Sparse.ok r = true ->
  Sparse.body r = Sparse.JsonBody data ->
  ~ Sparse.displayable data ->
  fst (Sparse.fetchPokemon net q p) = Throw unbound_s /\
  panels_shown (snd (Sparse.fetchPokemon net q p)) = 0%nat /\
  searchBtn_disabled (controls (snd (Sparse.fetchPokemon net q p))) = false /\
  searchBtn_textContent (controls (snd (Sparse.fetchPokemon net q p))) = "Search".
Proof.
  intros Hn Hok Hb Hd.
  pose proof (sparse_fetch_run net q p) as H. cbv zeta in H.
  rewrite Hn, Hok, Hb in H. destruct H as (oe & k & Hrun & Hiff).
  rewrite Hrun. destruct oe as [x|].
  - repeat split.
  - exfalso. apply Hd, Hiff. reflexivity.
Qed.

End SparseTheorems.

(** ** The theorems above on concrete pages *)

Section Instances.
Import JsString JsNumber Dom Script Render Observe.


Lemma lookup_ignores_controls_witness :
  let net := fun _ : string => Resolved (mkResponse 200 (JsonBody pikachu)) in
  onKeypress net "Enter"
    (with_controls (fun _ => busy_controls) (set_input "pikachu" start)) =
  onKeypress net "Enter" (set_input "pikachu" start).
Proof.
  cbv zeta.
  apply (proj2 (lookup_ignores_controls
                  (fun _ => Resolved (mkResponse 200 (JsonBody pikachu)))
                  (set_input "pikachu" start) busy_controls eq_refl)).
Defined.

Lemma displayPokemon_completes_iff_witness :
  fst (displayPokemon pikachu start) = Normal tt.
Proof.
  apply (proj2 (proj1 (displayPokemon_completes_iff pikachu start))).
  repeat constructor.
Defined.

Lemma fetchPokemon_outcome_witness :
  fst (fetchPokemon (fun _ => Resolved (mkResponse 200 (JsonBody pikachu)))
         "pikachu" start) = Normal tt /\
  fst (fetchPokemon (fun _ => Resolved (mkResponse 503 (JsonBody pikachu)))
         "pikachu" start) = Throw unbound_s.
Proof.
  split.
  - apply (proj2 (proj1 (fetchPokemon_outcome
                           (fun _ => Resolved (mkResponse 200 (JsonBody pikachu)))
                           "pikachu" start)
                    (mkResponse 200 (JsonBody pikachu)) pikachu eq_refl eq_refl)).
    split; [reflexivity|]. repeat constructor.
  - apply (proj1 (proj2 (fetchPokemon_outcome
                           (fun _ => Resolved (mkResponse 503 (JsonBody pikachu)))
                           "pikachu" start))).
    left. reflexivity.
Defined.

Lemma lookup_ignores_case_witness :
  let net := fun _ : string => Resolved (mkResponse 200 (JsonBody pikachu)) in
  requests (snd (lookup net "PIKACHU" start)) =
  requests (snd (lookup net "pikachu" start)).
Proof.
  cbv zeta.
  apply (proj1 (proj2 (lookup_ignores_case
                         (fun _ => Resolved (mkResponse 200 (JsonBody pikachu)))
                         "pikachu" start eq_refl))).
Defined.

Lemma identifier_shown_apart_witness :
  id pikachu =
  id (mkRecord 25 "raichu" 8 300 243 (mkSprites None None None None) []).
Proof.
  apply (identifier_shown_apart pikachu
           (mkRecord 25 "raichu" 8 300 243 (mkSprites None None None None) [])
           start start).
  - simpl. lia.
  - simpl. lia.
  - reflexivity.
Defined.

Lemma http_error_message_is_generic_witness :
  let net := fun _ : string =>
               Resolved (mkResponse 500 (BadBody (mkExn "SyntaxError" "Unexpected end of JSON input"))) in
  fst (try_block net "pikachu" start) = Throw (Error "HTTP Error: 500").
Proof.
  cbv zeta.
  destruct (http_error_message_is_generic
              (fun _ => Resolved (mkResponse 500 (BadBody (mkExn "SyntaxError" "Unexpected end of JSON input"))))
              "pikachu" start
              (mkResponse 500 (BadBody (mkExn "SyntaxError" "Unexpected end of JSON input"))))
    as [H _].
  - reflexivity.
  - reflexivity.
  - simpl. lia.
  - simpl. lia.
  - exact H.
Defined.

Lemma experience_in_decimal_witness :
  pokemonExperience (card (snd (displayPokemon pikachu start))) = "112".
Proof. apply (experience_in_decimal pikachu start). simpl. lia. Defined.

Lemma badges_of_plain_names_witness :
  let data := mkRecord 6 "charizard" 17 905 267
                (mkSprites None None None None) ["fire"; "flying"; "shadow"; "fire"] in
  pokemonTypes (card (snd (displayPokemon data start))) =
  [mkBadge "Fire"
     ["px-4"; "py-2"; "rounded-full"; "text-white"; "font-semibold"; "text-sm";
      "bg-red-500"];
   mkBadge "Flying"
     ["px-4"; "py-2"; "rounded-full"; "text-white"; "font-semibold"; "text-sm";
      "bg-indigo-400"];
   mkBadge "Shadow"
     ["px-4"; "py-2"; "rounded-full"; "text-white"; "font-semibold"; "text-sm";
      "bg-gray-400"];
   mkBadge "Fire"
     ["px-4"; "py-2"; "rounded-full"; "text-white"; "font-semibold"; "text-sm";
      "bg-red-500"]].
Proof.
  cbv zeta.
  apply (badges_of_plain_names
           (mkRecord 6 "charizard" 17 905 267
              (mkSprites None None None None) ["fire"; "flying"; "shadow"; "fire"])
           start).
  - repeat constructor.
  - repeat constructor.
Defined.

(** Four queries sent with the Enter key while the service cannot be
    reached: each lookup fails and leaves the button disabled, and the
    three queries that are not blank are requested all the same. *)
Lemma requests_accumulate_witness :
  let net := fun _ : string => Rejected (mkExn "TypeError" "Failed to fetch") in
  requests (after_lookups net ["pikachu"; "   "; " Raichu"; "pikachu"] start) =
  ["https://pokeapi.co/api/v2/pokemon/pikachu";
   "https://pokeapi.co/api/v2/pokemon/raichu";
   "https://pokeapi.co/api/v2/pokemon/pikachu"].
Proof.
  cbv zeta.
  apply (requests_accumulate
           (fun _ => Rejected (mkExn "TypeError" "Failed to fetch"))
           ["pikachu"; "   "; " Raichu"; "pikachu"]).
  repeat constructor.
Defined.

End Instances.

Section ThemeInstances.
Import Dom Theme Observe.

Lemma click_sets_the_theme_witness :
  fst (onToggleClick light_theme) = Normal tt /\
  isDarkMode (snd (onToggleClick light_theme)) = true /\
  agrees (snd (onToggleClick light_theme)) = true.
Proof.
  apply (click_sets_the_theme light_theme ["inline-block"; "transform"]).
  reflexivity.
Defined.

Lemma click_keeps_other_classes_witness :
  has "min-h-screen" (body_classList (snd (onToggleClick light_theme))) = true.
Proof.
  apply (proj1 (click_keeps_other_classes light_theme
                  ["inline-block"; "transform"] eq_refl) "min-h-screen").
  reflexivity.
Defined.

Lemma two_clicks_restore_witness :
  isDarkMode (snd (onToggleClick (snd (onToggleClick light_theme)))) = false /\
  same_classes
    (body_classList (snd (onToggleClick (snd (onToggleClick light_theme)))))
    (body_classList light_theme).
Proof.
  split.
  - apply (proj1 (proj2 (proj2 (two_clicks_restore light_theme eq_refl)))).
  - apply (proj1 (proj2 (proj2 (proj2 (two_clicks_restore light_theme eq_refl))))).
Defined.

Lemma click_without_span_witness :
  fst (onToggleClick (mkTheme false [] [] None)) =
  Throw (mkExn "TypeError" "Cannot read properties of null (reading 'classList')").
Proof.
  apply (proj1 (click_without_span (mkTheme false [] [] None) eq_refl)).
Defined.

End ThemeInstances.

Section SparseInstances.
Import JsString JsNumber Dom Script Render Observe.

(** A body with a name, sprites and types, and no number. *)
Lemma missing_fields_as_shown_witness :
  let obj := Sparse.mkPayload Sparse.Absent (Sparse.Value "pikachu") Sparse.Null
               Sparse.Absent Sparse.Null
               (Sparse.Value (Sparse.mkSprites Sparse.Absent Sparse.Absent
                                Sparse.Absent Sparse.Absent))
               (Sparse.Value []) in
  let k := card (snd (Sparse.displayPokemon (Sparse.Value obj) start)) in
  pokemonId k = "#undefined" /\ pokemonHeight k = "0.00 m" /\
  pokemonWeight k = "NaN kg" /\ pokemonExperience k = "".
Proof.
  cbv zeta.
  pose proof (missing_fields_as_shown
                (Sparse.mkPayload Sparse.Absent (Sparse.Value "pikachu") Sparse.Null
                   Sparse.Absent Sparse.Null
                   (Sparse.Value (Sparse.mkSprites Sparse.Absent Sparse.Absent
                                    Sparse.Absent Sparse.Absent))
                   (Sparse.Value []))
                start
                (conj I (conj I (Forall_nil _)))) as H.
  cbv zeta in H.
  destruct H as (H2 & _ & _ & H3 & H4 & _ & H5).
  split; [exact (H2 eq_refl)|]. split; [exact (H3 eq_refl)|].
  split; [exact (H4 eq_refl)|]. exact (H5 (or_intror eq_refl)).
Defined.

(** The service answers 200 with the empty object. *)
Lemma no_panel_after_unusable_body_witness :
  let net := fun _ : string =>
               Sparse.Resolved (Sparse.mkResponse 200 (Sparse.JsonBody Sparse.empty_object)) in
  fst (Sparse.fetchPokemon net "?" start) = Throw unbound_s /\
  panels_shown (snd (Sparse.fetchPokemon net "?" start)) = 0%nat /\
  searchBtn_disabled (controls (snd (Sparse.fetchPokemon net "?" start))) = false.
Proof.
  cbv zeta.
  destruct (no_panel_after_unusable_body
              (fun _ => Sparse.Resolved
                          (Sparse.mkResponse 200 (Sparse.JsonBody Sparse.empty_object)))
              "?" start
              (Sparse.mkResponse 200 (Sparse.JsonBody Sparse.empty_object))
              Sparse.empty_object eq_refl eq_refl eq_refl)
    as (H1 & H2 & H3 & _).
  - intros [[] _].
  - split; [exact H1|]. split; [exact H2|exact H3].
Defined.

End SparseInstances.
